(** * pinamap: a shallow embedding of the request handlers and UI controllers

    The development follows the TypeScript sources:
    - [SearchRoute]     app/api/search/route.ts   (GET)
    - [SubmitRoute]     app/api/submit/route.ts   (POST)
    - [LocationSearch]  app/locationSearch.tsx    (type-ahead search box)
    - [Panel]           app/panel.tsx             (memory form, handleSubmit)
    - [MemoryMap]       the map view component    (the local filter of handleSearch)

    React state is a record, one field per [useState]/[useRef]; a handler is a
    function from the state to the new state and the list of effects it
    performs (network calls, callbacks to the parent, console output).  An
    [async] handler is cut at its [await]: the part before it, and the
    continuation that runs when the response arrives. *)

From Stdlib Require Import ZArith QArith Qround Ascii String.
From stdpp Require Import base gmap strings list pretty.

Local Open Scope Z_scope.

(** ** JavaScript values and string primitives *)

Module JS.

(** Truthiness of a string value: only the empty string is falsy. *)
Definition truthy (s : string) : bool :=
  match s with EmptyString => false | String _ _ => true end.

(** An optional property ([undefined] when absent). *)
Definition truthy_opt (o : option string) : bool :=
  match o with Some s => truthy s | None => false end.

(** [a || b] on an optional string and a string. *)
Definition or_else (a : option string) (b : string) : string :=
  match a with
  | Some s => if truthy s then s else b
  | None => b
  end.

(** White space removed by [String.prototype.trim], within ASCII:
    TAB, LF, VT, FF, CR and SPACE. *)
Definition isWhiteSpace (c : ascii) : bool := Ascii.is_space c.

Fixpoint trimStart (s : string) : string :=
  match s with
  | EmptyString => EmptyString
  | String c s' => if isWhiteSpace c then trimStart s' else s
  end.

Definition trimEnd (s : string) : string :=
  String.rev (trimStart (String.rev s)).

Definition trim (s : string) : string := trimEnd (trimStart s).

(** [Array.prototype.join]. *)
Fixpoint join (sep : string) (l : list string) : string :=
  match l with
  | [] => ""
  | [x] => x
  | x :: rest => x +:+ sep +:+ join sep rest
  end.

(** [toLowerCase] / [toUpperCase] on the ASCII letters. *)
Definition toLowerCaseChar (c : ascii) : ascii :=
  let n := nat_of_ascii c in
  if ((65 <=? n) && (n <=? 90))%nat then ascii_of_nat (n + 32) else c.

Definition toUpperCaseChar (c : ascii) : ascii :=
  let n := nat_of_ascii c in
  if ((97 <=? n) && (n <=? 122))%nat then ascii_of_nat (n - 32) else c.

Fixpoint mapString (f : ascii -> ascii) (s : string) : string :=
  match s with
  | EmptyString => EmptyString
  | String c s' => String (f c) (mapString f s')
  end.

Definition toLowerCase : string -> string := mapString toLowerCaseChar.
Definition toUpperCase : string -> string := mapString toUpperCaseChar.

(** [s.includes(sub)]. *)
Fixpoint startsWith (sub s : string) : bool :=
  match sub, s with
  | EmptyString, _ => true
  | String a sub', String b s' => Ascii.eqb a b && startsWith sub' s'
  | String _ _, EmptyString => false
  end.

Fixpoint includes (s sub : string) : bool :=
  startsWith sub s ||
  match s with
  | EmptyString => false
  | String _ s' => includes s' sub
  end.

(** A record identifier as it arrives in JSON: a number or a string. *)
Inductive Id : Type :=
| IdNum (n : Z)
| IdStr (s : string).

(** [!!id]: zero and the empty string are falsy. *)
Definition truthyId (i : Id) : bool :=
  match i with
  | IdNum n => negb (n =? 0)
  | IdStr s => truthy s
  end.

(** The identifier inside a template literal. *)
Definition idToString (i : Id) : string :=
  match i with
  | IdNum n => pretty n
  | IdStr s => s
  end.

End JS.

(** ** The location search box (locationSearch.tsx) *)

Module LocationSearch.

Record Named : Type := { name_of : string }.

Record Context : Type := {
  country : option Named;
  region : option Named;
  place : option Named;
}.

Record SearchBoxSuggestion : Type := {
  name : string;
  name_preferred : option string;
  mapbox_id : string;
  feature_type : string;
  address : option string;
  full_address : option string;
  context : option Context;
}.

(** [if (c.place?.name) context.push(c.place.name)]. *)
Definition pushName (field : option Named) (acc : list string) : list string :=
  match field with
  | Some n => if JS.truthy (name_of n) then acc ++ [name_of n] else acc
  | None => acc
  end.

Definition getDisplayName (suggestion : SearchBoxSuggestion) : string :=
  if JS.truthy_opt (name_preferred suggestion)
  then default "" (name_preferred suggestion)
  else
    let name := JS.or_else (name_preferred suggestion) (name suggestion) in
    let context :=
      match context suggestion with
      | Some c => pushName (country c) (pushName (region c) (pushName (place c) []))
      | None => []
      end in
    if (0 <? length context)%nat
    then name +:+ ", " +:+ JS.join ", " context
    else name.

(** *** Session tokens *)

(** [v.toString(16)] for a value between 0 and 15. *)
Definition toString16 (v : Z) : ascii :=
  match v with
  | 0 => "0" | 1 => "1" | 2 => "2" | 3 => "3" | 4 => "4" | 5 => "5"
  | 6 => "6" | 7 => "7" | 8 => "8" | 9 => "9" | 10 => "a" | 11 => "b"
  | 12 => "c" | 13 => "d" | 14 => "e" | _ => "f"
  end%char.

(** The replacement callback of [generateSessionToken]; [random] is the
    value returned by this call of [Math.random()], a number in [0, 1). *)
Definition replacer (random : Q) (c : ascii) : ascii :=
  let r := Qfloor (random * 16) in
  let v := if Ascii.eqb c "x" then r else Z.lor (Z.land r 3) 8 in
  toString16 v.

(** [template.replace(/[xy]/g, replacer)]: the [k]-th match consumes the
    [k]-th call of [Math.random]. *)
Fixpoint replaceXY (template : string) (random : nat -> Q) (k : nat) : string :=
  match template with
  | EmptyString => EmptyString
  | String c rest =>
      if Ascii.eqb c "x" || Ascii.eqb c "y"
      then String (replacer (random k) c) (replaceXY rest random (S k))
      else String c (replaceXY rest random k)
  end.

Definition generateSessionToken (random : nat -> Q) : string :=
  replaceXY "xxxxxxxx-xxxx-4xxx-yxxx-xxxxxxxxxxxx" random 0.

Section Component.

(** JavaScript numbers (coordinates) are carried around, never computed on. *)
Context {number : Type}.
(** The [mapboxToken] prop. *)
Variable mapboxToken : string.

Record RetrieveProperties : Type := {
  prop_name : string;
  prop_mapbox_id : string;
  prop_feature_type : string;
  prop_name_preferred : option string;
}.

Record RetrieveFeature : Type := {
  coordinates : number * number;
  properties : RetrieveProperties;
}.

(** The outcome of [await fetch(..)] followed by [await response.json()]:
    the promise rejects, the status is not a success, or a body arrives. *)
Inductive Fetched (A : Type) : Type :=
| Rejected
| NotOk
| Ok (data : A).
Global Arguments Rejected {A}.
Global Arguments NotOk {A}.
Global Arguments Ok {A} data.

(** A timer of the JavaScript runtime armed by [setTimeout]: the time at
    which it becomes due and the query its callback has captured. *)
Record Timeout : Type := {
  due : Z;
  callbackQuery : string;
}.

Record State : Type := {
  searchTerm : string;
  isSearching : bool;
  results : list SearchBoxSuggestion;
  showResults : bool;
  searchDebounceRef : option nat;
  sessionTokenRef : string;
  (* the runtime's table of pending timers and its next timer id *)
  timeouts : gmap nat Timeout;
  nextTimeoutId : nat;
}.

Inductive Effect : Type :=
| FetchSuggest (q session_token access_token : string) (limit : Z)
| FetchRetrieve (mapboxId session_token access_token : string)
| OnLocationSelect (lng lat : number)
| OnTempMarker (lng lat : number)
| ConsoleError (label : string).

Definition setSearchTerm (v : string) (st : State) : State :=
  {| searchTerm := v; isSearching := isSearching st; results := results st;
     showResults := showResults st; searchDebounceRef := searchDebounceRef st;
     sessionTokenRef := sessionTokenRef st; timeouts := timeouts st;
     nextTimeoutId := nextTimeoutId st |}.

Definition setIsSearching (v : bool) (st : State) : State :=
  {| searchTerm := searchTerm st; isSearching := v; results := results st;
     showResults := showResults st; searchDebounceRef := searchDebounceRef st;
     sessionTokenRef := sessionTokenRef st; timeouts := timeouts st;
     nextTimeoutId := nextTimeoutId st |}.

Definition setResults (v : list SearchBoxSuggestion) (st : State) : State :=
  {| searchTerm := searchTerm st; isSearching := isSearching st; results := v;
     showResults := showResults st; searchDebounceRef := searchDebounceRef st;
     sessionTokenRef := sessionTokenRef st; timeouts := timeouts st;
     nextTimeoutId := nextTimeoutId st |}.

Definition setShowResults (v : bool) (st : State) : State :=
  {| searchTerm := searchTerm st; isSearching := isSearching st; results := results st;
     showResults := v; searchDebounceRef := searchDebounceRef st;
     sessionTokenRef := sessionTokenRef st; timeouts := timeouts st;
     nextTimeoutId := nextTimeoutId st |}.

(** [clearTimeout(id)]: removes the timer if it is still pending. *)
Definition clearTimeout (id : nat) (st : State) : State :=
  {| searchTerm := searchTerm st; isSearching := isSearching st; results := results st;
     showResults := showResults st; searchDebounceRef := searchDebounceRef st;
     sessionTokenRef := sessionTokenRef st; timeouts := delete id (timeouts st);
     nextTimeoutId := nextTimeoutId st |}.

(** [searchDebounceRef.current = setTimeout(() => fetchSearchSuggestions(query), delay)]
    executed at time [now]. *)
Definition setTimeoutRef (query : string) (delay now : Z) (st : State) : State :=
  {| searchTerm := searchTerm st; isSearching := isSearching st; results := results st;
     showResults := showResults st; searchDebounceRef := Some (nextTimeoutId st);
     sessionTokenRef := sessionTokenRef st;
     timeouts := <[nextTimeoutId st := {| due := now + delay; callbackQuery := query |}]>
                   (timeouts st);
     nextTimeoutId := S (nextTimeoutId st) |}.

(** [resetSessionToken]: [sessionTokenRef.current = generateSessionToken()]. *)
Definition resetSessionToken (random : nat -> Q) (st : State) : State :=
  {| searchTerm := searchTerm st; isSearching := isSearching st; results := results st;
     showResults := showResults st; searchDebounceRef := searchDebounceRef st;
     sessionTokenRef := generateSessionToken random; timeouts := timeouts st;
     nextTimeoutId := nextTimeoutId st |}.

(** The state after the first render.  [useRef(generateSessionToken())]
    keeps the value computed at the first render only. *)
Definition init (random : nat -> Q) : State :=
  {| searchTerm := ""; isSearching := false; results := []; showResults := false;
     searchDebounceRef := None; sessionTokenRef := generateSessionToken random;
     timeouts := ∅; nextTimeoutId := 1 |}.

(** [fetchSearchSuggestions], up to [await fetch(endpoint)]. *)
Definition fetchSearchSuggestions (query : string) (st : State) : State * list Effect :=
  if negb (JS.truthy (JS.trim query))
  then (setShowResults false (setResults [] st), [])
  else (setIsSearching true st,
        [FetchSuggest query (sessionTokenRef st) mapboxToken 5]).

(** [fetchSearchSuggestions], from the response on.  [suggestions] is
    [None] when the body has no such property. *)
Definition fetchSearchSuggestions_resume
    (response : Fetched (option (list SearchBoxSuggestion))) (st : State)
    : State * list Effect :=
  match response with
  | Ok (Some suggestions) =>
      let st := setResults suggestions st in
      let st := setShowResults (0 <? length suggestions)%nat st in
      (setIsSearching false st, [])
  | Ok None =>
      (* data.suggestions.length throws after setResults([]) *)
      let st := setResults [] st in
      let st := setResults [] st in
      (setIsSearching false st, [ConsoleError "Search suggestion error:"])
  | NotOk | Rejected =>
      let st := setResults [] st in
      (setIsSearching false st, [ConsoleError "Search suggestion error:"])
  end.

Definition handleInputChange (now : Z) (value : string) (st : State)
    : State * list Effect :=
  let query := value in
  let st := setSearchTerm query st in
  let st := match searchDebounceRef st with
            | Some id => clearTimeout id st
            | None => st
            end in
  (setTimeoutRef query 300 now st, []).

(** The runtime runs the callback of timer [id] at time [now]: only a
    pending timer that is due can fire, and it fires once. *)
Definition timerFire (id : nat) (now : Z) (st : State) : State * list Effect :=
  match timeouts st !! id with
  | Some t =>
      if due t <=? now
      then fetchSearchSuggestions (callbackQuery t) (clearTimeout id st)
      else (st, [])
  | None => (st, [])
  end.

(** [retrieveLocation], up to [await fetch(endpoint)]. *)
Definition retrieveLocation (mapboxId : string) (st : State) : State * list Effect :=
  (setIsSearching true st,
   [FetchRetrieve mapboxId (sessionTokenRef st) mapboxToken]).

(** [retrieveLocation], from the response on.  [random] is the sequence
    of values [Math.random] returns should the token be regenerated. *)
Definition retrieveLocation_resume
    (response : Fetched (option (list RetrieveFeature))) (random : nat -> Q)
    (st : State) : State * list Effect :=
  match response with
  | Ok (Some (feature :: _)) =>
      let '(lng, lat) := coordinates feature in
      let st := setSearchTerm
                  (JS.or_else (prop_name_preferred (properties feature))
                              (prop_name (properties feature))) st in
      let st := resetSessionToken random st in
      let st := setIsSearching false st in
      (setShowResults false st, [OnLocationSelect lng lat; OnTempMarker lng lat])
  | Ok _ =>
      (setShowResults false (setIsSearching false st), [])
  | NotOk | Rejected =>
      (setShowResults false (setIsSearching false st),
       [ConsoleError "Location retrieve error:"])
  end.

Definition handleResultClick (suggestion : SearchBoxSuggestion) (st : State)
    : State * list Effect :=
  retrieveLocation (mapbox_id suggestion) st.

Definition handleKeyDown (key : string) (st : State) : State * list Effect :=
  if String.eqb key "Enter"
  then match results st with
       | first :: _ => retrieveLocation (mapbox_id first) st
       | [] => if JS.truthy (JS.trim (searchTerm st))
               then fetchSearchSuggestions (searchTerm st) st
               else (st, [])
       end
  else (st, []).

(** The [onClick] of the search button, which is disabled while
    [isSearching]. *)
Definition searchButtonClick (st : State) : State * list Effect :=
  if isSearching st then (st, [])
  else match results st with
       | first :: _ => retrieveLocation (mapbox_id first) st
       | [] => fetchSearchSuggestions (searchTerm st) st
       end.

(** [handleClickOutside]; [inside] tells whether the container contains
    the event target. *)
Definition handleClickOutside (inside : bool) (st : State) : State * list Effect :=
  if negb inside then (setShowResults false st, []) else (st, []).

(** What can happen to the component. *)
Inductive Event : Type :=
| InputChange (now : Z) (value : string)
| TimerFire (id : nat) (now : Z)
| KeyDown (key : string)
| ResultClick (suggestion : SearchBoxSuggestion)
| ButtonClick
| MouseDown (inside : bool)
| SuggestResponse (response : Fetched (option (list SearchBoxSuggestion)))
| RetrieveResponse (response : Fetched (option (list RetrieveFeature)))
                   (random : nat -> Q).

Definition step (st : State) (ev : Event) : State * list Effect :=
  match ev with
  | InputChange now value => handleInputChange now value st
  | TimerFire id now => timerFire id now st
  | KeyDown key => handleKeyDown key st
  | ResultClick suggestion => handleResultClick suggestion st
  | ButtonClick => searchButtonClick st
  | MouseDown inside => handleClickOutside inside st
  | SuggestResponse response => fetchSearchSuggestions_resume response st
  | RetrieveResponse response random => retrieveLocation_resume response random st
  end.

(** A run: the events in order, the effects accumulated in order. *)
Fixpoint run (st : State) (evs : list Event) : State * list Effect :=
  match evs with
  | [] => (st, [])
  | ev :: rest =>
      let '(st1, out1) := step st ev in
      let '(st2, out2) := run st1 rest in
      (st2, out1 ++ out2)
  end.

(** The condition under which the list of suggestions is rendered:
    [showResults && results.length > 0]. *)
Definition panelVisible (st : State) : bool :=
  showResults st && (0 <? length (results st))%nat.

End Component.

End LocationSearch.


(** ** The memory form (panel.tsx) *)

Module Panel.

Section Component.

Context {number : Type}.

Record FormData : Type := {
  message : string;
  receiver : string;
}.

Record State : Type := {
  showForm : bool;
  formData : FormData;
  markerLocation : option (number * number);
  isSubmitting : bool;
  errorMessage : option string;
}.

(** A record of [result.data], as /api/submit returns it. *)
Record Memory : Type := {
  mem_id : option JS.Id;
  mem_message : string;
  mem_receiver : string;
  mem_time : string;
  mem_longitude : number;
  mem_latitude : number;
}.

(** The GeoJSON point feature handed to [onNewPin]. *)
Record Feature : Type := {
  prop_id : string;
  prop_message : string;
  prop_receiver : string;
  prop_time : string;
  geometry_coordinates : number * number;
}.

(** What [await fetch('/api/submit', ..)] and [await response.json()] give:
    an exception (with the message of the [Error], if it is one), a
    response that is not ok, or the parsed body with its [data] property. *)
Inductive SubmitResponse : Type :=
| Thrown (error_message : option string)
| HttpNotOk (statusText : string)
| HttpOk (data : option (list Memory)).

Inductive Effect : Type :=
| FetchSubmit (body_message body_receiver : string) (body_latitude body_longitude : number)
| OnNewPin (feature : Feature)
| OnPinFormToggle (show : bool)
| ConsoleError (error_message : option string).

Definition setShowForm (v : bool) (st : State) : State :=
  {| showForm := v; formData := formData st; markerLocation := markerLocation st;
     isSubmitting := isSubmitting st; errorMessage := errorMessage st |}.

Definition setFormData (v : FormData) (st : State) : State :=
  {| showForm := showForm st; formData := v; markerLocation := markerLocation st;
     isSubmitting := isSubmitting st; errorMessage := errorMessage st |}.

Definition setMarkerLocation (v : option (number * number)) (st : State) : State :=
  {| showForm := showForm st; formData := formData st; markerLocation := v;
     isSubmitting := isSubmitting st; errorMessage := errorMessage st |}.

Definition setIsSubmitting (v : bool) (st : State) : State :=
  {| showForm := showForm st; formData := formData st; markerLocation := markerLocation st;
     isSubmitting := v; errorMessage := errorMessage st |}.

Definition setErrorMessage (v : option string) (st : State) : State :=
  {| showForm := showForm st; formData := formData st; markerLocation := markerLocation st;
     isSubmitting := isSubmitting st; errorMessage := v |}.

(** [handleSubmit], up to [await fetch(..)].  The boolean tells whether the
    request was sent, that is whether the handler is now waiting. *)
Definition handleSubmit (st : State) : State * list Effect * bool :=
  let st := setErrorMessage None st in
  match markerLocation st with
  | None =>
      (setErrorMessage (Some "Please drag the marker to a location on the map.") st,
       [], false)
  | Some (lng, lat) =>
      if negb (JS.truthy (JS.trim (message (formData st))))
         || negb (JS.truthy (JS.trim (receiver (formData st))))
      then (setErrorMessage (Some "Please fill in all fields.") st, [], false)
      else (setIsSubmitting true st,
            [FetchSubmit (message (formData st)) (receiver (formData st)) lat lng],
            true)
  end.

(** The [catch] and [finally] blocks. *)
Definition handleSubmit_catch (error_message : option string) (st : State)
    : State * list Effect :=
  let st := setErrorMessage
              (Some (default "Failed to submit memory" error_message)) st in
  (setIsSubmitting false st, [ConsoleError error_message]).

(** [result.data?.[0]]. *)
Definition firstRecord (data : option (list Memory)) : option Memory :=
  match data with
  | Some (m :: _) => Some m
  | _ => None
  end.

(** [!newMemory || !newMemory.id] negated: the record whose id is truthy. *)
Definition validRecord (data : option (list Memory)) : option (Memory * JS.Id) :=
  match firstRecord data with
  | Some m =>
      match mem_id m with
      | Some i => if JS.truthyId i then Some (m, i) else None
      | None => None
      end
  | None => None
  end.

(** [handleSubmit], from the response on. *)
Definition handleSubmit_resume (response : SubmitResponse) (st : State)
    : State * list Effect :=
  match response with
  | Thrown e => handleSubmit_catch e st
  | HttpNotOk statusText =>
      handleSubmit_catch (Some ("Failed to pin memory: " +:+ statusText)) st
  | HttpOk data =>
      match validRecord data with
      | None => handleSubmit_catch (Some "Invalid response from server") st
      | Some (newMemory, i) =>
          let newFeature :=
            {| prop_id := "msg" +:+ JS.idToString i;
               prop_message := mem_message newMemory;
               prop_receiver := mem_receiver newMemory;
               prop_time := mem_time newMemory;
               geometry_coordinates := (mem_longitude newMemory, mem_latitude newMemory) |} in
          let st := setFormData {| message := ""; receiver := "" |} st in
          let st := setMarkerLocation None st in
          let st := setShowForm false st in
          (setIsSubmitting false st, [OnNewPin newFeature; OnPinFormToggle false])
      end
  end.

(** A whole submission attempt: the handler, and its continuation on the
    response when a request was sent. *)
Definition submission (response : SubmitResponse) (st : State) : State * list Effect :=
  let '(st1, out1, waiting) := handleSubmit st in
  if waiting
  then let '(st2, out2) := handleSubmit_resume response st1 in (st2, out1 ++ out2)
  else (st1, out1).

(** [handleFormChange]; [name] is the [name] attribute of the input that
    changed.  The form has two named inputs, receiver and message. *)
Definition handleFormChange (name value : string) (st : State) : State :=
  let prev := formData st in
  let next :=
    if String.eqb name "message" then {| message := value; receiver := receiver prev |}
    else if String.eqb name "receiver" then {| message := message prev; receiver := value |}
    else prev in
  let st1 := setFormData next st in
  if JS.truthy_opt (errorMessage st) then setErrorMessage None st1 else st1.

Definition handleToggleForm (st : State) : State * list Effect :=
  let toggled := negb (showForm st) in
  let st := setShowForm toggled st in
  let st := if negb toggled
            then setErrorMessage None (setFormData {| message := ""; receiver := "" |} st)
            else st in
  (st, [OnPinFormToggle toggled]).

Variable parseFloat : string -> number.

(** The effect on [pinFormData]: the marker follows the pin of the map. *)
Definition pinFormDataEffect (pinFormData : option (string * string)) (st : State)
    : State :=
  match pinFormData with
  | Some (latitude, longitude) =>
      if JS.truthy latitude && JS.truthy longitude
      then setMarkerLocation (Some (parseFloat longitude, parseFloat latitude)) st
      else st
  | None => st
  end.

(** The state at the first render. *)
Definition init : State :=
  {| showForm := false; formData := {| message := ""; receiver := "" |};
     markerLocation := None; isSubmitting := false; errorMessage := None |}.

(** What can happen to the form.  The inputs and the submit button exist
    only while the form is shown, and they and the toggle button are
    disabled while [isSubmitting]; a response arrives only for a request
    that was sent. *)
Inductive Event : Type :=
| FormChange (name value : string)
| Submit
| SubmitAnswer (response : SubmitResponse)
| ToggleForm
| PinFormData (pinFormData : option (string * string)).

Definition step (st : State) (ev : Event) : State * list Effect :=
  match ev with
  | FormChange name value =>
      if showForm st && negb (isSubmitting st)
      then (handleFormChange name value st, []) else (st, [])
  | Submit =>
      if showForm st && negb (isSubmitting st)
      then let '(st1, out, _) := handleSubmit st in (st1, out) else (st, [])
  | SubmitAnswer response =>
      if isSubmitting st then handleSubmit_resume response st else (st, [])
  | ToggleForm =>
      if negb (isSubmitting st) then handleToggleForm st else (st, [])
  | PinFormData pinFormData => (pinFormDataEffect pinFormData st, [])
  end.

Fixpoint run (st : State) (evs : list Event) : State * list Effect :=
  match evs with
  | [] => (st, [])
  | ev :: rest =>
      let '(st1, out1) := step st ev in
      let '(st2, out2) := run st1 rest in
      (st2, out1 ++ out2)
  end.

End Component.

End Panel.


(** ** The map view ([MemoryMap]): the local part of [handleSearch] *)

Module MemoryMap.

(** The properties of a feature of [geojsonData]; [receiver] is [None] when
    the property is missing. *)
Record Feature : Type := {
  id : string;
  receiver : option string;
}.

(** [f.properties?.receiver?.toLowerCase() === receiver.toLowerCase()]. *)
Definition receiverIs (receiver0 : string) (f : Feature) : bool :=
  match receiver f with
  | Some r => String.eqb (JS.toLowerCase r) (JS.toLowerCase receiver0)
  | None => false
  end.

(** [geojsonData.features.filter(..)], the matches found before the server
    is asked. *)
Definition localMatches (features : list Feature) (receiver0 : string) : list Feature :=
  List.filter (receiverIs receiver0) features.

End MemoryMap.


(** ** The search endpoint (app/api/search/route.ts) *)

Module SearchRoute.

(** *** The backend operator

    [.filter('receiver', 'ilike', search)] sends [receiver=ilike.<search>] to
    PostgREST, which turns each [*] of the value into [%] and evaluates
    [receiver ILIKE pattern] in PostgreSQL. *)

Definition postgrestPattern (value : string) : string :=
  JS.mapString (fun c => if Ascii.eqb c "*" then "%"%char else c) value.

(** PostgreSQL [LIKE] with the default escape character: [%] matches any
    sequence of characters, [_] any one character, a backslash makes the
    next pattern character literal.  [None] is the error raised when the
    matcher meets a backslash that ends the pattern. *)
Fixpoint like (pattern : string) : string -> option bool :=
  match pattern with
  | EmptyString =>
      fun text => match text with EmptyString => Some true | _ => Some false end
  | String c rest =>
      if Ascii.eqb c "%" then
        fix any (text : string) : option bool :=
          match like rest text with
          | Some false =>
              match text with
              | EmptyString => Some false
              | String _ text' => any text'
              end
          | outcome => outcome
          end
      else if Ascii.eqb c "_" then
        fun text =>
          match text with
          | EmptyString => Some false
          | String _ text' => like rest text'
          end
      else if Ascii.eqb c "\" then
        match rest with
        | EmptyString =>
            fun text => match text with EmptyString => Some false | _ => None end
        | String e rest' =>
            fun text =>
              match text with
              | EmptyString => Some false
              | String d text' => if Ascii.eqb e d then like rest' text' else Some false
              end
        end
      else
        fun text =>
          match text with
          | EmptyString => Some false
          | String d text' => if Ascii.eqb c d then like rest text' else Some false
          end
  end.

(** [ILIKE]: both sides are lower-cased, then matched with [LIKE]. *)
Definition ilike (pattern text : string) : option bool :=
  like (JS.toLowerCase pattern) (JS.toLowerCase text).

Section Route.

Context {number : Type}.

(** A row of the [messages] table. *)
Record Row : Type := {
  id : Z;
  message : string;
  receiver : string;
  latitude : number;
  longitude : number;
  time : string;
}.

(** The backend as the handler sees it: the table, and whether the service
    answers at all ([Some] message when the request itself fails). *)
Record Supabase : Type := {
  messages : list Row;
  unavailable : option string;
}.

(** The [{ data, error }] pair of a query. *)
Inductive QueryResult : Type :=
| QueryError (error_message : string)
| QueryData (data : list Row).

(** [WHERE receiver ILIKE pattern], row by row in table order; an error on
    any row fails the statement. *)
Fixpoint whereIlike (pattern : string) (rows : list Row) : option (list Row) :=
  match rows with
  | [] => Some []
  | row :: rest =>
      match ilike pattern (receiver row), whereIlike pattern rest with
      | Some true, Some kept => Some (row :: kept)
      | Some false, Some kept => Some kept
      | _, _ => None
      end
  end.

(** [supabase.from('messages').select('*').filter('receiver', 'ilike', search)]. *)
Definition selectFilterIlike (supabase : Supabase) (search : string) : QueryResult :=
  match unavailable supabase with
  | Some e => QueryError e
  | None =>
      match whereIlike (postgrestPattern search) (messages supabase) with
      | Some rows => QueryData rows
      | None => QueryError "LIKE pattern must not end with escape character"
      end
  end.

Inductive Body : Type :=
| ErrorBody (error : string)
| DataBody (data : list Row).

Record Response : Type := {
  status : Z;
  body : Body;
}.

(** [GET]; the argument is [req.nextUrl.searchParams.get('receiver')],
    [None] for [null]. *)
Definition GET (supabase : Supabase) (receiverParam : option string) : Response :=
  let search := receiverParam in
  if negb (JS.truthy_opt search)
  then {| status := 400; body := ErrorBody "Missing receiver" |}
  else
    match selectFilterIlike supabase (default "" search) with
    | QueryError e => {| status := 500; body := ErrorBody e |}
    | QueryData data => {| status := 200; body := DataBody data |}
    end.

End Route.

End SearchRoute.


(** ** The create endpoint (app/api/submit/route.ts) *)

Module SubmitRoute.

(** [s.split(sep)] for a one-character separator; [cur] is the segment
    being read, reversed. *)
Fixpoint split_go (sep : ascii) (cur s : string) : list string :=
  match s with
  | EmptyString => [String.rev cur]
  | String c s' =>
      if Ascii.eqb c sep
      then String.rev cur :: split_go sep EmptyString s'
      else split_go sep (String c cur) s'
  end.

Definition split (sep : ascii) (s : string) : list string :=
  split_go sep EmptyString s.

(** [array.pop()] on the non-empty result of [split]. *)
Definition pop (l : list string) : string := List.last l "".

Section Route.

Context {number : Type}.
Variable parseFloat : string -> number.

(** A value of a JSON body or of the object handed to [insert]. *)
Inductive Value : Type :=
| VUndefined
| VNull
| VBool (b : bool)
| VNum (n : number)
| VStr (s : string).

(** An object literal, its properties in the order written. *)
Definition Object : Type := list (string * Value).

(** The properties the handler destructures from a JSON body. *)
Record JsonBody : Type := {
  json_message : Value;
  json_receiver : Value;
  json_latitude : Value;
  json_longitude : Value;
}.

Record File : Type := {
  file_name : string;
  file_size : Z;
  file_type : string;
  file_bytes : list Byte.byte;
}.

(** The entries the handler reads from the form data ([None] for [null]). *)
Record FormData : Type := {
  form_message : option string;
  form_receiver : option string;
  form_latitude : option string;
  form_longitude : option string;
  form_image : option File;
}.

(** The body of the request: [req.json()] and [req.formData()] throw on a
    body of the other kind or on a malformed one; a JSON [null] parses and
    then cannot be destructured. *)
Inductive Payload : Type :=
| Malformed
| Json (body : option JsonBody)
| Multipart (form : FormData).

Record Request : Type := {
  contentType : option string;
  payload : Payload;
}.

(** An object of the [images] bucket. *)
Record Blob : Type := {
  blob_bytes : list Byte.byte;
  blob_contentType : string;
  blob_cacheControl : string;
}.

(** The [{ data, error }] pair of [insert(..).select()]. *)
Inductive InsertResult : Type :=
| InsertError (error_message : string)
| InsertData (data : list Object).

(** What the surroundings decide during one request: the value of
    [uuidv4()], the clock, and how the backend answers each call. *)
Record Env : Type := {
  uuidv4 : string;
  toISOString : string;
  publicUrlBase : string;
  uploadError : option string;
  insertResult : InsertResult;
  removeError : option string;
}.

(** The calls the handler makes, in order. *)
Inductive Call : Type :=
| StorageUpload (path : string) (blob : Blob)
| StorageGetPublicUrl (path : string)
| StorageRemove (paths : list string)
| DbInsert (row : Object)
| ConsoleError (label : string).

Inductive Body : Type :=
| ErrorBody (error : string)
| SuccessBody (data : list Object).

Record Response : Type := {
  status : Z;
  body : Body;
}.

(** [storage.from('images').upload(path, bytes, { upsert: false, .. })]:
    refused when the service fails or the path is taken. *)
Definition upload (env : Env) (bucket : gmap string Blob) (path : string) (blob : Blob)
    : option (gmap string Blob) :=
  match uploadError env, bucket !! path with
  | None, None => Some (<[path := blob]> bucket)
  | _, _ => None
  end.

(** [storage.from('images').remove([path])]. *)
Definition remove (env : Env) (bucket : gmap string Blob) (path : string)
    : gmap string Blob :=
  match removeError env with
  | None => delete path bucket
  | Some _ => bucket
  end.

(** [!v] for a form entry. *)
Definition missing (entry : option string) : bool := negb (JS.truthy_opt entry).

Definition valueOfOption (o : option string) : Value :=
  match o with
  | Some s => VStr s
  | None => VNull
  end.

(** The JSON branch of [POST] (no file upload). *)
Definition POST_json (env : Env) (bucket : gmap string Blob) (body : JsonBody)
    : Response * gmap string Blob * list Call :=
  let row :=
    [("message", json_message body);
     ("receiver", json_receiver body);
     ("latitude", json_latitude body);
     ("longitude", json_longitude body);
     ("time", VStr (toISOString env));
     ("has_image", VBool false)] in
  match insertResult env with
  | InsertError e =>
      ({| status := 500; body := ErrorBody e |}, bucket,
       [DbInsert row; ConsoleError "Supabase insert error:"])
  | InsertData data =>
      ({| status := 200; body := SuccessBody data |}, bucket, [DbInsert row])
  end.

(** The insert of the multipart branch and what follows it; [imagePath] and
    [imageUrl] are [None] for [null]. *)
Definition POST_insert (env : Env) (bucket : gmap string Blob) (form : FormData)
    (imagePath imageUrl : option string) (calls : list Call)
    : Response * gmap string Blob * list Call :=
  let row :=
    [("message", VStr (default "" (form_message form)));
     ("receiver", VStr (default "" (form_receiver form)));
     ("latitude", VNum (parseFloat (default "" (form_latitude form))));
     ("longitude", VNum (parseFloat (default "" (form_longitude form))));
     ("time", VStr (toISOString env));
     ("image_path", valueOfOption imagePath);
     ("image_url", valueOfOption imageUrl);
     ("has_image", VBool (bool_decide (is_Some (form_image form))))] in
  match insertResult env with
  | InsertError e =>
      match imagePath with
      | Some path =>
          ({| status := 500; body := ErrorBody e |}, remove env bucket path,
           calls ++ [DbInsert row; StorageRemove [path];
                     ConsoleError "Database insert error:"])
      | None =>
          ({| status := 500; body := ErrorBody e |}, bucket,
           calls ++ [DbInsert row; ConsoleError "Database insert error:"])
      end
  | InsertData data =>
      ({| status := 200; body := SuccessBody data |}, bucket, calls ++ [DbInsert row])
  end.

(** The multipart branch of [POST]. *)
Definition POST_multipart (env : Env) (bucket : gmap string Blob) (form : FormData)
    : Response * gmap string Blob * list Call :=
  if missing (form_message form) || missing (form_receiver form)
     || missing (form_latitude form) || missing (form_longitude form)
  then ({| status := 400; body := ErrorBody "Missing required fields" |}, bucket, [])
  else
    match form_image form with
    | Some imageFile =>
        if 0 <? file_size imageFile
        then
          let fileExt := pop (split "." (file_name imageFile)) in
          let fileName := uuidv4 env +:+ "." +:+ fileExt in
          let imagePath := "images/" +:+ fileName in
          let blob := {| blob_bytes := file_bytes imageFile;
                         blob_contentType := file_type imageFile;
                         blob_cacheControl := "3600" |} in
          match upload env bucket imagePath blob with
          | None =>
              ({| status := 500; body := ErrorBody "Failed to upload image" |}, bucket,
               [StorageUpload imagePath blob; ConsoleError "Image upload error:"])
          | Some bucket' =>
              let imageUrl := publicUrlBase env +:+ imagePath in
              POST_insert env bucket' form (Some imagePath) (Some imageUrl)
                [StorageUpload imagePath blob; StorageGetPublicUrl imagePath]
          end
        else POST_insert env bucket form None None []
    | None => POST_insert env bucket form None None []
    end.

(** [POST]: the response, the bucket afterwards and the calls made. *)
Definition POST (env : Env) (bucket : gmap string Blob) (req : Request)
    : Response * gmap string Blob * list Call :=
  let isMultipart :=
    match contentType req with
    | Some ct => JS.includes ct "multipart/form-data"
    | None => false
    end in
  let internalError :=
    ({| status := 500; body := ErrorBody "Internal server error" |}, bucket,
     [ConsoleError "Unexpected error:"]) in
  if negb isMultipart
  then match payload req with
       | Json (Some body) => POST_json env bucket body
       | _ => internalError
       end
  else match payload req with
       | Multipart form => POST_multipart env bucket form
       | _ => internalError
       end.

(** The earlier, JSON-only version of the handler.  It has no [try]: [None]
    stands for the exception that escapes when [req.json()] throws or the
    body cannot be destructured. *)
Definition POST_previous (env : Env) (req : Request) : option (Response * list Call) :=
  match payload req with
  | Json (Some body) =>
      let row :=
        [("message", json_message body);
         ("receiver", json_receiver body);
         ("latitude", json_latitude body);
         ("longitude", json_longitude body);
         ("time", VStr (toISOString env))] in
      match insertResult env with
      | InsertError e =>
          Some ({| status := 500; body := ErrorBody e |},
                [DbInsert row; ConsoleError "Supabase insert error:"])
      | InsertData data =>
          Some ({| status := 200; body := SuccessBody data |}, [DbInsert row])
      end
  | _ => None
  end.

End Route.

End SubmitRoute.


(** ** The map view, whole ([MemoryMap]) *)

Module MapView.

Section Component.

Context {number : Type}.

(** The features of the map are the GeoJSON features the form hands to
    [onNewPin]; the rows are those of the [messages] table. *)
Definition formatFeature (msg : @SearchRoute.Row number) : @Panel.Feature number :=
  {| Panel.prop_id := "msg" +:+ pretty (SearchRoute.id msg);
     Panel.prop_message := SearchRoute.message msg;
     Panel.prop_receiver := SearchRoute.receiver msg;
     Panel.prop_time := SearchRoute.time msg;
     Panel.geometry_coordinates := (SearchRoute.longitude msg, SearchRoute.latitude msg) |}.

Definition formatFeatures (data : list (@SearchRoute.Row number))
    : list (@Panel.Feature number) :=
  List.map formatFeature data.

Record State : Type := {
  geojsonData : list (@Panel.Feature number);
  selectedFeature : option (@Panel.Feature number);
  matchedFeatures : list (@Panel.Feature number);
  isLoading : bool;
  pinMode : bool;
  pinLocation : number * number;
  searchQuery : string;
  tempMarker : option (number * number);
}.

Inductive Effect : Type :=
| FetchMessages
| FetchSearch (receiver : string)
| GetClusterExpansionZoom (clusterId : Z)
| EaseTo (center : number * number) (zoom duration : Z)
| ConsoleError (label : string).

Definition setGeojsonData (v : list (@Panel.Feature number)) (st : State) : State :=
  {| geojsonData := v; selectedFeature := selectedFeature st;
     matchedFeatures := matchedFeatures st; isLoading := isLoading st;
     pinMode := pinMode st; pinLocation := pinLocation st;
     searchQuery := searchQuery st; tempMarker := tempMarker st |}.

Definition setSelectedFeature (v : option (@Panel.Feature number)) (st : State) : State :=
  {| geojsonData := geojsonData st; selectedFeature := v;
     matchedFeatures := matchedFeatures st; isLoading := isLoading st;
     pinMode := pinMode st; pinLocation := pinLocation st;
     searchQuery := searchQuery st; tempMarker := tempMarker st |}.

Definition setMatchedFeatures (v : list (@Panel.Feature number)) (st : State) : State :=
  {| geojsonData := geojsonData st; selectedFeature := selectedFeature st;
     matchedFeatures := v; isLoading := isLoading st;
     pinMode := pinMode st; pinLocation := pinLocation st;
     searchQuery := searchQuery st; tempMarker := tempMarker st |}.

Definition setIsLoading (v : bool) (st : State) : State :=
  {| geojsonData := geojsonData st; selectedFeature := selectedFeature st;
     matchedFeatures := matchedFeatures st; isLoading := v;
     pinMode := pinMode st; pinLocation := pinLocation st;
     searchQuery := searchQuery st; tempMarker := tempMarker st |}.

Definition setPinMode (v : bool) (st : State) : State :=
  {| geojsonData := geojsonData st; selectedFeature := selectedFeature st;
     matchedFeatures := matchedFeatures st; isLoading := isLoading st;
     pinMode := v; pinLocation := pinLocation st;
     searchQuery := searchQuery st; tempMarker := tempMarker st |}.

Definition setPinLocation (v : number * number) (st : State) : State :=
  {| geojsonData := geojsonData st; selectedFeature := selectedFeature st;
     matchedFeatures := matchedFeatures st; isLoading := isLoading st;
     pinMode := pinMode st; pinLocation := v;
     searchQuery := searchQuery st; tempMarker := tempMarker st |}.

Definition setSearchQuery (v : string) (st : State) : State :=
  {| geojsonData := geojsonData st; selectedFeature := selectedFeature st;
     matchedFeatures := matchedFeatures st; isLoading := isLoading st;
     pinMode := pinMode st; pinLocation := pinLocation st;
     searchQuery := v; tempMarker := tempMarker st |}.

Definition setTempMarker (v : option (number * number)) (st : State) : State :=
  {| geojsonData := geojsonData st; selectedFeature := selectedFeature st;
     matchedFeatures := matchedFeatures st; isLoading := isLoading st;
     pinMode := pinMode st; pinLocation := pinLocation st;
     searchQuery := searchQuery st; tempMarker := v |}.

(** The state at the first render; [initialPin] is [[-103.59, 40.67]]. *)
Definition init (initialPin : number * number) : State :=
  {| geojsonData := []; selectedFeature := None; matchedFeatures := [];
     isLoading := false; pinMode := false; pinLocation := initialPin;
     searchQuery := ""; tempMarker := None |}.

(** The effect that loads the memories, up to the request. *)
Definition loadMemories (st : State) : State * list Effect :=
  (setIsLoading true st, [FetchMessages]).

(** The same, from the response on; [data] is [None] when the request
    fails or the body is not an array of rows (then [data.map] throws). *)
Definition loadMemories_resume (data : option (list (@SearchRoute.Row number)))
    (st : State) : State * list Effect :=
  match data with
  | Some data => (setIsLoading false (setGeojsonData (formatFeatures data) st), [])
  | None => (setIsLoading false st, [ConsoleError "Failed to fetch memories:"])
  end.

(** The part of a feature the local filter of [handleSearch] reads. *)
Definition propertiesOf (f : @Panel.Feature number) : MemoryMap.Feature :=
  {| MemoryMap.id := Panel.prop_id f; MemoryMap.receiver := Some (Panel.prop_receiver f) |}.

(** [set.has(f.properties?.id)] for [set = new Set(features.map(..id))]. *)
Definition idsOf (features : list (@Panel.Feature number)) : gset string :=
  list_to_set (List.map Panel.prop_id features).

Definition has (ids : gset string) (f : @Panel.Feature number) : bool :=
  bool_decide (Panel.prop_id f ∈ ids).

(** [handleSearch], up to [await fetch(..)].  The boolean tells whether the
    request was sent. *)
Definition handleSearch (receiver : string) (st : State) : State * list Effect * bool :=
  let st := setSearchQuery receiver st in
  let st := setTempMarker None st in
  if negb (JS.truthy receiver)
  then (setMatchedFeatures [] st, [], false)
  else (setIsLoading true st, [FetchSearch receiver], true).

(** The loop [for (const f of serverMatches) if (!seen.has(id)) allMatches.push(f)]. *)
Definition pushUnseen (seen : gset string)
    (allMatches serverMatches : list (@Panel.Feature number))
    : list (@Panel.Feature number) :=
  fold_left (fun acc f => if has seen f then acc else acc ++ [f]) serverMatches allMatches.

(** [handleSearch], from the response on.  [captured] is
    [geojsonData.features] as the handler saw it when it was called. *)
Definition handleSearch_resume (captured : list (@Panel.Feature number))
    (receiver : string)
    (response : LocationSearch.Fetched (option (list (@SearchRoute.Row number))))
    (st : State) : State * list Effect :=
  let localMatches :=
    List.filter (fun f => MemoryMap.receiverIs receiver (propertiesOf f)) captured in
  match response with
  | LocationSearch.Ok serverData =>
      let serverMatches := formatFeatures (default [] serverData) in
      let existingIds := idsOf captured in
      let newFeatures := List.filter (fun f => negb (has existingIds f)) serverMatches in
      let st := if (0 <? length newFeatures)%nat
                then setGeojsonData (geojsonData st ++ newFeatures) st
                else st in
      let seen := idsOf localMatches in
      let allMatches := pushUnseen seen localMatches serverMatches in
      let st := setMatchedFeatures allMatches st in
      let st := setSelectedFeature None st in
      (setIsLoading false st, [])
  | _ => (setIsLoading false st, [ConsoleError "Search failed:"])
  end.

Definition handleNewPin (feature : @Panel.Feature number) (st : State)
    : State * list Effect :=
  let st := setGeojsonData (geojsonData st ++ [feature]) st in
  let st := setMatchedFeatures [] st in
  let st := setSelectedFeature (Some feature) st in
  let st := setSearchQuery "" st in
  let st := setTempMarker None st in
  (st, [EaseTo (Panel.geometry_coordinates feature) 9 500]).

Definition handleZoomToFeature (feature : @Panel.Feature number) (st : State)
    : State * list Effect :=
  let st := setMatchedFeatures [] st in
  let st := setSelectedFeature (Some feature) st in
  let st := setSearchQuery "" st in
  let st := setTempMarker None st in
  (st, [EaseTo (Panel.geometry_coordinates feature) 9 500]).

(** [handlePinToggle]; [center] is [mapRef.current?.getCenter()]. *)
Definition handlePinToggle (show : bool) (center : option (number * number)) (st : State)
    : State :=
  let st := setPinMode show st in
  let st := if show
            then match center with
                 | Some c => setPinLocation c st
                 | None => st
                 end
            else st in
  setTempMarker None st.

(** [handleLocationSelect], called without a zoom: the default is 13. *)
Definition handleLocationSelect (lng lat : number) (st : State) : State * list Effect :=
  (st, [EaseTo (lng, lat) 13 1000]).

Definition handleTempMarker (lng lat : number) (st : State) : State :=
  setTempMarker (Some (lng, lat)) st.

(** What a click on the map hits: a cluster (with its [cluster_id], if it
    has one, and its position) or a single memory. *)
Inductive Hit : Type :=
| ClusterHit (cluster_id : option Z) (coordinates : number * number)
| LeafHit (feature : @Panel.Feature number).

Definition onClick (hit : option Hit) (st : State) : State * list Effect :=
  match hit with
  | None => (setTempMarker None st, [])
  | Some (ClusterHit cluster_id coordinates) =>
      match cluster_id with
      | Some clusterId =>
          if clusterId =? 0 then (st, []) else (st, [GetClusterExpansionZoom clusterId])
      | None => (st, [])
      end
  | Some (LeafHit feature) =>
      let st := setSelectedFeature (Some feature) st in
      let st := setMatchedFeatures [] st in
      let st := setSearchQuery "" st in
      (setTempMarker None st, [])
  end.

(** The callback of [getClusterExpansionZoom]: [zoom] is [None] on an error
    or a null zoom. *)
Definition onClusterExpansionZoom (coordinates : number * number) (zoom : option Z)
    (st : State) : State * list Effect :=
  match zoom with
  | Some z => (st, [EaseTo coordinates z 500])
  | None => (st, [])
  end.

(** A whole search: the handler, and its continuation on the response when
    a request was sent, nothing else happening in between. *)
Definition search (receiver : string)
    (response : LocationSearch.Fetched (option (list (@SearchRoute.Row number))))
    (st : State) : State * list Effect :=
  let '(st1, out1, sent) := handleSearch receiver st in
  if sent
  then let '(st2, out2) := handleSearch_resume (geojsonData st) receiver response st1 in
       (st2, out1 ++ out2)
  else (st1, out1).

(** What [await fetch('/api/search?receiver=..')] gives when the route
    answers: [res.ok] holds for the status 200, and the body is the rows. *)
Definition fetchSearch (supabase : @SearchRoute.Supabase number) (receiver : string)
    : LocationSearch.Fetched (option (list (@SearchRoute.Row number))) :=
  match SearchRoute.GET supabase (Some receiver) with
  | {| SearchRoute.status := 200; SearchRoute.body := SearchRoute.DataBody data |} =>
      LocationSearch.Ok (Some data)
  | _ => LocationSearch.NotOk
  end.

(** What can happen to the map view.  The search button of the panel calls
    [onSearch(searchQuery)] and is disabled while [isLoading]; a search
    answer comes with what its handler had captured. *)
Inductive Event : Type :=
| Mount
| MemoriesAnswer (data : option (list (@SearchRoute.Row number)))
| Click (hit : option Hit)
| ClusterExpansionZoom (coordinates : number * number) (zoom : option Z)
| MarkerDragEnd (lngLat : number * number)
| SearchQueryChange (query : string)
| SearchClick
| SearchAnswer (captured : list (@Panel.Feature number)) (receiver : string)
    (response : LocationSearch.Fetched (option (list (@SearchRoute.Row number))))
| SelectResult (feature : @Panel.Feature number)
| LocationSelect (lng lat : number)
| TempMarker (lng lat : number).

Definition step (st : State) (ev : Event) : State * list Effect :=
  match ev with
  | Mount => loadMemories st
  | MemoriesAnswer data => loadMemories_resume data st
  | Click hit => onClick hit st
  | ClusterExpansionZoom coordinates zoom => onClusterExpansionZoom coordinates zoom st
  | MarkerDragEnd lngLat => (setPinLocation lngLat st, [])
  | SearchQueryChange query => (setSearchQuery query st, [])
  | SearchClick =>
      if isLoading st then (st, [])
      else let '(st1, out, _) := handleSearch (searchQuery st) st in (st1, out)
  | SearchAnswer captured receiver response =>
      handleSearch_resume captured receiver response st
  | SelectResult feature => handleZoomToFeature feature st
  | LocationSelect lng lat => handleLocationSelect lng lat st
  | TempMarker lng lat => (handleTempMarker lng lat st, [])
  end.

End Component.

End MapView.


(** ** The page: the form and the map view wired together

    [MemoryMap] renders [Panel] with [onNewPin={handleNewPin}] and
    [onPinFormToggle={handlePinToggle}]: the callbacks of the form run the
    handlers of the map. *)

Module App.

Section Component.

Context {number : Type}.
Variable parseFloat : string -> number.

Record State : Type := {
  panel : @Panel.State number;
  map : @MapView.State number;
}.

(** An event of the form comes with the centre of the map at that time,
    which [handlePinToggle] reads. *)
Inductive Event : Type :=
| PanelEvent (ev : @Panel.Event number) (center : option (number * number))
| MapEvent (ev : @MapView.Event number).

(** A callback of the form runs the handler of the map it is bound to. *)
Definition deliver (center : option (number * number))
    (acc : @MapView.State number * list (@MapView.Effect number))
    (effect : @Panel.Effect number)
    : @MapView.State number * list (@MapView.Effect number) :=
  match effect with
  | Panel.OnNewPin feature =>
      let '(m, out) := MapView.handleNewPin feature (fst acc) in (m, snd acc ++ out)
  | Panel.OnPinFormToggle show => (MapView.handlePinToggle show center (fst acc), snd acc)
  | _ => acc
  end.

Definition step (st : State) (ev : Event)
    : State * list (@Panel.Effect number) * list (@MapView.Effect number) :=
  match ev with
  | PanelEvent pev center =>
      let '(p, pout) := Panel.step parseFloat (panel st) pev in
      let '(m, mout) := fold_left (deliver center) pout (map st, []) in
      ({| panel := p; map := m |}, pout, mout)
  | MapEvent mev =>
      let '(m, mout) := MapView.step (map st) mev in
      ({| panel := panel st; map := m |}, [], mout)
  end.

Fixpoint run (st : State) (evs : list Event) : State :=
  match evs with
  | [] => st
  | ev :: rest => run (fst (fst (step st ev))) rest
  end.

Definition init (initialPin : number * number) : State :=
  {| panel := Panel.init; map := MapView.init initialPin |}.

End Component.

End App.


(** ** The memory form with an image (the later [Panel]) *)

Module PanelWithImage.

Section Component.

Context {number : Type}.
(** [Number.prototype.toString]. *)
Variable toString : number -> string.

Record FormData : Type := {
  message : string;
  receiver : string;
  image : option SubmitRoute.File;
}.

Record State : Type := {
  showForm : bool;
  formData : FormData;
  markerLocation : option (number * number);
  isSubmitting : bool;
  errorMessage : option string;
  imagePreview : option string;
  loadedImages : gset string;
}.

(** The entries appended to the [FormData] body of the request. *)
Record FormPayload : Type := {
  entry_message : string;
  entry_receiver : string;
  entry_latitude : string;
  entry_longitude : string;
  entry_image : option SubmitRoute.File;
}.

Inductive Effect : Type :=
| CompressImage (file : SubmitRoute.File) (maxWidth maxHeight : Z)
| ReadAsDataURL (file : SubmitRoute.File)
| FetchSubmit (formPayload : FormPayload)
| ConsoleError (label : string).

Definition setFormData (v : FormData) (st : State) : State :=
  {| showForm := showForm st; formData := v; markerLocation := markerLocation st;
     isSubmitting := isSubmitting st; errorMessage := errorMessage st;
     imagePreview := imagePreview st; loadedImages := loadedImages st |}.

Definition setIsSubmitting (v : bool) (st : State) : State :=
  {| showForm := showForm st; formData := formData st; markerLocation := markerLocation st;
     isSubmitting := v; errorMessage := errorMessage st;
     imagePreview := imagePreview st; loadedImages := loadedImages st |}.

Definition setErrorMessage (v : option string) (st : State) : State :=
  {| showForm := showForm st; formData := formData st; markerLocation := markerLocation st;
     isSubmitting := isSubmitting st; errorMessage := v;
     imagePreview := imagePreview st; loadedImages := loadedImages st |}.

Definition setImagePreview (v : option string) (st : State) : State :=
  {| showForm := showForm st; formData := formData st; markerLocation := markerLocation st;
     isSubmitting := isSubmitting st; errorMessage := errorMessage st;
     imagePreview := v; loadedImages := loadedImages st |}.

(** [setFormData(prev => ({ ...prev, image }))]. *)
Definition setImage (v : option SubmitRoute.File) (st : State) : State :=
  setFormData {| message := message (formData st); receiver := receiver (formData st);
                 image := v |} st.

(** [handleLoadImage]: the id joins the set of loaded images. *)
Definition handleLoadImage (featureId : string) (st : State) : State :=
  {| showForm := showForm st; formData := formData st; markerLocation := markerLocation st;
     isSubmitting := isSubmitting st; errorMessage := errorMessage st;
     imagePreview := imagePreview st; loadedImages := {[ featureId ]} ∪ loadedImages st |}.

(** [handleImageChange], up to [await compressImage(..)]; [file] is
    [e.target.files[0]], if there is one. *)
Definition handleImageChange (file : option SubmitRoute.File) (st : State)
    : State * list Effect :=
  match file with
  | Some originalFile =>
      (setIsSubmitting true st, [CompressImage originalFile 1200 1200])
  | None => (st, [])
  end.

(** The file [compressImage] resolves to: the JPEG bytes of the canvas under
    the name of the original. *)
Definition compressedFile (originalFile : SubmitRoute.File) (bytes : list Byte.byte)
    : SubmitRoute.File :=
  {| SubmitRoute.file_name := SubmitRoute.file_name originalFile;
     SubmitRoute.file_size := Z.of_nat (length bytes);
     SubmitRoute.file_type := "image/jpeg";
     SubmitRoute.file_bytes := bytes |}.

(** [handleImageChange], from the outcome of the compression on: the bytes,
    or [None] when [compressImage] rejects. *)
Definition handleImageChange_resume (originalFile : SubmitRoute.File)
    (compressed : option (list Byte.byte)) (st : State) : State * list Effect :=
  match compressed with
  | Some bytes =>
      let file := compressedFile originalFile bytes in
      (setIsSubmitting false (setImage (Some file) st), [ReadAsDataURL file])
  | None =>
      let st := setErrorMessage (Some "Failed to process image") st in
      let st := setImage (Some originalFile) st in
      (setIsSubmitting false st,
       [ConsoleError "Image compression error:"; ReadAsDataURL originalFile])
  end.

(** [handleSubmit], up to [await fetch(..)]. *)
Definition handleSubmit (st : State) : State * list Effect * bool :=
  let st := setErrorMessage None st in
  match markerLocation st with
  | None =>
      (setErrorMessage (Some "Please drag the marker to a location on the map.") st,
       [], false)
  | Some (lng, lat) =>
      if negb (JS.truthy (JS.trim (message (formData st))))
         || negb (JS.truthy (JS.trim (receiver (formData st))))
      then (setErrorMessage (Some "Please fill in all fields.") st, [], false)
      else
        let formPayload :=
          {| entry_message := message (formData st);
             entry_receiver := receiver (formData st);
             entry_latitude := toString lat;
             entry_longitude := toString lng;
             entry_image := image (formData st) |} in
        (setIsSubmitting true st, [FetchSubmit formPayload], true)
  end.

(** The request the browser sends for a [FormData] body: the multipart
    content type with a boundary, and the entries as form fields. *)
Definition requestOf (boundary : string) (formPayload : FormPayload)
    : @SubmitRoute.Request number :=
  {| SubmitRoute.contentType := Some ("multipart/form-data; boundary=" +:+ boundary);
     SubmitRoute.payload :=
       SubmitRoute.Multipart
         {| SubmitRoute.form_message := Some (entry_message formPayload);
            SubmitRoute.form_receiver := Some (entry_receiver formPayload);
            SubmitRoute.form_latitude := Some (entry_latitude formPayload);
            SubmitRoute.form_longitude := Some (entry_longitude formPayload);
            SubmitRoute.form_image := entry_image formPayload |} |}.

End Component.

End PanelWithImage.


(** * Vocabulary of the statements *)

Import LocationSearch.

(** The names of the context fields that are present, in the order place,
    region, country.  A field is present when its name is a non-empty
    string, which is what the truthiness tests of the code observe. *)
Definition presentContext (s : SearchBoxSuggestion) : list string :=
  match context s with
  | None => []
  | Some c =>
      List.filter JS.truthy (omap (fmap name_of) [place c; region c; country c])
  end.

Definition cafeContext : Context :=
  {| country := Some {| name_of := "France" |};
     region := None;
     place := Some {| name_of := "Paris" |} |}.

Definition cafeX : SearchBoxSuggestion :=
  {| name := "Cafe X"; name_preferred := None; mapbox_id := "poi.1";
     feature_type := "poi"; address := None; full_address := None;
     context := Some cafeContext |}.

Definition cafeY : SearchBoxSuggestion :=
  {| name := "Cafe X"; name_preferred := Some "Cafe Y"; mapbox_id := "poi.2";
     feature_type := "poi"; address := None; full_address := None;
     context := Some cafeContext |}.

(** A query made of white space only (the empty query included). *)
Fixpoint isBlank (q : string) : bool :=
  match q with
  | EmptyString => true
  | String c q' => JS.isWhiteSpace c && isBlank q'
  end.


(** A retrieve response that resolves a feature: a success status and a
    non-empty feature list. *)
Definition resolves {number : Type}
    (response : Fetched (option (list (@RetrieveFeature number)))) : bool :=
  match response with
  | Ok (Some (_ :: _)) => true
  | _ => false
  end.

(** The events that are a successful retrieve, with the values of
    [Math.random] they come with. *)
Definition rotation {number : Type} (ev : @Event number) : option (nat -> Q) :=
  match ev with
  | RetrieveResponse response random => if resolves response then Some random else None
  | _ => None
  end.







(** Effects that are console output only. *)
Definition isConsoleError {number : Type} (e : @Effect number) : bool :=
  match e with
  | ConsoleError _ => true
  | _ => false
  end.


(** A sample session: the user types, the timer fires, a suggestion
    arrives and is clicked; after the retrieve the user types again. *)
Definition sampleFeature : @RetrieveFeature Z :=
  {| coordinates := (2, 48);
     properties := {| prop_name := "Paris"; prop_mapbox_id := "poi.1";
                      prop_feature_type := "place"; prop_name_preferred := None |} |}.

Definition sampleBefore : list (@Event Z) :=
  [InputChange 0 "par"; InputChange 100 "paris"; TimerFire 2 400;
   SuggestResponse (Ok (Some [cafeX])); ResultClick cafeX].

Definition sampleAfter : list (@Event Z) :=
  [InputChange 1000 "rome"; TimerFire 3 1300; SuggestResponse NotOk].

Definition zeros : nat -> Q := fun _ => 0%Q.
Definition halves : nat -> Q := fun _ => (1 # 2)%Q.


(** A burst of typing that follows a keystroke made at time [last]: further
    keystrokes, and attempts of the runtime to run a timer callback, each
    attempt made before the quiet period of the latest keystroke is over. *)
Fixpoint quiet {number : Type} (last : Z) (evs : list (@Event number)) : Prop :=
  match evs with
  | [] => True
  | InputChange now _ :: rest => quiet now rest
  | TimerFire _ now :: rest => now < last + 300 /\ quiet last rest
  | _ :: _ => False
  end.

(** The time and the text of the last keystroke of a burst. *)
Fixpoint lastKeystroke {number : Type} (now : Z) (value : string)
    (evs : list (@Event number)) : Z * string :=
  match evs with
  | [] => (now, value)
  | InputChange now' value' :: rest => lastKeystroke now' value' rest
  | _ :: rest => lastKeystroke now value rest
  end.

(** Every pending timer is the one [searchDebounceRef] holds. *)
Definition oneTimer (st : State) : Prop :=
  forall id t, timeouts st !! id = Some t -> searchDebounceRef st = Some id.

(** Exactly one timer is pending, the one [searchDebounceRef] holds. *)
Definition armed (st : State) (id : nat) (t : Timeout) : Prop :=
  timeouts st = {[ id := t ]} /\ searchDebounceRef st = Some id.

Definition sampleTyping : list (@Event Z) :=
  [InputChange 100 "pari"; TimerFire 1 150; TimerFire 2 390; InputChange 200 "paris";
   TimerFire 3 499].


(** The response of /api/submit is ok and its first record has an id (a
    truthy one: neither 0 nor the empty string). *)
Definition recordWithId {number : Type} (response : @Panel.SubmitResponse number) : bool :=
  match response with
  | Panel.HttpOk (Some (m :: _)) =>
      match Panel.mem_id m with
      | Some i => JS.truthyId i
      | None => false
      end
  | _ => false
  end.

(** A submission succeeds: the marker is set, the trimmed message and
    receiver are not empty, and the request returns a record with an id. *)
Definition submissionSucceeds {number : Type} (response : @Panel.SubmitResponse number)
    (st : @Panel.State number) : bool :=
  bool_decide (is_Some (Panel.markerLocation st))
  && JS.truthy (JS.trim (Panel.message (Panel.formData st)))
  && JS.truthy (JS.trim (Panel.receiver (Panel.formData st)))
  && recordWithId response.

(** The form passes the checks made before the request: the marker is set
    and neither the trimmed message nor the trimmed receiver is empty. *)
Definition formValid {number : Type} (st : @Panel.State number) : bool :=
  bool_decide (is_Some (Panel.markerLocation st))
  && JS.truthy (JS.trim (Panel.message (Panel.formData st)))
  && JS.truthy (JS.trim (Panel.receiver (Panel.formData st))).

(** The inline error a failed submission is to show: what is missing in the
    form, the marker first; else what went wrong with the request. *)
Definition failureText {number : Type} (response : @Panel.SubmitResponse number)
    (st : @Panel.State number) : string :=
  if negb (bool_decide (is_Some (Panel.markerLocation st)))
  then "Please drag the marker to a location on the map."
  else if negb (formValid st) then "Please fill in all fields."
  else match response with
       | Panel.Thrown (Some text) => text
       | Panel.Thrown None => "Failed to submit memory"
       | Panel.HttpNotOk statusText => "Failed to pin memory: " +:+ statusText
       | Panel.HttpOk _ => "Invalid response from server"
       end.

(** Effects that reach the map: a new feature, or the form being closed. *)
Definition reachesMap {number : Type} (e : @Panel.Effect number) : bool :=
  match e with
  | Panel.OnNewPin _ | Panel.OnPinFormToggle _ => true
  | _ => false
  end.

Definition filledForm : @Panel.State Z :=
  {| Panel.showForm := true;
     Panel.formData := {| Panel.message := "hi"; Panel.receiver := "bob" |};
     Panel.markerLocation := Some (10, 20);
     Panel.isSubmitting := false;
     Panel.errorMessage := None |}.

Definition createdMemory : @Panel.Memory Z :=
  {| Panel.mem_id := Some (JS.IdNum 7); Panel.mem_message := "hi";
     Panel.mem_receiver := "bob"; Panel.mem_time := "2025-01-01T00:00:00.000Z";
     Panel.mem_longitude := 10; Panel.mem_latitude := 20 |}.


(** The characters that make a search value a pattern: the wildcards of
    [LIKE], its escape character, and the [*] PostgREST reads as [%]. *)
Definition isPatternChar (c : ascii) : bool :=
  Ascii.eqb c "%" || Ascii.eqb c "_" || Ascii.eqb c "\" || Ascii.eqb c "*".

Fixpoint isPlain (s : string) : bool :=
  match s with
  | EmptyString => true
  | String c s' => negb (isPatternChar c) && isPlain s'
  end.

(** The receiver contains [s] as a substring, ignoring case. *)
Definition containsIgnoreCase (receiver s : string) : bool :=
  JS.includes (JS.toLowerCase receiver) (JS.toLowerCase s).

(** The receiver is [s], ignoring case. *)
Definition equalsIgnoreCase (receiver s : string) : bool :=
  String.eqb (JS.toLowerCase s) (JS.toLowerCase receiver).

Definition aliceSmith : @SearchRoute.Row Z :=
  {| SearchRoute.id := 1; SearchRoute.message := "hello"; SearchRoute.receiver := "Alice Smith";
     SearchRoute.latitude := 20; SearchRoute.longitude := 10;
     SearchRoute.time := "2025-01-01T00:00:00.000Z" |}.

Definition alice : @SearchRoute.Row Z :=
  {| SearchRoute.id := 2; SearchRoute.message := "hi"; SearchRoute.receiver := "Alice";
     SearchRoute.latitude := 21; SearchRoute.longitude := 11;
     SearchRoute.time := "2025-01-02T00:00:00.000Z" |}.

Definition sampleTable : @SearchRoute.Supabase Z :=
  {| SearchRoute.messages := [aliceSmith; alice]; SearchRoute.unavailable := None |}.


(** A backend that accepts whatever it is given, and one whose insert fails. *)
Definition acceptingEnv : @SubmitRoute.Env Z :=
  {| SubmitRoute.uuidv4 := "3f2a";
     SubmitRoute.toISOString := "2025-01-01T00:00:00.000Z";
     SubmitRoute.publicUrlBase := "https://store.example/";
     SubmitRoute.uploadError := None;
     SubmitRoute.insertResult := SubmitRoute.InsertData [[("id", SubmitRoute.VNum 7)]];
     SubmitRoute.removeError := None |}.

Definition failingInsertEnv : @SubmitRoute.Env Z :=
  {| SubmitRoute.uuidv4 := "3f2a";
     SubmitRoute.toISOString := "2025-01-01T00:00:00.000Z";
     SubmitRoute.publicUrlBase := "https://store.example/";
     SubmitRoute.uploadError := None;
     SubmitRoute.insertResult := SubmitRoute.InsertError "insert failed";
     SubmitRoute.removeError := None |}.

(** A JSON create request without a message. *)
Definition jsonWithoutMessage : @SubmitRoute.Request Z :=
  {| SubmitRoute.contentType := Some "application/json";
     SubmitRoute.payload :=
       SubmitRoute.Json (Some {| SubmitRoute.json_message := SubmitRoute.VUndefined;
                            SubmitRoute.json_receiver := SubmitRoute.VStr "bob";
                            SubmitRoute.json_latitude := SubmitRoute.VNum 20;
                            SubmitRoute.json_longitude := SubmitRoute.VNum 10 |}) |}.

Definition photo : SubmitRoute.File :=
  {| SubmitRoute.file_name := "beach.day.jpg"; SubmitRoute.file_size := 3;
     SubmitRoute.file_type := "image/jpeg";
     SubmitRoute.file_bytes := [Byte.xff; Byte.xd8; Byte.xff] |}.

Definition formWithPhoto : SubmitRoute.FormData :=
  {| SubmitRoute.form_message := Some "hi"; SubmitRoute.form_receiver := Some "bob";
     SubmitRoute.form_latitude := Some "20.0"; SubmitRoute.form_longitude := Some "10.0";
     SubmitRoute.form_image := Some photo |}.

Definition multipartWithPhoto : @SubmitRoute.Request Z :=
  {| SubmitRoute.contentType := Some "multipart/form-data; boundary=----x";
     SubmitRoute.payload := SubmitRoute.Multipart formWithPhoto |}.

(** A multipart create request without a receiver. *)
Definition multipartWithoutReceiver : @SubmitRoute.Request Z :=
  {| SubmitRoute.contentType := Some "multipart/form-data; boundary=----x";
     SubmitRoute.payload :=
       SubmitRoute.Multipart
         {| SubmitRoute.form_message := Some "hi"; SubmitRoute.form_receiver := None;
            SubmitRoute.form_latitude := Some "20.0"; SubmitRoute.form_longitude := Some "10.0";
            SubmitRoute.form_image := None |} |}.

(** The path under which the handler stores the image of a form. *)
Definition imagePathOf {number : Type} (env : @SubmitRoute.Env number)
    (imageFile : SubmitRoute.File) : string :=
  "images/" +:+ SubmitRoute.uuidv4 env +:+ "." +:+
  SubmitRoute.pop (SubmitRoute.split "." (SubmitRoute.file_name imageFile)).

(** One of the four required entries of the form is absent or empty. *)
Definition formIncomplete (form : SubmitRoute.FormData) : bool :=
  SubmitRoute.missing (SubmitRoute.form_message form)
  || SubmitRoute.missing (SubmitRoute.form_receiver form)
  || SubmitRoute.missing (SubmitRoute.form_latitude form)
  || SubmitRoute.missing (SubmitRoute.form_longitude form).


(** The request is dispatched to the multipart branch. *)
Definition isMultipartRequest {number : Type} (req : @SubmitRoute.Request number) : bool :=
  match SubmitRoute.contentType req with
  | Some ct => JS.includes ct "multipart/form-data"
  | None => false
  end.

(** The number of [insert] calls among the calls of a request. *)
Definition insertCalls {number : Type} (calls : list (@SubmitRoute.Call number)) : nat :=
  length (List.filter (fun call => match call with
                                   | SubmitRoute.DbInsert _ => true
                                   | _ => false
                                   end) calls).

(** The calls to the storage service among the calls of a request. *)
Definition storageCalls {number : Type} (calls : list (@SubmitRoute.Call number))
    : list (@SubmitRoute.Call number) :=
  List.filter (fun call => match call with
                           | SubmitRoute.StorageUpload _ _
                           | SubmitRoute.StorageGetPublicUrl _
                           | SubmitRoute.StorageRemove _ => true
                           | _ => false
                           end) calls.

(** The blob the handler uploads for a file. *)
Definition blobOf (imageFile : SubmitRoute.File) : SubmitRoute.Blob :=
  {| SubmitRoute.blob_bytes := SubmitRoute.file_bytes imageFile;
     SubmitRoute.blob_contentType := SubmitRoute.file_type imageFile;
     SubmitRoute.blob_cacheControl := "3600" |}.

(** A character occurs in a string. *)
Fixpoint occurs (c : ascii) (s : string) : bool :=
  match s with
  | EmptyString => false
  | String d s' => Ascii.eqb c d || occurs c s'
  end.

Definition emptyPhoto : SubmitRoute.File :=
  {| SubmitRoute.file_name := "empty.png"; SubmitRoute.file_size := 0;
     SubmitRoute.file_type := "image/png"; SubmitRoute.file_bytes := [] |}.

Definition formWithEmptyPhoto : SubmitRoute.FormData :=
  {| SubmitRoute.form_message := Some "hi"; SubmitRoute.form_receiver := Some "bob";
     SubmitRoute.form_latitude := Some "20.0"; SubmitRoute.form_longitude := Some "10.0";
     SubmitRoute.form_image := Some emptyPhoto |}.

Definition failingUploadEnv : @SubmitRoute.Env Z :=
  {| SubmitRoute.uuidv4 := "3f2a";
     SubmitRoute.toISOString := "2025-01-01T00:00:00.000Z";
     SubmitRoute.publicUrlBase := "https://store.example/";
     SubmitRoute.uploadError := Some "bucket not found";
     SubmitRoute.insertResult := SubmitRoute.InsertData [[("id", SubmitRoute.VNum 7)]];
     SubmitRoute.removeError := None |}.

Definition multipartRequest (form : SubmitRoute.FormData) : @SubmitRoute.Request Z :=
  {| SubmitRoute.contentType := Some "multipart/form-data; boundary=----x";
     SubmitRoute.payload := SubmitRoute.Multipart form |}.


(** A request whose JSON body does not parse. *)
Definition malformedRequest : @SubmitRoute.Request Z :=
  {| SubmitRoute.contentType := Some "application/json";
     SubmitRoute.payload := SubmitRoute.Malformed |}.


(** The characters [toString(16)] produces. *)
Definition isHexDigit (c : ascii) : bool :=
  let n := nat_of_ascii c in
  ((48 <=? n) && (n <=? 57) || (97 <=? n) && (n <=? 102))%nat.

(** What a version-4 UUID has at position [i]: hyphens at 8, 13, 18 and 23,
    the version digit 4 at 14, a variant digit 8, 9, a or b at 19, and a
    hexadecimal digit elsewhere. *)
Definition uuidCharOk (i : nat) (c : ascii) : bool :=
  match i with
  | 8 | 13 | 18 | 23 => Ascii.eqb c "-"
  | 14 => Ascii.eqb c "4"
  | 19 => Ascii.eqb c "8" || Ascii.eqb c "9" || Ascii.eqb c "a" || Ascii.eqb c "b"
  | _ => isHexDigit c
  end%nat.

Fixpoint uuidFrom (i : nat) (s : string) : bool :=
  match s with
  | EmptyString => (i =? 36)%nat
  | String c s' => uuidCharOk i c && uuidFrom (S i) s'
  end.

Definition isUuidV4 (s : string) : bool := uuidFrom 0 s.

(** The events that are neither typing nor a timer running. *)
Definition keepsTimers {number : Type} (ev : @Event number) : bool :=
  match ev with
  | InputChange _ _ | TimerFire _ _ => false
  | _ => true
  end.


(** The ids of some features, and of some rows. *)
Definition featureIds {number : Type} (features : list (@Panel.Feature number)) : list string :=
  List.map Panel.prop_id features.

Definition rowIds {number : Type} (rows : list (@SearchRoute.Row number)) : list Z :=
  List.map SearchRoute.id rows.

(** The feature passes the local filter of [handleSearch]. *)
Definition sameReceiver {number : Type} (receiver : string) (f : @Panel.Feature number)
    : bool :=
  MemoryMap.receiverIs receiver (MapView.propertiesOf f).

(** The record /api/submit returns for a row of the table. *)
Definition memoryOfRow {number : Type} (row : @SearchRoute.Row number) : @Panel.Memory number :=
  {| Panel.mem_id := Some (JS.IdNum (SearchRoute.id row));
     Panel.mem_message := SearchRoute.message row;
     Panel.mem_receiver := SearchRoute.receiver row;
     Panel.mem_time := SearchRoute.time row;
     Panel.mem_longitude := SearchRoute.longitude row;
     Panel.mem_latitude := SearchRoute.latitude row |}.

Definition bob : @SearchRoute.Row Z :=
  {| SearchRoute.id := 3; SearchRoute.message := "hey"; SearchRoute.receiver := "Bob";
     SearchRoute.latitude := 22; SearchRoute.longitude := 12;
     SearchRoute.time := "2025-01-03T00:00:00.000Z" |}.

(** A map that has loaded two of the three rows of a table. *)
Definition threeRows : @SearchRoute.Supabase Z :=
  {| SearchRoute.messages := [aliceSmith; alice; bob]; SearchRoute.unavailable := None |}.

Definition loadedMap : @MapView.State Z :=
  MapView.setGeojsonData (MapView.formatFeatures [aliceSmith; alice]) (MapView.init (0, 0)).


(** The form is in order: closed, it is blank and shows no error; while a
    request is pending it is open and shows no error. *)
Definition formInOrder {number : Type} (st : @Panel.State number) : Prop :=
  (Panel.showForm st = false ->
   Panel.formData st = {| Panel.message := ""; Panel.receiver := "" |} /\
   Panel.errorMessage st = None /\ Panel.isSubmitting st = false) /\
  (Panel.isSubmitting st = true ->
   Panel.showForm st = true /\ Panel.errorMessage st = None).

Definition sampleFormSession : list (@Panel.Event Z) :=
  [Panel.ToggleForm; Panel.FormChange "message" "hi"; Panel.Submit;
   Panel.FormChange "receiver" "bob"; Panel.ToggleForm].

Definition samplePageSession : list (@App.Event Z) :=
  [App.PanelEvent Panel.ToggleForm (Some (5, 6));
   App.PanelEvent (Panel.PinFormData (Some ("6.000000", "5.000000"))) None;
   App.PanelEvent (Panel.FormChange "message" "hi") None;
   App.PanelEvent (Panel.FormChange "receiver" "bob") None;
   App.MapEvent (MapView.TempMarker 1 2);
   App.PanelEvent Panel.Submit None;
   App.PanelEvent (Panel.SubmitAnswer (Panel.HttpOk (Some [memoryOfRow bob]))) None].


Definition pngPhoto : SubmitRoute.File :=
  {| SubmitRoute.file_name := "beach.png"; SubmitRoute.file_size := 4;
     SubmitRoute.file_type := "image/png";
     SubmitRoute.file_bytes := [Byte.x89; Byte.x50; Byte.x4e; Byte.x47] |}.

Definition filledImageForm : @PanelWithImage.State Z :=
  {| PanelWithImage.showForm := true;
     PanelWithImage.formData :=
       {| PanelWithImage.message := "hi"; PanelWithImage.receiver := "bob";
          PanelWithImage.image := None |};
     PanelWithImage.markerLocation := Some (10, 20);
     PanelWithImage.isSubmitting := false;
     PanelWithImage.errorMessage := None;
     PanelWithImage.imagePreview := None;
     PanelWithImage.loadedImages := ∅ |}.

(** Attaching a photo: the change of the file input, then the outcome of
    the compression. *)
Definition attach {number : Type} (originalFile : SubmitRoute.File)
    (compressed : option (list Byte.byte)) (st : @PanelWithImage.State number)
    : @PanelWithImage.State number :=
  fst (PanelWithImage.handleImageChange_resume originalFile compressed
         (fst (PanelWithImage.handleImageChange (Some originalFile) st))).


(** * Properties *)

(** ** String primitives *)

Lemma trimStart_blank (q : string) : isBlank q = true -> JS.trimStart q = "".
Proof.
  induction q as [|c q IH]; simpl; [done|].
  intros [Hc Hq]%andb_true_iff. rewrite Hc. auto.
Qed.

Lemma trim_blank (q : string) : isBlank q = true -> JS.trim q = "".
Proof. intros H. unfold JS.trim. by rewrite trimStart_blank. Qed.

Lemma isBlank_rev_app (s1 s2 : string) :
  isBlank (String.rev_app s1 s2) = isBlank s1 && isBlank s2.
Proof.
  revert s2. induction s1 as [|c s1 IH]; intros s2; simpl; [done|].
  rewrite IH. simpl. by destruct (JS.isWhiteSpace c), (isBlank s1), (isBlank s2).
Qed.

Lemma isBlank_rev (s : string) : isBlank (String.rev s) = isBlank s.
Proof. unfold String.rev. rewrite isBlank_rev_app. simpl. apply andb_true_r. Qed.

Lemma isBlank_trimStart (s : string) : isBlank (JS.trimStart s) = isBlank s.
Proof.
  induction s as [|c s IH]; simpl; [done|].
  destruct (JS.isWhiteSpace c) eqn:Hc; simpl; [done|]. by rewrite Hc.
Qed.

Lemma truthy_trimStart (s : string) : JS.truthy (JS.trimStart s) = negb (isBlank s).
Proof.
  induction s as [|c s IH]; simpl; [done|].
  by destruct (JS.isWhiteSpace c).
Qed.

Lemma truthy_rev_app (s1 s2 : string) :
  JS.truthy (String.rev_app s1 s2) = JS.truthy s1 || JS.truthy s2.
Proof.
  revert s2. induction s1 as [|c s1 IH]; intros s2; simpl; [done|].
  rewrite IH. simpl. apply orb_true_r.
Qed.

(** [trim] leaves something exactly when the string is not blank. *)
Lemma truthy_trim (q : string) : JS.truthy (JS.trim q) = negb (isBlank q).
Proof.
  unfold JS.trim, JS.trimEnd, String.rev at 1.
  rewrite truthy_rev_app, orb_false_r, truthy_trimStart.
  by rewrite isBlank_rev, isBlank_trimStart.
Qed.

Example trim_inner : JS.trim "  a b  " = "a b".
Proof. reflexivity. Qed.

Example fileExt_last_segment :
  SubmitRoute.pop (SubmitRoute.split "." "beach.day.jpg") = "jpg" /\
  SubmitRoute.pop (SubmitRoute.split "." "noextension") = "noextension".
Proof. split; reflexivity. Qed.

Example generateSessionToken_shape :
  generateSessionToken (fun k => (Z.of_nat k mod 16 # 16)%Q)
  = "01234567-89ab-4cde-b012-3456789abcde".
Proof. vm_compute. reflexivity. Qed.

(** ** The location search box *)

Section LocationSearchProperties.

Context {number : Type}.
Variable mapboxToken : string.

(** C8.  A suggestion that carries a (non-empty) preferred name is
    displayed as exactly that name, whatever its context.  Otherwise the
    displayed name is the raw name, followed, when some context field is
    present, by ", " and the present context names joined by ", " in the
    order place, region, country.  The two candidates of the specification
    render as "Cafe X, Paris, France" and "Cafe Y". *)
Theorem getDisplayName_composition (s : SearchBoxSuggestion) :
  (forall p, name_preferred s = Some p -> p <> "" -> getDisplayName s = p) /\
  (JS.truthy_opt (name_preferred s) = false ->
   getDisplayName s =
     match presentContext s with
     | [] => name s
     | names => name s +:+ ", " +:+ JS.join ", " names
     end) /\
  getDisplayName cafeX = "Cafe X, Paris, France" /\
  getDisplayName cafeY = "Cafe Y".
Proof.
  split; [|split; [|split; reflexivity]].
  - intros p Hp Hne. unfold getDisplayName. rewrite Hp. simpl.
    destruct p; [done|reflexivity].
  - intros Hfalsy. unfold getDisplayName, presentContext. rewrite Hfalsy.
    assert (JS.or_else (name_preferred s) (name s) = name s) as ->.
    { destruct (name_preferred s) as [[|]|]; simpl in *; congruence. }
    destruct (context s) as [[c r p]|]; [|reflexivity].
    destruct p as [[[|]]|], r as [[[|]]|], c as [[[|]]|]; reflexivity.
Qed.

Lemma getDisplayName_composition_witness :
  getDisplayName cafeY = "Cafe Y" /\
  getDisplayName cafeX = "Cafe X" +:+ ", " +:+ JS.join ", " ["Paris"; "France"].
Proof.
  destruct (getDisplayName_composition cafeY) as [Hpref _].
  destruct (getDisplayName_composition cafeX) as (_ & Hraw & _).
  split.
  - apply Hpref; [reflexivity|discriminate].
  - apply Hraw. reflexivity.
Defined.

(** C9.  For a query that is empty or made of white space only,
    [fetchSearchSuggestions] issues no network call (it has no effect at
    all), empties the suggestion list and hides the results panel. *)
Theorem fetchSearchSuggestions_blank (query : string) (st : State) :
  isBlank query = true ->
  let '(st', out) := fetchSearchSuggestions (number := number) mapboxToken query st in
  out = [] /\ results st' = [] /\ showResults st' = false.
Proof.
  intros Hblank. unfold fetchSearchSuggestions.
  rewrite (trim_blank _ Hblank). simpl. auto.
Qed.

(** Conversely, any other query is sent to the suggest endpoint, with the
    current session token. *)
Lemma fetchSearchSuggestions_nonblank (query : string) (st : State) :
  isBlank query = false ->
  fetchSearchSuggestions (number := number) mapboxToken query st
  = (setIsSearching true st, [FetchSuggest query (sessionTokenRef st) mapboxToken 5]).
Proof.
  intros Hnonblank. unfold fetchSearchSuggestions.
  by rewrite truthy_trim, Hnonblank.
Qed.

(** C6.  A retrieve that fails (the request is rejected or the status is
    not a success) or that resolves no feature emits no location-selected
    and no temporary-marker event: its only possible effect is a console
    message, so nothing blocks the user.  It leaves the query text and the
    session token as they were and hides the results panel.  Sending the
    request changes neither the query text nor the token either. *)
Theorem retrieve_failure_is_noop (mapboxId : string)
    (response : Fetched (option (list (@RetrieveFeature number))))
    (random : nat -> Q) (st0 st : State) :
  resolves response = false ->
  let '(st1, out1) := retrieveLocation (number := number) mapboxToken mapboxId st0 in
  let '(st2, out2) := retrieveLocation_resume response random st in
  out1 = [FetchRetrieve mapboxId (sessionTokenRef st0) mapboxToken] /\
  searchTerm st1 = searchTerm st0 /\
  sessionTokenRef st1 = sessionTokenRef st0 /\
  forallb isConsoleError out2 = true /\
  searchTerm st2 = searchTerm st /\
  sessionTokenRef st2 = sessionTokenRef st /\
  showResults st2 = false /\
  isSearching st2 = false.
Proof.
  intros Hfail. unfold retrieveLocation, retrieveLocation_resume.
  destruct response as [| |[[|feature features]|]]; simpl in *;
    try discriminate; auto 10.
Qed.

(** *** The session token *)





Lemma random_digit_range (random : Q) :
  (0 <= random)%Q -> (random < 1)%Q -> 0 <= Qfloor (random * 16) <= 15.
Proof.
  intros Hlo Hhi. split.
  - change 0 with (Qfloor 0). apply Qfloor_resp_le.
    rewrite <- (Qmult_0_l 16). apply Qmult_le_compat_r; [done|discriminate].
  - assert (Qfloor (random * 16) < 16); [|lia].
    rewrite Zlt_Qlt. eapply Qle_lt_trans; [apply Qfloor_le|].
    change (inject_Z 16) with (1 * 16)%Q.
    apply Qmult_lt_compat_r; [reflexivity|done].
Qed.











(** *** The debounce timer *)

Lemma fetchSearchSuggestions_timers (query : string) (st : State) :
  timeouts (fst (fetchSearchSuggestions (number := number) mapboxToken query st))
    = timeouts st /\
  searchDebounceRef (fst (fetchSearchSuggestions (number := number) mapboxToken query st))
    = searchDebounceRef st.
Proof.
  unfold fetchSearchSuggestions.
  destruct (negb (JS.truthy (JS.trim query))); simpl; auto.
Qed.

Lemma init_oneTimer (random : nat -> Q) : oneTimer (init random).
Proof. intros id t. simpl. by rewrite lookup_empty. Qed.

(** A keystroke leaves exactly one pending timer: the new one, due 300 ms
    later, with the text just typed.  The timer that was pending is gone. *)
Lemma handleInputChange_arms (now : Z) (value : string) (st : State) :
  oneTimer st ->
  armed (fst (handleInputChange (number := number) now value st)) (nextTimeoutId st)
        {| due := now + 300; callbackQuery := value |} /\
  snd (handleInputChange (number := number) now value st) = [] /\
  searchTerm (fst (handleInputChange (number := number) now value st)) = value /\
  sessionTokenRef (fst (handleInputChange (number := number) now value st))
    = sessionTokenRef st.
Proof.
  intros Hone. unfold handleInputChange, armed. cbn [fst snd].
  split; [|by destruct (searchDebounceRef (setSearchTerm value st))].
  split; [|by destruct (searchDebounceRef (setSearchTerm value st))].
  apply map_eq. intros i.
  destruct (decide (i = nextTimeoutId st)) as [->|Hne].
  - rewrite lookup_singleton_eq.
    destruct (searchDebounceRef (setSearchTerm value st)); simpl;
      by rewrite lookup_insert_eq.
  - rewrite lookup_singleton_ne by done.
    destruct (searchDebounceRef (setSearchTerm value st)) as [old|] eqn:Href;
      simpl in *; rewrite lookup_insert_ne by done.
    + destruct (decide (i = old)) as [->|Hold]; [by rewrite lookup_delete_eq|].
      rewrite lookup_delete_ne by done.
      destruct (timeouts st !! i) as [t|] eqn:Hi; [|done].
      apply Hone in Hi. congruence.
    + destruct (timeouts st !! i) as [t|] eqn:Hi; [|done].
      apply Hone in Hi. congruence.
Qed.

Lemma armed_oneTimer (st : State) (id : nat) (t : Timeout) : armed st id t -> oneTimer st.
Proof.
  intros [Htimers Href] i t' Hi. rewrite Htimers in Hi.
  apply lookup_singleton_Some in Hi as [-> _]. done.
Qed.

Lemma step_oneTimer (st : State) (ev : @Event number) :
  oneTimer st -> oneTimer (fst (step mapboxToken st ev)).
Proof.
  intros Hone.
  destruct ev as [now value|id now|key|suggestion| |inside|response|response random];
    cbn [step].
  - eapply armed_oneTimer. by apply handleInputChange_arms.
  - unfold timerFire. destruct (timeouts st !! id) as [t|] eqn:Hid; [|done].
    destruct (due t <=? now); [|done].
    intros i t'.
    destruct (fetchSearchSuggestions_timers (callbackQuery t) (clearTimeout id st))
      as [-> ->]. simpl.
    intros Hi. apply lookup_delete_Some in Hi as [_ Hi]. eauto.
  - unfold handleKeyDown. destruct (String.eqb key "Enter"); [|done].
    destruct (results st); [|done].
    destruct (JS.truthy (JS.trim (searchTerm st))); [|done].
    intros i t'. destruct (fetchSearchSuggestions_timers (searchTerm st) st) as [-> ->].
    apply Hone.
  - done.
  - unfold searchButtonClick. destruct (isSearching st); [done|].
    destruct (results st); [|done].
    intros i t'. destruct (fetchSearchSuggestions_timers (searchTerm st) st) as [-> ->].
    apply Hone.
  - unfold handleClickOutside. by destruct inside.
  - by destruct response as [| |[suggestions|]].
  - destruct response as [| |[[|feature features]|]]; try done.
    simpl. by destruct (coordinates feature).
Qed.

Lemma run_oneTimer (evs : list (@Event number)) (st : State) :
  oneTimer st -> oneTimer (fst (run mapboxToken st evs)).
Proof.
  revert st. induction evs as [|ev evs IH]; intros st Hone; simpl; [done|].
  pose proof (step_oneTimer st ev Hone) as H1.
  destruct (step mapboxToken st ev) as [st1 out1]; simpl in *.
  specialize (IH st1 H1).
  by destruct (run mapboxToken st1 evs) as [st2 out2].
Qed.

(** While the quiet period lasts no timer can fire, and each keystroke
    replaces the pending timer: a burst has no effect and ends with one
    pending timer, which holds the last text. *)
Lemma run_quiet (evs : list (@Event number)) (st : State) (id : nat) (last : Z)
    (value : string) :
  armed st id {| due := last + 300; callbackQuery := value |} ->
  searchTerm st = value ->
  quiet last evs ->
  snd (run mapboxToken st evs) = [] /\
  searchTerm (fst (run mapboxToken st evs)) = snd (lastKeystroke last value evs) /\
  sessionTokenRef (fst (run mapboxToken st evs)) = sessionTokenRef st /\
  exists id',
    armed (fst (run mapboxToken st evs)) id'
      {| due := fst (lastKeystroke last value evs) + 300;
         callbackQuery := snd (lastKeystroke last value evs) |}.
Proof.
  revert st id last value.
  induction evs as [|ev evs IH]; intros st id last value Harmed Hterm Hquiet.
  { simpl. eauto. }
  destruct ev as [now value'|id0 now|key|suggestion| |inside|response|response random];
    try done; cbn [quiet] in Hquiet; cbn [run step lastKeystroke].
  - destruct (handleInputChange_arms now value' st (armed_oneTimer _ _ _ Harmed))
      as (Harmed' & Hout & Hterm' & Htok).
    destruct (handleInputChange now value' st) as [st1 out1]; cbn [fst snd] in *.
    destruct (IH st1 _ _ _ Harmed' Hterm' Hquiet) as (Hout2 & Hterm2 & Htok2 & Hex).
    destruct (run mapboxToken st1 evs) as [st2 out2]; cbn [fst snd] in *.
    subst. split; [done|]. split; [done|]. split; [congruence|done].
  - destruct Hquiet as [Hearly Hquiet].
    assert (timerFire (number := number) mapboxToken id0 now st = (st, [])) as ->.
    { unfold timerFire. destruct Harmed as [-> _].
      destruct (decide (id0 = id)) as [->|Hne].
      - rewrite lookup_singleton_eq. simpl.
        destruct (Z.leb_spec (last + 300) now); [lia|done].
      - by rewrite lookup_singleton_ne. }
    destruct (IH st _ _ _ Harmed Hterm Hquiet) as (Hout2 & Hterm2 & Htok2 & Hex).
    destruct (run mapboxToken st evs) as [st2 out2]; cbn [fst snd] in *.
    subst. done.
Qed.

(** C5.  After any history, take a keystroke followed by a burst of further
    keystrokes, each made before the 300 ms quiet period of the previous
    one is over (the runtime may try to run timer callbacks meanwhile).
    The whole burst issues no call.  It ends with exactly one pending
    timer, due 300 ms after the last keystroke and holding its text: each
    keystroke has cancelled the pending timer and armed a new one.  When
    that timer fires it issues one suggest call, with the text of the last
    keystroke (none if that text is blank); no timer is pending afterwards,
    so nothing more fires until the next keystroke. *)
Theorem debounce_last_write_wins (random : nat -> Q)
    (history burst : list (@Event number)) (now0 fireTime : Z) (value0 : string) :
  quiet now0 burst ->
  fst (lastKeystroke now0 value0 burst) + 300 <= fireTime ->
  let st := fst (run mapboxToken (init random) history) in
  let lastTime := fst (lastKeystroke now0 value0 burst) in
  let lastText := snd (lastKeystroke now0 value0 burst) in
  let '(st1, out1) := run mapboxToken st (InputChange now0 value0 :: burst) in
  out1 = [] /\
  searchTerm st1 = lastText /\
  exists id,
    searchDebounceRef st1 = Some id /\
    timeouts st1 = {[ id := {| due := lastTime + 300; callbackQuery := lastText |} ]} /\
    let '(st2, out2) := step (number := number) mapboxToken st1 (TimerFire id fireTime) in
    out2 = (if JS.truthy (JS.trim lastText)
            then [FetchSuggest lastText (sessionTokenRef st) mapboxToken 5]
            else []) /\
    timeouts st2 = ∅ /\
    forall id' now', step (number := number) mapboxToken st2 (TimerFire id' now') = (st2, []).
Proof.
  intros Hquiet Hdue st lastTime lastText.
  assert (oneTimer st) as Hone by apply run_oneTimer, init_oneTimer.
  cbn [run step].
  destruct (handleInputChange_arms now0 value0 st Hone) as (Harmed & Hout & Hterm & Htok).
  destruct (handleInputChange now0 value0 st) as [st0 out0]; cbn [fst snd] in *.
  destruct (run_quiet burst st0 _ _ _ Harmed Hterm Hquiet)
    as (Hout1 & Hterm1 & Htok1 & id & Htimers & Href).
  destruct (run mapboxToken st0 burst) as [st1 out1]; cbn [fst snd] in *.
  subst out0 out1. split; [done|]. split; [done|].
  exists id. split; [done|]. split; [done|].
  cbn [step]. unfold timerFire at 1. rewrite Htimers, lookup_singleton_eq. cbn [due callbackQuery].
  assert ((fst (lastKeystroke now0 value0 burst) + 300 <=? fireTime) = true) as ->
    by (apply Z.leb_le; lia).
  fold lastText.
  destruct (fetchSearchSuggestions_timers lastText (clearTimeout id st1)) as [Ht2 _].
  assert (snd (fetchSearchSuggestions (number := number) mapboxToken lastText
                 (clearTimeout id st1))
          = if JS.truthy (JS.trim lastText)
            then [FetchSuggest lastText (sessionTokenRef st) mapboxToken 5] else [])
    as Hcall.
  { unfold fetchSearchSuggestions.
    destruct (JS.truthy (JS.trim lastText)); simpl; [|done].
    by rewrite Htok1, Htok. }
  destruct (fetchSearchSuggestions mapboxToken lastText (clearTimeout id st1))
    as [st2 out2]; cbn [fst snd] in *.
  split; [done|].
  assert (timeouts st2 = ∅) as Hempty.
  { rewrite Ht2. cbn [clearTimeout timeouts]. rewrite Htimers.
    apply delete_singleton_eq. }
  split; [done|].
  intros id' now'. cbn [step]. unfold timerFire. by rewrite Hempty, lookup_empty.
Qed.

End LocationSearchProperties.

Lemma fetchSearchSuggestions_blank_witness :
  isBlank "   " = true /\
  let '(st', out) := fetchSearchSuggestions (number := Z) "pk.token" "   "
                       (init (fun _ => 0%Q)) in
  out = [] /\ results st' = [] /\ showResults st' = false.
Proof.
  split; [reflexivity|].
  exact (fetchSearchSuggestions_blank (number := Z) "pk.token" "   "
           (init (fun _ => 0%Q)) eq_refl).
Defined.

Lemma retrieve_failure_is_noop_witness :
  forallb isConsoleError
    (snd (retrieveLocation_resume (number := Z) NotOk (fun _ => 0%Q)
            (setSearchTerm "par" (init (fun _ => 0%Q))))) = true /\
  searchTerm (fst (retrieveLocation_resume (number := Z) (Ok (Some [])) (fun _ => (1 # 2)%Q)
                     (setSearchTerm "par" (init (fun _ => 0%Q))))) = "par".
Proof.
  split.
  - pose proof (retrieve_failure_is_noop (number := Z) "pk.token" "poi.1" NotOk
                  (fun _ => 0%Q) (init (fun _ => 0%Q))
                  (setSearchTerm "par" (init (fun _ => 0%Q))) eq_refl) as H.
    simpl in H. apply H.
  - pose proof (retrieve_failure_is_noop (number := Z) "pk.token" "poi.1" (Ok (Some []))
                  (fun _ => (1 # 2)%Q) (init (fun _ => 0%Q))
                  (setSearchTerm "par" (init (fun _ => 0%Q))) eq_refl) as H.
    simpl in H. apply H.
Defined.



Example sample_session_effects :
  snd (run "pk.token" (init zeros)
         (sampleBefore ++ [RetrieveResponse (Ok (Some [sampleFeature])) halves]
            ++ sampleAfter))
  = [FetchSuggest "paris" "00000000-0000-4000-8000-000000000000" "pk.token" 5;
     FetchRetrieve "poi.1" "00000000-0000-4000-8000-000000000000" "pk.token";
     OnLocationSelect 2 48; OnTempMarker 2 48;
     FetchSuggest "rome" "88888888-8888-4888-8888-888888888888" "pk.token" 5;
     ConsoleError "Search suggestion error:"].
Proof. vm_compute. reflexivity. Qed.

Lemma debounce_last_write_wins_witness :
  quiet 0 sampleTyping /\
  lastKeystroke 0 "par" sampleTyping = (200, "paris") /\
  snd (run "pk.token" (init zeros) (InputChange 0 "par" :: sampleTyping)) = [] /\
  searchTerm (fst (run "pk.token" (init zeros) (InputChange 0 "par" :: sampleTyping)))
    = "paris".
Proof.
  assert (quiet 0 sampleTyping) as Hquiet by (simpl; lia).
  assert (fst (lastKeystroke 0 "par" sampleTyping) + 300 <= 500) as Hdue
    by (simpl; lia).
  split; [exact Hquiet|]. split; [reflexivity|].
  pose proof (debounce_last_write_wins "pk.token" zeros [] sampleTyping 0 500 "par"
                Hquiet Hdue) as H.
  cbv zeta in H.
  change (fst (run "pk.token" (init zeros) [])) with (@init zeros) in H.
  destruct (run "pk.token" (init zeros) (InputChange 0 "par" :: sampleTyping))
    as [st1 out1].
  destruct H as (H1 & H2 & _). split; [exact H1|exact H2].
Defined.

Example sample_typing_fires_once :
  snd (run "pk.token" (init zeros)
         (InputChange 0 "par" :: sampleTyping ++ [TimerFire 3 500; TimerFire 3 900]))
  = [@FetchSuggest Z "paris" "00000000-0000-4000-8000-000000000000" "pk.token" 5].
Proof. vm_compute. reflexivity. Qed.

(** ** The memory form *)

Section PanelProperties.

Context {number : Type}.

(** C10.  A submission attempt that does not succeed (the marker is unset,
    the trimmed message or receiver is empty, the request fails, or it
    returns no record with an id) calls neither [onNewPin] nor
    [onPinFormToggle] and leaves the form fields, the marker and the form
    open as they were.  All it changes is the error message, which becomes
    the text of the failure, and the busy flag, which is off again once a
    request was sent.  The text is not empty, so that the form renders it,
    unless the request threw an error whose own message is empty.  A
    submission that succeeds sends the request, hands the new feature to
    [onNewPin], clears the fields and the marker and closes the form. *)
Theorem handleSubmit_outcome (response : @Panel.SubmitResponse number)
    (st : @Panel.State number) :
  let '(st', out) := Panel.submission response st in
  if submissionSucceeds response st
  then
    (exists lat lng feature,
       out = [Panel.FetchSubmit (Panel.message (Panel.formData st))
                (Panel.receiver (Panel.formData st)) lat lng;
              Panel.OnNewPin feature; Panel.OnPinFormToggle false]) /\
    Panel.formData st' = {| Panel.message := ""; Panel.receiver := "" |} /\
    Panel.markerLocation st' = None /\
    Panel.showForm st' = false /\
    Panel.isSubmitting st' = false /\
    Panel.errorMessage st' = None
  else
    forallb (fun e => negb (reachesMap e)) out = true /\
    Panel.formData st' = Panel.formData st /\
    Panel.markerLocation st' = Panel.markerLocation st /\
    Panel.showForm st' = Panel.showForm st /\
    Panel.isSubmitting st' = (if formValid st then false else Panel.isSubmitting st) /\
    Panel.errorMessage st' = Some (failureText response st) /\
    (JS.truthy (failureText response st) = true \/ response = Panel.Thrown (Some "")).
Proof.
  unfold Panel.submission, Panel.handleSubmit, submissionSucceeds, failureText, formValid.
  destruct st as [show [msg rcv] [[lng lat]|] submitting err];
    cbn [Panel.markerLocation Panel.formData Panel.message Panel.receiver
         Panel.setErrorMessage Panel.setIsSubmitting Panel.showForm Panel.isSubmitting
         Panel.errorMessage];
    [|cbn; auto 10].
  rewrite bool_decide_eq_true_2 by eauto. cbn [andb negb].
  destruct (JS.truthy (JS.trim msg)); cbn [andb negb orb]; [|cbn; auto 10].
  destruct (JS.truthy (JS.trim rcv)); cbn [andb negb orb]; [|cbn; auto 10].
  destruct response as [[text|]|statusText|[[|m rest]|]]; cbn; auto 10.
  - destruct text; cbn; auto 10.
  - unfold Panel.validRecord. cbn.
    destruct (Panel.mem_id m) as [i|]; cbn; [|auto 10].
    destruct (JS.truthyId i); cbn; eauto 10.
Qed.

End PanelProperties.

Example submission_succeeds :
  Panel.submission (Panel.HttpOk (Some [createdMemory])) filledForm
  = ({| Panel.showForm := false;
        Panel.formData := {| Panel.message := ""; Panel.receiver := "" |};
        Panel.markerLocation := None;
        Panel.isSubmitting := false;
        Panel.errorMessage := None |},
     [Panel.FetchSubmit "hi" "bob" 20 10;
      Panel.OnNewPin {| Panel.prop_id := "msg7"; Panel.prop_message := "hi";
                        Panel.prop_receiver := "bob";
                        Panel.prop_time := "2025-01-01T00:00:00.000Z";
                        Panel.geometry_coordinates := (10, 20) |};
      Panel.OnPinFormToggle false]).
Proof. vm_compute. reflexivity. Qed.

Example submission_rejected :
  Panel.submission (Panel.HttpNotOk "Bad Request") filledForm
  = ({| Panel.showForm := true;
        Panel.formData := {| Panel.message := "hi"; Panel.receiver := "bob" |};
        Panel.markerLocation := Some (10, 20);
        Panel.isSubmitting := false;
        Panel.errorMessage := Some "Failed to pin memory: Bad Request" |},
     [Panel.FetchSubmit "hi" "bob" 20 10;
      Panel.ConsoleError (Some "Failed to pin memory: Bad Request")]).
Proof. vm_compute. reflexivity. Qed.

(** ** The search endpoint *)

Example like_wildcards :
  SearchRoute.like "a%c" "abbc" = Some true /\
  SearchRoute.like "a_c" "abbc" = Some false /\
  SearchRoute.like "%" "" = Some true /\
  SearchRoute.like "100\%" "100%" = Some true /\
  SearchRoute.like "100\%" "1000" = Some false /\
  SearchRoute.like "a\" "ab" = None /\
  SearchRoute.ilike (SearchRoute.postgrestPattern "*LIC*") "Alice Smith" = Some true /\
  SearchRoute.ilike (SearchRoute.postgrestPattern "alice") "Alice Smith" = Some false.
Proof. repeat split; reflexivity. Qed.

Lemma toLowerCase_pattern_upper (s : string) :
  JS.toLowerCase (SearchRoute.postgrestPattern (JS.toUpperCase s))
  = JS.toLowerCase (SearchRoute.postgrestPattern (JS.toLowerCase s)).
Proof.
  induction s as [|c s IH]; [reflexivity|].
  cbn [JS.toUpperCase JS.toLowerCase JS.mapString SearchRoute.postgrestPattern] in *.
  f_equal; [|exact IH].
  destruct c as [[] [] [] [] [] [] [] []]; reflexivity.
Qed.

Lemma truthy_mapString (f : ascii -> ascii) (s : string) :
  JS.truthy (JS.mapString f s) = JS.truthy s.
Proof. by destruct s. Qed.

Lemma isPlain_toLowerCase (s : string) : isPlain (JS.toLowerCase s) = isPlain s.
Proof.
  induction s as [|c s IH]; [reflexivity|].
  cbn [JS.toLowerCase JS.mapString isPlain] in *. rewrite IH. f_equal.
  destruct c as [[] [] [] [] [] [] [] []]; reflexivity.
Qed.

Lemma postgrestPattern_plain (s : string) :
  isPlain s = true -> SearchRoute.postgrestPattern s = s.
Proof.
  induction s as [|c s IH]; [reflexivity|].
  cbn [isPlain SearchRoute.postgrestPattern JS.mapString].
  intros [Hc Hs]%andb_true_iff. fold (SearchRoute.postgrestPattern s). rewrite (IH Hs).
  destruct (Ascii.eqb c "*") eqn:E; [|reflexivity].
  unfold isPatternChar in Hc. rewrite E in Hc.
  by rewrite !orb_true_r in Hc.
Qed.

(** Without wildcards and escapes, [LIKE] is equality. *)
Lemma like_plain (pattern text : string) :
  isPlain pattern = true ->
  SearchRoute.like pattern text = Some (String.eqb pattern text).
Proof.
  revert text. induction pattern as [|c pattern IH]; intros text Hplain.
  { by destruct text. }
  cbn [isPlain] in Hplain. apply andb_true_iff in Hplain as [Hc Hplain].
  unfold isPatternChar in Hc. apply negb_true_iff in Hc.
  apply orb_false_iff in Hc as [Hc _].
  apply orb_false_iff in Hc as [Hc Hesc].
  apply orb_false_iff in Hc as [Hpct Hund].
  cbn [SearchRoute.like]. rewrite Hpct, Hund, Hesc.
  destruct text as [|d text]; [reflexivity|].
  cbn [String.eqb]. destruct (Ascii.eqb c d); [by apply IH|reflexivity].
Qed.

(** The rows the server returns for a plain value are those the local
    filter of the map view accepts: both compare the whole receiver. *)
Lemma equalsIgnoreCase_receiverIs (fid r s : string) :
  equalsIgnoreCase r s
  = MemoryMap.receiverIs s {| MemoryMap.id := fid; MemoryMap.receiver := Some r |}.
Proof. unfold equalsIgnoreCase, MemoryMap.receiverIs. simpl. apply String.eqb_sym. Qed.

Section SearchProperties.

Context {number : Type}.

Lemma whereIlike_plain (s : string) (rows : list (@SearchRoute.Row number)) :
  isPlain s = true ->
  SearchRoute.whereIlike (SearchRoute.postgrestPattern s) rows
  = Some (List.filter (fun row => equalsIgnoreCase (SearchRoute.receiver row) s) rows).
Proof.
  intros Hplain. rewrite (postgrestPattern_plain _ Hplain).
  induction rows as [|row rows IH]; [reflexivity|].
  cbn [SearchRoute.whereIlike List.filter]. rewrite IH.
  unfold SearchRoute.ilike. rewrite like_plain by (by rewrite isPlain_toLowerCase).
  unfold equalsIgnoreCase.
  by destruct (String.eqb (JS.toLowerCase s) (JS.toLowerCase (SearchRoute.receiver row))).
Qed.

(** The answer does not depend on the case of the search value. *)
Lemma GET_ignores_case (supabase : @SearchRoute.Supabase number) (s : string) :
  SearchRoute.GET supabase (Some (JS.toUpperCase s))
  = SearchRoute.GET supabase (Some (JS.toLowerCase s)).
Proof.
  unfold SearchRoute.GET. cbn [JS.truthy_opt default].
  unfold JS.toUpperCase at 1, JS.toLowerCase at 1. rewrite !truthy_mapString.
  destruct (negb (JS.truthy s)); [reflexivity|].
  unfold SearchRoute.selectFilterIlike.
  destruct (SearchRoute.unavailable supabase); [reflexivity|].
  assert (forall rows : list (@SearchRoute.Row number),
            SearchRoute.whereIlike (SearchRoute.postgrestPattern (JS.toUpperCase s)) rows
            = SearchRoute.whereIlike (SearchRoute.postgrestPattern (JS.toLowerCase s)) rows) as ->;
    [|reflexivity].
  intros rows. induction rows as [|row rows IH]; [reflexivity|].
  cbn [SearchRoute.whereIlike]. rewrite IH. unfold SearchRoute.ilike.
  by rewrite toLowerCase_pattern_upper.
Qed.

(** C1, as the code has it.  The search value is matched against the whole
    receiver, not looked for inside it: for a non-empty value without
    pattern characters, and a backend that answers, [GET] returns exactly
    the rows whose receiver equals the value, ignoring case, in table
    order.  Searching "ALICE" and "alice" gives the same answer, as does
    any value in upper and in lower case. *)
Theorem search_matches_whole_receiver (supabase : @SearchRoute.Supabase number) (s : string) :
  s <> "" ->
  SearchRoute.unavailable supabase = None ->
  isPlain s = true ->
  SearchRoute.GET supabase (Some s)
  = {| SearchRoute.status := 200;
       SearchRoute.body :=
         SearchRoute.DataBody
           (List.filter (fun row => equalsIgnoreCase (SearchRoute.receiver row) s)
              (SearchRoute.messages supabase)) |} /\
  SearchRoute.GET supabase (Some "ALICE") = SearchRoute.GET supabase (Some "alice") /\
  SearchRoute.GET supabase (Some (JS.toUpperCase s))
  = SearchRoute.GET supabase (Some (JS.toLowerCase s)).
Proof.
  intros Hne Havailable Hplain.
  split; [|split; [exact (GET_ignores_case supabase "alice")|apply GET_ignores_case]].
  unfold SearchRoute.GET, SearchRoute.selectFilterIlike. cbn [JS.truthy_opt default].
  destruct s as [|c s]; [done|]. cbn [JS.truthy negb].
  rewrite Havailable. by rewrite whereIlike_plain.
Qed.

(** C7.  [GET] answers 400, with the error body, exactly when the receiver
    parameter is absent or empty.  For a non-empty value whose backend
    query succeeds it answers 200 with the rows the query returned. *)
Theorem search_validation (supabase : @SearchRoute.Supabase number) (param : option string) :
  (SearchRoute.status (SearchRoute.GET supabase param) = 400 <-> param = None \/ param = Some "") /\
  (SearchRoute.status (SearchRoute.GET supabase param) = 400 ->
   SearchRoute.body (SearchRoute.GET supabase param) = SearchRoute.ErrorBody "Missing receiver") /\
  (forall s data,
     param = Some s -> s <> "" ->
     SearchRoute.selectFilterIlike supabase s = SearchRoute.QueryData data ->
     SearchRoute.GET supabase param
     = {| SearchRoute.status := 200; SearchRoute.body := SearchRoute.DataBody data |}).
Proof.
  unfold SearchRoute.GET.
  destruct param as [[|c s]|]; cbn [JS.truthy_opt JS.truthy negb default from_option id].
  - split; [split; auto|]. split; [done|]. intros s data [= <-] Hne. done.
  - destruct (SearchRoute.selectFilterIlike supabase (String c s)) as [e|rows] eqn:E;
      cbn [SearchRoute.status].
    + split; [split; [done|intros [|]; done]|]. split; [done|].
      intros s' data [= <-] _ H. congruence.
    + split; [split; [done|intros [|]; done]|]. split; [done|].
      intros s' data [= <-] _ H. congruence.
  - split; [split; auto|]. split; [done|]. by intros s data [=].
Qed.

End SearchProperties.

Lemma substring_search_counterexample :
  List.filter (fun row => containsIgnoreCase (SearchRoute.receiver row) "alice")
    (SearchRoute.messages sampleTable) = [aliceSmith; alice] /\
  SearchRoute.GET sampleTable (Some "alice")
  = {| SearchRoute.status := 200; SearchRoute.body := SearchRoute.DataBody [alice] |}.
Proof. split; vm_compute; reflexivity. Qed.

Lemma search_matches_whole_receiver_witness :
  SearchRoute.GET sampleTable (Some "alice")
  = {| SearchRoute.status := 200;
       SearchRoute.body :=
         SearchRoute.DataBody
           (List.filter (fun row => equalsIgnoreCase (SearchRoute.receiver row) "alice")
              (SearchRoute.messages sampleTable)) |}.
Proof.
  apply (search_matches_whole_receiver sampleTable "alice");
    [discriminate|reflexivity|reflexivity].
Defined.

Lemma search_validation_witness :
  SearchRoute.GET sampleTable (Some "ALICE")
  = {| SearchRoute.status := 200; SearchRoute.body := SearchRoute.DataBody [alice] |}.
Proof.
  destruct (search_validation sampleTable (Some "ALICE")) as (_ & _ & H).
  apply (H "ALICE"); [reflexivity|discriminate|vm_compute; reflexivity].
Defined.

(** ** The create endpoint *)

Section SubmitProperties.

Context {number : Type}.
Variable parseFloat : string -> number.

(** The multipart branch validates: when one of message, receiver,
    latitude, longitude is absent or empty the answer is 400, nothing is
    uploaded and nothing is inserted. *)
Lemma multipart_create_is_validated (env : @SubmitRoute.Env number)
    (bucket : gmap string SubmitRoute.Blob) (form : SubmitRoute.FormData) :
  formIncomplete form = true ->
  SubmitRoute.POST_multipart parseFloat env bucket form
  = ({| SubmitRoute.status := 400;
        SubmitRoute.body := SubmitRoute.ErrorBody "Missing required fields" |},
     bucket, []).
Proof.
  unfold formIncomplete, SubmitRoute.POST_multipart. by intros ->.
Qed.

(** C2, on the JSON branch.  A request that is not multipart and whose body
    parses is inserted as it comes, whatever is missing from it: the
    handler always calls [insert] with the destructured values, defined or
    not, and answers 200 or 500, never 400. *)
Theorem json_create_is_not_validated (env : @SubmitRoute.Env number)
    (bucket : gmap string SubmitRoute.Blob) (req : @SubmitRoute.Request number)
    (body : @SubmitRoute.JsonBody number) :
  match SubmitRoute.contentType req with
  | Some ct => JS.includes ct "multipart/form-data"
  | None => false
  end = false ->
  SubmitRoute.payload req = SubmitRoute.Json (Some body) ->
  let '(response, bucket', calls) := SubmitRoute.POST parseFloat env bucket req in
  (SubmitRoute.status response = 200 \/ SubmitRoute.status response = 500) /\
  SubmitRoute.status response <> 400 /\
  exists row rest,
    calls = SubmitRoute.DbInsert row :: rest /\
    row !! 0%nat = Some ("message", SubmitRoute.json_message body) /\
    row !! 1%nat = Some ("receiver", SubmitRoute.json_receiver body) /\
    row !! 2%nat = Some ("latitude", SubmitRoute.json_latitude body) /\
    row !! 3%nat = Some ("longitude", SubmitRoute.json_longitude body).
Proof.
  intros Hct Hpayload. unfold SubmitRoute.POST. rewrite Hct, Hpayload. cbn [negb].
  unfold SubmitRoute.POST_json.
  destruct (SubmitRoute.insertResult env) as [e|data]; cbn [SubmitRoute.status].
  - split; [by right|]. split; [done|]. eexists _, _. split; [reflexivity|]. done.
  - split; [by left|]. split; [done|]. eexists _, _. split; [reflexivity|]. done.
Qed.


End SubmitProperties.

Example json_create_missing_message :
  SubmitRoute.POST (fun _ => 0) acceptingEnv ∅ jsonWithoutMessage
  = ({| SubmitRoute.status := 200;
        SubmitRoute.body := SubmitRoute.SuccessBody [[("id", SubmitRoute.VNum 7)]] |},
     ∅,
     [SubmitRoute.DbInsert
        [("message", SubmitRoute.VUndefined); ("receiver", SubmitRoute.VStr "bob");
         ("latitude", SubmitRoute.VNum 20); ("longitude", SubmitRoute.VNum 10);
         ("time", SubmitRoute.VStr "2025-01-01T00:00:00.000Z");
         ("has_image", SubmitRoute.VBool false)]]).
Proof. reflexivity. Qed.

Lemma json_create_is_not_validated_witness :
  SubmitRoute.status (fst (fst (SubmitRoute.POST (fun _ => 0) acceptingEnv ∅ jsonWithoutMessage)))
    <> 400 /\
  exists row rest,
    snd (SubmitRoute.POST (fun _ => 0) acceptingEnv ∅ jsonWithoutMessage)
      = SubmitRoute.DbInsert row :: rest /\
    row !! 0%nat = Some ("message", SubmitRoute.VUndefined).
Proof.
  pose proof (json_create_is_not_validated (fun _ => 0) acceptingEnv ∅ jsonWithoutMessage
                _ eq_refl eq_refl) as H.
  destruct (SubmitRoute.POST (fun _ => 0) acceptingEnv ∅ jsonWithoutMessage)
    as [[response bucket'] calls].
  destruct H as (_ & Hstatus & row & rest & Hcalls & Hmessage & _).
  split; [exact Hstatus|]. exists row, rest. split; [exact Hcalls|exact Hmessage].
Defined.

Example multipart_create_missing_receiver :
  SubmitRoute.POST (fun _ => 0) acceptingEnv ∅ multipartWithoutReceiver
  = ({| SubmitRoute.status := 400;
        SubmitRoute.body := SubmitRoute.ErrorBody "Missing required fields" |},
     ∅, []).
Proof. reflexivity. Qed.


Example failed_insert_calls :
  snd (SubmitRoute.POST (fun _ => 0) failingInsertEnv ∅ multipartWithPhoto)
  = [SubmitRoute.StorageUpload "images/3f2a.jpg"
       {| SubmitRoute.blob_bytes := [Byte.xff; Byte.xd8; Byte.xff];
          SubmitRoute.blob_contentType := "image/jpeg";
          SubmitRoute.blob_cacheControl := "3600" |};
     SubmitRoute.StorageGetPublicUrl "images/3f2a.jpg";
     SubmitRoute.DbInsert
       [("message", SubmitRoute.VStr "hi"); ("receiver", SubmitRoute.VStr "bob");
        ("latitude", SubmitRoute.VNum 0); ("longitude", SubmitRoute.VNum 0);
        ("time", SubmitRoute.VStr "2025-01-01T00:00:00.000Z");
        ("image_path", SubmitRoute.VStr "images/3f2a.jpg");
        ("image_url", SubmitRoute.VStr "https://store.example/images/3f2a.jpg");
        ("has_image", SubmitRoute.VBool true)];
     SubmitRoute.StorageRemove ["images/3f2a.jpg"];
     SubmitRoute.ConsoleError "Database insert error:"].
Proof. vm_compute. reflexivity. Qed.

(** ** The create endpoint: the other paths of [POST] *)

Lemma pop_cons (x : string) (l : list string) :
  l <> [] -> SubmitRoute.pop (x :: l) = SubmitRoute.pop l.
Proof. by destruct l. Qed.

Lemma split_go_nonempty (sep : ascii) (cur s : string) :
  SubmitRoute.split_go sep cur s <> [].
Proof.
  revert cur. induction s as [|c s IH]; intros cur; simpl; [done|].
  destruct (Ascii.eqb c sep); [done|apply IH].
Qed.

Lemma occurs_rev_app (c : ascii) (a b : string) :
  occurs c (String.rev_app a b) = occurs c a || occurs c b.
Proof.
  revert b. induction a as [|d a IH]; intros b; [reflexivity|].
  cbn [String.rev_app occurs]. rewrite IH. cbn [occurs].
  by destruct (Ascii.eqb c d), (occurs c a), (occurs c b).
Qed.

Lemma split_go_pop (cur s : string) :
  occurs "." s = false ->
  SubmitRoute.pop (SubmitRoute.split_go "." cur s) = String.rev_app cur s.
Proof.
  revert cur. induction s as [|c s IH]; intros cur Hfree; [reflexivity|].
  cbn [occurs] in Hfree. apply orb_false_iff in Hfree as [Hc Hs].
  cbn [SubmitRoute.split_go]. rewrite Ascii.eqb_sym in Hc. rewrite Hc.
  by rewrite (IH _ Hs).
Qed.

Lemma split_go_pop_app (cur stem ext : string) :
  occurs "." ext = false ->
  SubmitRoute.pop (SubmitRoute.split_go "." cur (stem +:+ String "." ext)) = ext.
Proof.
  intros Hfree. revert cur. induction stem as [|c stem IH]; intros cur.
  - change ("" +:+ String "." ext) with (String "." ext).
    cbn [SubmitRoute.split_go]. rewrite Ascii.eqb_refl.
    rewrite pop_cons by apply split_go_nonempty.
    by rewrite split_go_pop.
  - change (String c stem +:+ String "." ext) with (String c (stem +:+ String "." ext)).
    cbn [SubmitRoute.split_go].
    destruct (Ascii.eqb c "."); [|apply IH].
    rewrite pop_cons by apply split_go_nonempty. apply IH.
Qed.

Lemma split_go_pop_no_dot (cur s : string) :
  occurs "." cur = false ->
  occurs "." (SubmitRoute.pop (SubmitRoute.split_go "." cur s)) = false.
Proof.
  revert cur. induction s as [|c s IH]; intros cur Hcur.
  - cbn [SubmitRoute.split_go SubmitRoute.pop List.last]. unfold String.rev.
    by rewrite occurs_rev_app, Hcur.
  - cbn [SubmitRoute.split_go]. destruct (Ascii.eqb c ".") eqn:Hc.
    + rewrite pop_cons by apply split_go_nonempty. by apply IH.
    + apply IH. cbn [occurs]. rewrite Ascii.eqb_sym in Hc. by rewrite Hc.
Qed.

(** X8.  The extension [name.split('.').pop()] is what follows the last dot
    of the file name, and the whole name when it has no dot; it never
    contains a dot. *)
Theorem fileExt_after_last_dot (stem ext name : string) :
  occurs "." ext = false ->
  SubmitRoute.pop (SubmitRoute.split "." (stem +:+ String "." ext)) = ext /\
  SubmitRoute.pop (SubmitRoute.split "." ext) = ext /\
  occurs "." (SubmitRoute.pop (SubmitRoute.split "." name)) = false.
Proof.
  intros Hfree. split; [by apply split_go_pop_app|].
  split; [by apply (split_go_pop "" ext)|].
  by apply split_go_pop_no_dot.
Qed.

Lemma fileExt_after_last_dot_witness :
  SubmitRoute.pop (SubmitRoute.split "." ("beach.day" +:+ String "." "jpg")) = "jpg".
Proof.
  by apply (fileExt_after_last_dot "beach.day" "jpg" "beach.day.jpg").
Defined.

Section SubmitRouteBehaviour.

Context {number : Type}.
Variable parseFloat : string -> number.

(** X1.  A multipart request in which message, receiver, latitude or
    longitude is absent or empty is answered 400 "Missing required fields"
    before anything else happens: no upload, no insert, the bucket is
    untouched. *)
Theorem multipart_missing_field_is_rejected (env : @SubmitRoute.Env number)
    (bucket : gmap string SubmitRoute.Blob) (req : @SubmitRoute.Request number)
    (form : SubmitRoute.FormData) :
  isMultipartRequest req = true ->
  SubmitRoute.payload req = SubmitRoute.Multipart form ->
  formIncomplete form = true ->
  SubmitRoute.POST parseFloat env bucket req
  = ({| SubmitRoute.status := 400;
        SubmitRoute.body := SubmitRoute.ErrorBody "Missing required fields" |},
     bucket, []).
Proof.
  unfold isMultipartRequest, formIncomplete. intros Hct Hpayload Hmissing.
  unfold SubmitRoute.POST. rewrite Hct, Hpayload. cbn [negb].
  unfold SubmitRoute.POST_multipart. by rewrite Hmissing.
Qed.

(** X2.  When the upload of the image is refused (the storage service
    fails, or the path is taken, since [upsert] is false) the request ends
    with 500 "Failed to upload image": no record is inserted and the bucket
    is untouched. *)
Theorem upload_failure_stops_the_request (env : @SubmitRoute.Env number)
    (bucket : gmap string SubmitRoute.Blob) (req : @SubmitRoute.Request number)
    (form : SubmitRoute.FormData) (imageFile : SubmitRoute.File) :
  isMultipartRequest req = true ->
  SubmitRoute.payload req = SubmitRoute.Multipart form ->
  formIncomplete form = false ->
  SubmitRoute.form_image form = Some imageFile ->
  0 < SubmitRoute.file_size imageFile ->
  is_Some (SubmitRoute.uploadError env) \/ is_Some (bucket !! imagePathOf env imageFile) ->
  SubmitRoute.POST parseFloat env bucket req
  = ({| SubmitRoute.status := 500;
        SubmitRoute.body := SubmitRoute.ErrorBody "Failed to upload image" |},
     bucket,
     [SubmitRoute.StorageUpload (imagePathOf env imageFile) (blobOf imageFile);
      SubmitRoute.ConsoleError "Image upload error:"]).
Proof.
  unfold isMultipartRequest, formIncomplete.
  intros Hct Hpayload Hcomplete Himage Hsize Hrefused.
  unfold SubmitRoute.POST. rewrite Hct, Hpayload. cbn [negb].
  unfold SubmitRoute.POST_multipart. rewrite Hcomplete, Himage.
  assert ((0 <? SubmitRoute.file_size imageFile) = true) as -> by (apply Z.ltb_lt; lia).
  fold (imagePathOf env imageFile). fold (blobOf imageFile).
  unfold SubmitRoute.upload.
  destruct Hrefused as [[e ->]|[blob ->]]; [done|].
  by destruct (SubmitRoute.uploadError env).
Qed.

(** X3.  Whatever the request and whatever fails, [POST] never removes or
    replaces an image that was in the bucket.  The bucket afterwards is the
    bucket before, or the bucket before plus the one image this request
    uploaded under a path that was free; the image stays only when the
    record was inserted (status 200) or the compensating removal failed. *)
Theorem POST_preserves_stored_images (env : @SubmitRoute.Env number)
    (bucket : gmap string SubmitRoute.Blob) (req : @SubmitRoute.Request number) :
  let '(response, bucket', calls) := SubmitRoute.POST parseFloat env bucket req in
  (forall path blob, bucket !! path = Some blob -> bucket' !! path = Some blob) /\
  (bucket' = bucket \/
   exists path blob,
     bucket !! path = None /\
     bucket' = <[path := blob]> bucket /\
     SubmitRoute.StorageUpload path blob ∈ calls /\
     (SubmitRoute.status response = 200 \/ is_Some (SubmitRoute.removeError env))).
Proof.
  assert (forall (bucket' : gmap string SubmitRoute.Blob)
                 (calls : list (@SubmitRoute.Call number))
                 (response : @SubmitRoute.Response number),
            (bucket' = bucket \/
             exists path blob,
               bucket !! path = None /\ bucket' = <[path := blob]> bucket /\
               SubmitRoute.StorageUpload path blob ∈ calls /\
               (SubmitRoute.status response = 200 \/ is_Some (SubmitRoute.removeError env))) ->
            (forall path blob, bucket !! path = Some blob -> bucket' !! path = Some blob) /\
            (bucket' = bucket \/
             exists path blob,
               bucket !! path = None /\ bucket' = <[path := blob]> bucket /\
               SubmitRoute.StorageUpload path blob ∈ calls /\
               (SubmitRoute.status response = 200 \/ is_Some (SubmitRoute.removeError env))))
    as Hframe.
  { intros bucket' calls response H. split; [|exact H].
    destruct H as [->|(path & blob & Hfree & -> & _)]; [done|].
    intros path' blob' Hin. rewrite lookup_insert_ne; [done|congruence]. }
  unfold SubmitRoute.POST.
  destruct (negb _).
  { destruct (SubmitRoute.payload req) as [|[body|]|form]; try (apply Hframe; by left).
    unfold SubmitRoute.POST_json.
    destruct (SubmitRoute.insertResult env); apply Hframe; by left. }
  destruct (SubmitRoute.payload req) as [|body|form]; try (apply Hframe; by left).
  unfold SubmitRoute.POST_multipart.
  destruct (_ || _); [apply Hframe; by left|].
  destruct (SubmitRoute.form_image form) as [imageFile|].
  2:{ unfold SubmitRoute.POST_insert.
      destruct (SubmitRoute.insertResult env); apply Hframe; by left. }
  destruct (0 <? SubmitRoute.file_size imageFile).
  2:{ unfold SubmitRoute.POST_insert.
      destruct (SubmitRoute.insertResult env); apply Hframe; by left. }
  fold (imagePathOf env imageFile). fold (blobOf imageFile).
  unfold SubmitRoute.upload.
  destruct (SubmitRoute.uploadError env); [apply Hframe; by left|].
  destruct (bucket !! imagePathOf env imageFile) eqn:Hfree; [apply Hframe; by left|].
  unfold SubmitRoute.POST_insert.
  destruct (SubmitRoute.insertResult env) as [e|data]; apply Hframe.
  - unfold SubmitRoute.remove.
    destruct (SubmitRoute.removeError env) as [e'|] eqn:Hremove.
    + right. exists (imagePathOf env imageFile), (blobOf imageFile).
      split; [done|]. split; [done|]. split; [by constructor|]. right. eauto.
    + left. by apply delete_insert_id.
  - right. exists (imagePathOf env imageFile), (blobOf imageFile).
    split; [done|]. split; [done|]. split; [by constructor|]. by left.
Qed.

(** X4.  A complete multipart request with a non-empty image whose upload
    and insert both succeed is answered 200 with the inserted rows.  The
    image is then in the bucket under [images/<uuid>.<ext>], with the bytes
    and the content type of the file, and the inserted row records that
    very path, the public URL built from it, and [has_image = true]. *)
Theorem created_memory_keeps_its_image (env : @SubmitRoute.Env number)
    (bucket : gmap string SubmitRoute.Blob) (req : @SubmitRoute.Request number)
    (form : SubmitRoute.FormData) (imageFile : SubmitRoute.File)
    (data : list (@SubmitRoute.Object number)) :
  isMultipartRequest req = true ->
  SubmitRoute.payload req = SubmitRoute.Multipart form ->
  formIncomplete form = false ->
  SubmitRoute.form_image form = Some imageFile ->
  0 < SubmitRoute.file_size imageFile ->
  SubmitRoute.uploadError env = None ->
  bucket !! imagePathOf env imageFile = None ->
  SubmitRoute.insertResult env = SubmitRoute.InsertData data ->
  let '(response, bucket', calls) := SubmitRoute.POST parseFloat env bucket req in
  response = {| SubmitRoute.status := 200; SubmitRoute.body := SubmitRoute.SuccessBody data |} /\
  bucket' !! imagePathOf env imageFile
    = Some {| SubmitRoute.blob_bytes := SubmitRoute.file_bytes imageFile;
              SubmitRoute.blob_contentType := SubmitRoute.file_type imageFile;
              SubmitRoute.blob_cacheControl := "3600" |} /\
  exists row,
    calls = [SubmitRoute.StorageUpload (imagePathOf env imageFile) (blobOf imageFile);
             SubmitRoute.StorageGetPublicUrl (imagePathOf env imageFile);
             SubmitRoute.DbInsert row] /\
    row !! 5%nat = Some ("image_path", SubmitRoute.VStr (imagePathOf env imageFile)) /\
    row !! 6%nat = Some ("image_url",
                         SubmitRoute.VStr (SubmitRoute.publicUrlBase env
                                           +:+ imagePathOf env imageFile)) /\
    row !! 7%nat = Some ("has_image", SubmitRoute.VBool true).
Proof.
  unfold isMultipartRequest, formIncomplete.
  intros Hct Hpayload Hcomplete Himage Hsize Hupload Hfree Hinsert.
  unfold SubmitRoute.POST. rewrite Hct, Hpayload. cbn [negb].
  unfold SubmitRoute.POST_multipart. rewrite Hcomplete, Himage.
  assert ((0 <? SubmitRoute.file_size imageFile) = true) as -> by (apply Z.ltb_lt; lia).
  fold (imagePathOf env imageFile). fold (blobOf imageFile).
  unfold SubmitRoute.upload. rewrite Hupload, Hfree.
  unfold SubmitRoute.POST_insert. rewrite Hinsert, Himage.
  split; [reflexivity|]. split; [by rewrite lookup_insert_eq|].
  eexists. split; [reflexivity|]. done.
Qed.

(** X5.  An image entry of size 0 is not uploaded: no storage call is made,
    and the row is inserted with [image_path] and [image_url] null, yet with
    [has_image = true], as the entry itself is present. *)
Theorem empty_image_is_flagged_but_not_stored (env : @SubmitRoute.Env number)
    (bucket : gmap string SubmitRoute.Blob) (req : @SubmitRoute.Request number)
    (form : SubmitRoute.FormData) (imageFile : SubmitRoute.File) :
  isMultipartRequest req = true ->
  SubmitRoute.payload req = SubmitRoute.Multipart form ->
  formIncomplete form = false ->
  SubmitRoute.form_image form = Some imageFile ->
  SubmitRoute.file_size imageFile <= 0 ->
  let '(response, bucket', calls) := SubmitRoute.POST parseFloat env bucket req in
  bucket' = bucket /\
  storageCalls calls = [] /\
  exists row rest,
    calls = SubmitRoute.DbInsert row :: rest /\
    row !! 5%nat = Some ("image_path", SubmitRoute.VNull) /\
    row !! 6%nat = Some ("image_url", SubmitRoute.VNull) /\
    row !! 7%nat = Some ("has_image", SubmitRoute.VBool true).
Proof.
  unfold isMultipartRequest, formIncomplete.
  intros Hct Hpayload Hcomplete Himage Hsize.
  unfold SubmitRoute.POST. rewrite Hct, Hpayload. cbn [negb].
  unfold SubmitRoute.POST_multipart. rewrite Hcomplete, Himage.
  assert ((0 <? SubmitRoute.file_size imageFile) = false) as -> by (apply Z.ltb_ge; lia).
  unfold SubmitRoute.POST_insert. rewrite Himage.
  destruct (SubmitRoute.insertResult env) as [e|data];
    (split; [reflexivity|]; split; [reflexivity|]; eexists _, _; split; [reflexivity|done]).
Qed.

(** X6.  A body that cannot be read the way the content type announces (a
    malformed body, a JSON [null], a multipart body without the multipart
    content type, a JSON body with it) is answered 500 "Internal server
    error": the exception is caught, and neither the database nor the
    storage is called. *)
Theorem unreadable_body_is_an_internal_error (env : @SubmitRoute.Env number)
    (bucket : gmap string SubmitRoute.Blob) (req : @SubmitRoute.Request number) :
  (if isMultipartRequest req
   then forall form, SubmitRoute.payload req <> SubmitRoute.Multipart form
   else forall body, SubmitRoute.payload req <> SubmitRoute.Json (Some body)) ->
  SubmitRoute.POST parseFloat env bucket req
  = ({| SubmitRoute.status := 500;
        SubmitRoute.body := SubmitRoute.ErrorBody "Internal server error" |},
     bucket, [SubmitRoute.ConsoleError "Unexpected error:"]).
Proof.
  unfold isMultipartRequest, SubmitRoute.POST.
  destruct (match SubmitRoute.contentType req with Some _ => _ | None => _ end);
    cbn [negb]; intros Hbad.
  - destruct (SubmitRoute.payload req) as [|body|form]; try reflexivity.
    by destruct (Hbad form).
  - destruct (SubmitRoute.payload req) as [|[body|]|form]; try reflexivity.
    by destruct (Hbad body).
Qed.

(** X7.  Backward compatibility of the JSON branch.  Whenever the earlier
    JSON-only handler answers a request that is not multipart, the current
    handler gives the same response, and inserts the same row with
    [has_image = false] added at its end. *)
Theorem json_branch_matches_previous_handler (env : @SubmitRoute.Env number)
    (bucket : gmap string SubmitRoute.Blob) (req : @SubmitRoute.Request number)
    (response0 : @SubmitRoute.Response number) (calls0 : list (@SubmitRoute.Call number)) :
  isMultipartRequest req = false ->
  SubmitRoute.POST_previous env req = Some (response0, calls0) ->
  exists row0 rest,
    calls0 = SubmitRoute.DbInsert row0 :: rest /\
    SubmitRoute.POST parseFloat env bucket req
    = (response0, bucket,
       SubmitRoute.DbInsert (row0 ++ [("has_image", SubmitRoute.VBool false)]) :: rest).
Proof.
  unfold isMultipartRequest, SubmitRoute.POST, SubmitRoute.POST_previous.
  intros -> Hprevious. cbn [negb].
  destruct (SubmitRoute.payload req) as [|[body|]|form]; try discriminate.
  unfold SubmitRoute.POST_json.
  destruct (SubmitRoute.insertResult env) as [e|data];
    injection Hprevious as <- <-; eexists _, _; split; reflexivity.
Qed.

(** X9.  [POST] calls [insert] at most once, and not at all before a 400.
    It answers 200 only after exactly one [insert] that returned rows, and
    the body then carries those rows; when the insert fails the answer is
    not 200. *)
Theorem POST_succeeds_only_after_insert (env : @SubmitRoute.Env number)
    (bucket : gmap string SubmitRoute.Blob) (req : @SubmitRoute.Request number) :
  let '(response, bucket', calls) := SubmitRoute.POST parseFloat env bucket req in
  (insertCalls calls <= 1)%nat /\
  (SubmitRoute.status response = 400 -> calls = []) /\
  (SubmitRoute.status response = 200 ->
   insertCalls calls = 1%nat /\
   exists data,
     SubmitRoute.insertResult env = SubmitRoute.InsertData data /\
     SubmitRoute.body response = SubmitRoute.SuccessBody data) /\
  (forall e, SubmitRoute.insertResult env = SubmitRoute.InsertError e ->
             SubmitRoute.status response <> 200).
Proof.
  unfold SubmitRoute.POST.
  destruct (negb _).
  { destruct (SubmitRoute.payload req) as [|[body|]|form];
      try (cbn; split; [lia|]; split; [done|]; split; done).
    unfold SubmitRoute.POST_json.
    destruct (SubmitRoute.insertResult env) as [e|data] eqn:Hinsert; cbn.
    - split; [lia|]. split; [done|]. split; done.
    - split; [lia|]. split; [done|]. split; [eauto|done]. }
  destruct (SubmitRoute.payload req) as [|body|form];
    try (cbn; split; [lia|]; split; [done|]; split; done).
  unfold SubmitRoute.POST_multipart.
  destruct (_ || _); [cbn; split; [lia|]; split; [done|]; split; done|].
  assert (forall imagePath imageUrl (calls : list (@SubmitRoute.Call number)) b,
            insertCalls calls = 0%nat ->
            let '(response, bucket', calls') :=
              SubmitRoute.POST_insert parseFloat env b form imagePath imageUrl calls in
            (insertCalls calls' <= 1)%nat /\
            (SubmitRoute.status response = 400 -> calls' = []) /\
            (SubmitRoute.status response = 200 ->
             insertCalls calls' = 1%nat /\
             exists data,
               SubmitRoute.insertResult env = SubmitRoute.InsertData data /\
               SubmitRoute.body response = SubmitRoute.SuccessBody data) /\
            (forall e, SubmitRoute.insertResult env = SubmitRoute.InsertError e ->
                       SubmitRoute.status response <> 200)) as Hinsert.
  { intros imagePath imageUrl calls b Hnone. unfold SubmitRoute.POST_insert.
    assert (forall tail : list (@SubmitRoute.Call number),
              insertCalls (calls ++ tail) = insertCalls tail) as Happ.
    { intros tail. unfold insertCalls in *. rewrite List.filter_app, length_app. lia. }
    destruct (SubmitRoute.insertResult env) as [e|data] eqn:E.
    - destruct imagePath as [path|]; cbn [SubmitRoute.status]; rewrite Happ; cbn;
        (split; [lia|]; split; [done|]; split; done).
    - cbn [SubmitRoute.status SubmitRoute.body]. rewrite Happ. cbn.
      split; [lia|]. split; [done|]. split; [eauto|done]. }
  destruct (SubmitRoute.form_image form) as [imageFile|]; [|by apply Hinsert].
  destruct (0 <? SubmitRoute.file_size imageFile); [|by apply Hinsert].
  destruct (SubmitRoute.upload _ _ _ _) as [bucket'|]; [by apply Hinsert|].
  cbn. split; [lia|]. split; [done|]. split; done.
Qed.

End SubmitRouteBehaviour.

Lemma multipart_missing_field_is_rejected_witness :
  SubmitRoute.POST (fun _ => 0) acceptingEnv ∅ multipartWithoutReceiver
  = ({| SubmitRoute.status := 400;
        SubmitRoute.body := SubmitRoute.ErrorBody "Missing required fields" |},
     ∅, []).
Proof.
  exact (multipart_missing_field_is_rejected (fun _ => 0) acceptingEnv ∅
           multipartWithoutReceiver _ eq_refl eq_refl eq_refl).
Defined.

Lemma upload_failure_stops_the_request_witness :
  SubmitRoute.POST (fun _ => 0) failingUploadEnv ∅ multipartWithPhoto
  = ({| SubmitRoute.status := 500;
        SubmitRoute.body := SubmitRoute.ErrorBody "Failed to upload image" |},
     ∅,
     [SubmitRoute.StorageUpload "images/3f2a.jpg" (blobOf photo);
      SubmitRoute.ConsoleError "Image upload error:"]).
Proof.
  apply (upload_failure_stops_the_request (fun _ => 0) failingUploadEnv ∅
           multipartWithPhoto formWithPhoto photo);
    [reflexivity|reflexivity|reflexivity|reflexivity|reflexivity|].
  left. simpl. eauto.
Defined.

Lemma created_memory_keeps_its_image_witness :
  snd (fst (SubmitRoute.POST (fun _ => 0) acceptingEnv ∅ multipartWithPhoto))
    !! "images/3f2a.jpg"
  = Some {| SubmitRoute.blob_bytes := [Byte.xff; Byte.xd8; Byte.xff];
            SubmitRoute.blob_contentType := "image/jpeg";
            SubmitRoute.blob_cacheControl := "3600" |}.
Proof.
  pose proof (created_memory_keeps_its_image (fun _ => 0) acceptingEnv ∅
                multipartWithPhoto formWithPhoto photo _
                eq_refl eq_refl eq_refl eq_refl eq_refl eq_refl eq_refl eq_refl) as H.
  destruct (SubmitRoute.POST (fun _ => 0) acceptingEnv ∅ multipartWithPhoto)
    as [[response bucket'] calls].
  exact (proj1 (proj2 H)).
Defined.

Lemma empty_image_is_flagged_but_not_stored_witness :
  storageCalls
    (snd (SubmitRoute.POST (fun _ => 0) acceptingEnv ∅ (multipartRequest formWithEmptyPhoto)))
  = [].
Proof.
  pose proof (empty_image_is_flagged_but_not_stored (fun _ => 0) acceptingEnv ∅
                (multipartRequest formWithEmptyPhoto) formWithEmptyPhoto emptyPhoto
                eq_refl eq_refl eq_refl eq_refl) as H.
  assert (SubmitRoute.file_size emptyPhoto <= 0) as Hsize by (simpl; lia).
  specialize (H Hsize).
  destruct (SubmitRoute.POST (fun _ => 0) acceptingEnv ∅ (multipartRequest formWithEmptyPhoto))
    as [[response bucket'] calls].
  exact (proj1 (proj2 H)).
Defined.

Lemma unreadable_body_is_an_internal_error_witness :
  SubmitRoute.POST (fun _ => 0) acceptingEnv ∅ malformedRequest
  = ({| SubmitRoute.status := 500;
        SubmitRoute.body := SubmitRoute.ErrorBody "Internal server error" |},
     ∅, [SubmitRoute.ConsoleError "Unexpected error:"]).
Proof.
  apply (unreadable_body_is_an_internal_error (fun _ => 0) acceptingEnv ∅ malformedRequest).
  simpl. discriminate.
Defined.

Lemma json_branch_matches_previous_handler_witness :
  exists row0 rest,
    snd (default ({| SubmitRoute.status := 0; SubmitRoute.body := SubmitRoute.ErrorBody "" |}, [])
           (SubmitRoute.POST_previous acceptingEnv jsonWithoutMessage))
    = SubmitRoute.DbInsert row0 :: rest /\
    snd (SubmitRoute.POST (fun _ => 0) acceptingEnv ∅ jsonWithoutMessage)
    = SubmitRoute.DbInsert (row0 ++ [("has_image", SubmitRoute.VBool false)]) :: rest.
Proof.
  destruct (json_branch_matches_previous_handler (fun _ => 0) acceptingEnv ∅
              jsonWithoutMessage _ _ eq_refl eq_refl) as (row0 & rest & Hcalls & Hpost).
  exists row0, rest. split; [exact Hcalls|]. by rewrite Hpost.
Defined.

Lemma POST_succeeds_only_after_insert_witness :
  insertCalls (snd (SubmitRoute.POST (fun _ => 0) acceptingEnv ∅ multipartWithPhoto)) = 1%nat.
Proof.
  pose proof (POST_succeeds_only_after_insert (fun _ => 0) acceptingEnv ∅ multipartWithPhoto)
    as H.
  destruct (SubmitRoute.POST (fun _ => 0) acceptingEnv ∅ multipartWithPhoto)
    as [[response bucket'] calls] eqn:E.
  destruct H as (_ & _ & H & _).
  assert (SubmitRoute.status response = 200) as Hok.
  { vm_compute in E. by injection E as <- _ _. }
  exact (proj1 (H Hok)).
Defined.

(** ** The search endpoint: wildcards *)

Lemma like_percent (text : string) : SearchRoute.like "%" text = Some true.
Proof.
  induction text as [|c text IH]; [reflexivity|].
  change (SearchRoute.like "%" (String c text)) with (SearchRoute.like "%" text).
  exact IH.
Qed.

(** A plain prefix followed by [%] tests the beginning of the text. *)
Lemma like_plain_percent (pattern text : string) :
  isPlain pattern = true ->
  SearchRoute.like (pattern +:+ "%") text = Some (JS.startsWith pattern text).
Proof.
  revert text. induction pattern as [|c pattern IH]; intros text Hplain.
  { change ("" +:+ "%") with "%". rewrite like_percent. by destruct text. }
  cbn [isPlain] in Hplain. apply andb_true_iff in Hplain as [Hc Hplain].
  unfold isPatternChar in Hc. apply negb_true_iff in Hc.
  apply orb_false_iff in Hc as [Hc _].
  apply orb_false_iff in Hc as [Hc Hesc].
  apply orb_false_iff in Hc as [Hpct Hund].
  change (String c pattern +:+ "%") with (String c (pattern +:+ "%")).
  cbn [SearchRoute.like]. rewrite Hpct, Hund, Hesc.
  destruct text as [|d text]; [reflexivity|].
  cbn [JS.startsWith]. destruct (Ascii.eqb c d); [by apply IH|reflexivity].
Qed.

(** A plain value between two [%] is looked for anywhere in the text. *)
Lemma like_percent_plain_percent (pattern text : string) :
  isPlain pattern = true ->
  SearchRoute.like (String "%" (pattern +:+ "%")) text = Some (JS.includes text pattern).
Proof.
  intros Hplain. induction text as [|c text IH].
  - cbn [SearchRoute.like Ascii.eqb Bool.eqb]. rewrite like_plain_percent by done.
    cbn [JS.includes]. by destruct (JS.startsWith pattern "").
  - change (SearchRoute.like (String "%" (pattern +:+ "%")) (String c text))
      with (match SearchRoute.like (pattern +:+ "%") (String c text) with
            | Some false => SearchRoute.like (String "%" (pattern +:+ "%")) text
            | outcome => outcome
            end).
    rewrite like_plain_percent by done. cbn [JS.includes].
    destruct (JS.startsWith pattern (String c text)); [reflexivity|exact IH].
Qed.

Lemma mapString_app (f : ascii -> ascii) (a b : string) :
  JS.mapString f (a +:+ b) = JS.mapString f a +:+ JS.mapString f b.
Proof.
  induction a as [|c a IH]; [reflexivity|].
  change (String c a +:+ b) with (String c (a +:+ b)).
  cbn [JS.mapString]. by rewrite IH.
Qed.

Section SearchRouteWildcards.

Context {number : Type}.

Lemma whereIlike_contains (pattern s : string) (rows : list (@SearchRoute.Row number)) :
  isPlain s = true ->
  JS.toLowerCase pattern = String "%" (JS.toLowerCase s +:+ "%") ->
  SearchRoute.whereIlike pattern rows
  = Some (List.filter (fun row => containsIgnoreCase (SearchRoute.receiver row) s) rows).
Proof.
  intros Hplain Hpattern.
  induction rows as [|row rows IH]; [reflexivity|].
  cbn [SearchRoute.whereIlike List.filter]. rewrite IH.
  unfold SearchRoute.ilike. rewrite Hpattern.
  rewrite like_percent_plain_percent by (by rewrite isPlain_toLowerCase).
  unfold containsIgnoreCase.
  by destruct (JS.includes (JS.toLowerCase (SearchRoute.receiver row)) (JS.toLowerCase s)).
Qed.

Lemma whereIlike_star (rows : list (@SearchRoute.Row number)) :
  SearchRoute.whereIlike (SearchRoute.postgrestPattern "*") rows = Some rows.
Proof.
  induction rows as [|row rows IH]; [reflexivity|].
  cbn [SearchRoute.whereIlike]. rewrite IH. unfold SearchRoute.ilike.
  change (JS.toLowerCase (SearchRoute.postgrestPattern "*")) with "%".
  by rewrite like_percent.
Qed.

(** X10.  Wildcards are the caller's to add.  For a value [s] without
    pattern characters and a backend that answers, searching [*s*] (which
    PostgREST reads as [%s%]) or [%s%] returns exactly the rows whose
    receiver contains [s], ignoring case, in table order; with [s] empty
    these are all the rows. *)
Theorem wildcard_search_is_substring_match (supabase : @SearchRoute.Supabase number)
    (s : string) :
  SearchRoute.unavailable supabase = None ->
  isPlain s = true ->
  SearchRoute.GET supabase (Some (String "*" (s +:+ "*")))
  = {| SearchRoute.status := 200;
       SearchRoute.body :=
         SearchRoute.DataBody
           (List.filter (fun row => containsIgnoreCase (SearchRoute.receiver row) s)
              (SearchRoute.messages supabase)) |} /\
  SearchRoute.GET supabase (Some (String "%" (s +:+ "%")))
  = SearchRoute.GET supabase (Some (String "*" (s +:+ "*"))) /\
  SearchRoute.GET supabase (Some "*")
  = {| SearchRoute.status := 200;
       SearchRoute.body := SearchRoute.DataBody (SearchRoute.messages supabase) |}.
Proof.
  intros Havailable Hplain.
  assert (forall star, star = "*"%char \/ star = "%"%char ->
            SearchRoute.GET supabase (Some (String star (s +:+ String star "")))
            = {| SearchRoute.status := 200;
                 SearchRoute.body :=
                   SearchRoute.DataBody
                     (List.filter
                        (fun row => containsIgnoreCase (SearchRoute.receiver row) s)
                        (SearchRoute.messages supabase)) |}) as Hboth.
  { intros star Hstar.
    unfold SearchRoute.GET, SearchRoute.selectFilterIlike.
    cbn [JS.truthy_opt JS.truthy negb default from_option id]. rewrite Havailable.
    rewrite (whereIlike_contains _ s); [reflexivity|done|].
    rewrite <- (postgrestPattern_plain s Hplain) at 2.
    unfold JS.toLowerCase, SearchRoute.postgrestPattern.
    cbn [JS.mapString]. rewrite !mapString_app.
    destruct Hstar as [-> | ->]; reflexivity. }
  split; [apply Hboth; by left|].
  split; [rewrite !Hboth by auto; reflexivity|].
  unfold SearchRoute.GET, SearchRoute.selectFilterIlike.
  cbn [JS.truthy_opt JS.truthy negb default from_option id]. rewrite Havailable.
  by rewrite whereIlike_star.
Qed.

End SearchRouteWildcards.

Lemma wildcard_search_is_substring_match_witness :
  SearchRoute.GET sampleTable (Some "*lic*")
  = {| SearchRoute.status := 200; SearchRoute.body := SearchRoute.DataBody [aliceSmith; alice] |}.
Proof.
  exact (proj1 (wildcard_search_is_substring_match sampleTable "lic" eq_refl eq_refl)).
Defined.

(** ** The location search box: tokens, timers and the accept key *)

Lemma replacer_x_hex (random : Q) :
  (0 <= random)%Q -> (random < 1)%Q -> isHexDigit (replacer random "x") = true.
Proof.
  intros Hlo Hhi. pose proof (random_digit_range random Hlo Hhi) as Hr.
  unfold replacer. cbn [Ascii.eqb Bool.eqb].
  assert (exists n : nat, Qfloor (random * 16) = Z.of_nat n /\ (n < 16)%nat) as (n & -> & Hn).
  { exists (Z.to_nat (Qfloor (random * 16))). lia. }
  do 16 (destruct n as [|n]; [reflexivity|]). lia.
Qed.

Lemma replacer_y_variant (random : Q) :
  (0 <= random)%Q -> (random < 1)%Q -> uuidCharOk 19 (replacer random "y") = true.
Proof.
  intros Hlo Hhi. pose proof (random_digit_range random Hlo Hhi) as Hr.
  unfold replacer. cbn [Ascii.eqb Bool.eqb].
  assert (exists n : nat, Qfloor (random * 16) = Z.of_nat n /\ (n < 16)%nat) as (n & -> & Hn).
  { exists (Z.to_nat (Qfloor (random * 16))). lia. }
  do 16 (destruct n as [|n]; [reflexivity|]). lia.
Qed.

(** X11.  Whatever [Math.random] returns (numbers in [0, 1)), the session
    token has the shape of a version-4 UUID: 36 characters, hyphens after
    the 8th, 13th, 18th and 23rd, the digit 4 at the version place, one of
    8, 9, a, b at the variant place, lower-case hexadecimal digits
    elsewhere. *)
Theorem generateSessionToken_is_uuid_v4 (random : nat -> Q) :
  (forall k, (0 <= random k)%Q /\ (random k < 1)%Q) ->
  isUuidV4 (generateSessionToken random) = true /\
  String.length (generateSessionToken random) = 36%nat.
Proof.
  intros Hrange. split; [|reflexivity].
  unfold isUuidV4, generateSessionToken.
  cbn [replaceXY Ascii.eqb Bool.eqb orb uuidFrom].
  assert (forall k, isHexDigit (replacer (random k) "x") = true) as Hx.
  { intros k. apply replacer_x_hex; apply Hrange. }
  assert (forall k, uuidCharOk 19 (replacer (random k) "y") = true) as Hy.
  { intros k. apply replacer_y_variant; apply Hrange. }
  cbn [uuidCharOk]. rewrite !Hx.
  change (Ascii.eqb (replacer (random 15%nat) "y") "8"
          || Ascii.eqb (replacer (random 15%nat) "y") "9"
          || Ascii.eqb (replacer (random 15%nat) "y") "a"
          || Ascii.eqb (replacer (random 15%nat) "y") "b")
    with (uuidCharOk 19 (replacer (random 15%nat) "y")).
  rewrite Hy. reflexivity.
Qed.

Lemma generateSessionToken_is_uuid_v4_witness :
  isUuidV4 (generateSessionToken halves) = true.
Proof.
  apply (generateSessionToken_is_uuid_v4 halves).
  intros k. split; [discriminate|reflexivity].
Defined.

Section LocationSearchBehaviour.

Context {number : Type}.
Variable mapboxToken : string.

(** Timer ids are handed out in increasing order. *)
Lemma step_timer_ids (st : State) (ev : @Event number) :
  (forall id, is_Some (timeouts st !! id) -> (id < nextTimeoutId st)%nat) ->
  forall id, is_Some (timeouts (fst (step mapboxToken st ev)) !! id) ->
             (id < nextTimeoutId (fst (step mapboxToken st ev)))%nat.
Proof.
  intros Hids.
  destruct ev as [now value|id0 now|key|suggestion| |inside|response|response random];
    cbn [step].
  - unfold handleInputChange. cbn [fst].
    destruct (searchDebounceRef (setSearchTerm value st)) as [old|]; cbn;
      intros id [t Ht]; destruct (decide (id = nextTimeoutId st)) as [->|Hne]; try lia;
      rewrite lookup_insert_ne in Ht by done.
    + apply lookup_delete_Some in Ht as [_ Ht].
      assert (id < nextTimeoutId st)%nat by (apply Hids; eauto). lia.
    + assert (id < nextTimeoutId st)%nat by (apply Hids; eauto). lia.
  - unfold timerFire. destruct (timeouts st !! id0) as [t|] eqn:Hid; [|done].
    destruct (due t <=? now); [|done].
    unfold fetchSearchSuggestions.
    destruct (negb (JS.truthy (JS.trim (callbackQuery t)))); cbn;
      intros id [t' Ht']; apply lookup_delete_Some in Ht' as [_ Ht']; apply Hids; eauto.
  - unfold handleKeyDown. destruct (String.eqb key "Enter"); [|done].
    destruct (results st); [|done].
    destruct (JS.truthy (JS.trim (searchTerm st))); [|done].
    unfold fetchSearchSuggestions.
    by destruct (negb (JS.truthy (JS.trim (searchTerm st)))).
  - done.
  - unfold searchButtonClick. destruct (isSearching st); [done|].
    destruct (results st); [|done].
    unfold fetchSearchSuggestions.
    by destruct (negb (JS.truthy (JS.trim (searchTerm st)))).
  - unfold handleClickOutside. by destruct inside.
  - by destruct response as [| |[suggestions|]].
  - destruct response as [| |[[|feature features]|]]; try done.
    simpl. by destruct (coordinates feature).
Qed.

Lemma run_timer_ids (evs : list (@Event number)) (st : State) :
  (forall id, is_Some (timeouts st !! id) -> (id < nextTimeoutId st)%nat) ->
  forall id, is_Some (timeouts (fst (run mapboxToken st evs)) !! id) ->
             (id < nextTimeoutId (fst (run mapboxToken st evs)))%nat.
Proof.
  revert st. induction evs as [|ev evs IH]; intros st0 H0; [exact H0|].
  cbn [run]. pose proof (step_timer_ids st0 ev H0) as H1.
  destruct (step mapboxToken st0 ev) as [st1 out1]; cbn [fst] in *.
  specialize (IH st1 H1).
  by destruct (run mapboxToken st1 evs) as [st2 out2].
Qed.

(** X13.  In every state the component can reach, at most one debounce
    timer is pending; it is the one [searchDebounceRef] holds, and its id is
    below the next id the runtime will hand out. *)
Theorem at_most_one_pending_timer (random : nat -> Q) (evs : list (@Event number)) :
  let st := fst (run mapboxToken (init random) evs) in
  (size (timeouts st) <= 1)%nat /\
  forall id t,
    timeouts st !! id = Some t ->
    searchDebounceRef st = Some id /\ (id < nextTimeoutId st)%nat /\
    timeouts st = {[ id := t ]}.
Proof.
  intros st.
  assert (oneTimer st) as Hone by apply run_oneTimer, init_oneTimer.
  assert (forall id, is_Some (timeouts st !! id) -> (id < nextTimeoutId st)%nat) as Hids.
  { apply run_timer_ids. intros id [t Ht]. cbn [init timeouts] in Ht.
    by rewrite lookup_empty in Ht. }
  assert (forall id t, timeouts st !! id = Some t -> timeouts st = {[ id := t ]}) as Hsingle.
  { intros id t Hid. apply map_eq. intros i.
    destruct (decide (i = id)) as [->|Hne].
    - by rewrite lookup_singleton_eq.
    - rewrite lookup_singleton_ne by done.
      destruct (timeouts st !! i) as [t'|] eqn:Hi; [|done].
      apply Hone in Hi. apply Hone in Hid. congruence. }
  split.
  - destruct (map_choose_or_empty (timeouts st)) as [(id & t & Hid)| ->].
    + rewrite (Hsingle _ _ Hid), map_size_singleton. lia.
    + rewrite map_size_empty. lia.
  - intros id t Hid. split; [by eapply Hone|]. split; [apply Hids; eauto|by apply Hsingle].
Qed.

(** X12.  The accept key does not cancel the debounce timer.  After any
    history that leaves no results, typing a non-blank text and pressing
    Enter sends the suggest call at once; the timer armed by the keystroke
    is still pending, and when it fires 300 ms after the keystroke it sends
    the same call a second time. *)
Theorem enter_does_not_cancel_the_timer (random : nat -> Q)
    (history : list (@Event number)) (now fireTime : Z) (value : string) :
  results (fst (run mapboxToken (init random) history)) = [] ->
  isBlank value = false ->
  now + 300 <= fireTime ->
  let st := fst (run mapboxToken (init random) history) in
  let call := FetchSuggest (number := number) value (sessionTokenRef st) mapboxToken 5 in
  let '(st1, out1) := run mapboxToken st [InputChange now value; KeyDown "Enter"] in
  out1 = [call] /\
  exists id,
    searchDebounceRef st1 = Some id /\
    snd (step mapboxToken st1 (TimerFire id fireTime)) = [call].
Proof.
  intros Hresults Hvalue Hdue st call.
  assert (oneTimer st) as Hone by apply run_oneTimer, init_oneTimer.
  cbn [run step].
  destruct (handleInputChange_arms (number := number) now value st Hone)
    as ([Htimers Href] & Hout & Hterm & Htok).
  assert (results (fst (handleInputChange (number := number) now value st)) = []) as Hres.
  { unfold handleInputChange. cbn [fst].
    by destruct (searchDebounceRef (setSearchTerm value st)). }
  destruct (handleInputChange now value st) as [st0 out0]; cbn [fst snd] in *.
  subst out0. unfold handleKeyDown. cbn [String.eqb Ascii.eqb Bool.eqb].
  rewrite Hres, Hterm, truthy_trim, Hvalue. cbn [negb].
  rewrite (fetchSearchSuggestions_nonblank mapboxToken value st0 Hvalue).
  cbn [app]. rewrite Htok. split; [reflexivity|].
  exists (nextTimeoutId st). split; [done|].
  cbn [step]. unfold timerFire. cbn [timeouts setIsSearching].
  rewrite Htimers, lookup_singleton_eq. cbn [due callbackQuery].
  assert ((now + 300 <=? fireTime) = true) as -> by (apply Z.leb_le; lia).
  rewrite (fetchSearchSuggestions_nonblank mapboxToken value _ Hvalue).
  cbn [snd clearTimeout sessionTokenRef setIsSearching]. by rewrite Htok.
Qed.

(** X14.  Pressing Enter while suggestions are listed selects the first
    one: the retrieve cycle it starts (request, then response) has the same
    effects and ends in the same state as a click on that suggestion.  The
    search button, when enabled, does the same. *)
Theorem enter_selects_the_first_suggestion (st : State)
    (first : SearchBoxSuggestion) (rest : list SearchBoxSuggestion)
    (response : Fetched (option (list (@RetrieveFeature number)))) (random : nat -> Q) :
  results st = first :: rest ->
  run mapboxToken st [KeyDown "Enter"; RetrieveResponse response random]
  = run mapboxToken st [ResultClick first; RetrieveResponse response random] /\
  (isSearching st = false ->
   run mapboxToken st [ButtonClick; RetrieveResponse response random]
   = run mapboxToken st [ResultClick first; RetrieveResponse response random]) /\
  snd (step (number := number) mapboxToken st (KeyDown "Enter"))
  = [FetchRetrieve (mapbox_id first) (sessionTokenRef st) mapboxToken].
Proof.
  intros Hresults. cbn [run step].
  unfold handleKeyDown, searchButtonClick, handleResultClick.
  cbn [String.eqb Ascii.eqb Bool.eqb]. rewrite Hresults.
  split; [reflexivity|]. split; [by intros ->|reflexivity].
Qed.

(** X15.  After a suggest response the list of suggestions is on screen
    exactly when the response carried at least one suggestion, and it then
    shows those suggestions.  After a failed response the stored results
    are empty, so nothing is shown even though [showResults] is left as it
    was. *)
Theorem suggestions_shown_iff_some_arrived
    (response : Fetched (option (list SearchBoxSuggestion))) (st : State) :
  let st' := fst (fetchSearchSuggestions_resume (number := number) response st) in
  (panelVisible st' = true <->
   exists suggestion more, response = Ok (Some (suggestion :: more))) /\
  (forall suggestions, response = Ok (Some suggestions) -> results st' = suggestions) /\
  ((response = Rejected \/ response = NotOk \/ response = Ok None) ->
   results st' = [] /\ showResults st' = showResults st) /\
  isSearching st' = false.
Proof.
  unfold panelVisible.
  destruct response as [| |[[|suggestion more]|]]; cbn.
  - split; [split; [by rewrite andb_false_r|by intros (? & ? & ?)]|].
    split; [done|]. split; [auto|done].
  - split; [split; [by rewrite andb_false_r|by intros (? & ? & ?)]|].
    split; [done|]. split; [auto|done].
  - split; [split; [done|by intros (? & ? & ?)]|].
    split; [by intros ? [= <-]|]. split; [|done]. intros [|[|]]; done.
  - split; [split; [eauto|done]|].
    split; [by intros ? [= <-]|]. split; [|done]. intros [|[|]]; done.
  - split; [split; [by rewrite andb_false_r|by intros (? & ? & ?)]|].
    split; [done|]. split; [auto|done].
Qed.

(** X16.  What a step leaves alone.  The query text changes only by typing
    and by a retrieve that resolves a feature.  The pending timers and
    [searchDebounceRef] change only by typing and by a timer running: no
    response, click or key press cancels a timer. *)
Theorem step_frame (st : State) (ev : @Event number) :
  ((forall now value, ev <> InputChange now value) ->
   rotation ev = None ->
   searchTerm (fst (step mapboxToken st ev)) = searchTerm st) /\
  (keepsTimers ev = true ->
   timeouts (fst (step mapboxToken st ev)) = timeouts st /\
   searchDebounceRef (fst (step mapboxToken st ev)) = searchDebounceRef st /\
   nextTimeoutId (fst (step mapboxToken st ev)) = nextTimeoutId st).
Proof.
  destruct ev as [now value|id0 now|key|suggestion| |inside|response|response random];
    cbn [step keepsTimers rotation].
  - split; [intros H; by destruct (H now value)|done].
  - split; [|done]. intros _ _. unfold timerFire.
    destruct (timeouts st !! id0) as [t|]; [|done].
    destruct (due t <=? now); [|done].
    unfold fetchSearchSuggestions.
    by destruct (negb (JS.truthy (JS.trim (callbackQuery t)))).
  - unfold handleKeyDown. destruct (String.eqb key "Enter"); [|done].
    destruct (results st); [|done].
    destruct (JS.truthy (JS.trim (searchTerm st))); [|done].
    unfold fetchSearchSuggestions.
    by destruct (negb (JS.truthy (JS.trim (searchTerm st)))).
  - done.
  - unfold searchButtonClick. destruct (isSearching st); [done|].
    destruct (results st); [|done].
    unfold fetchSearchSuggestions.
    by destruct (negb (JS.truthy (JS.trim (searchTerm st)))).
  - unfold handleClickOutside. by destruct inside.
  - by destruct response as [| |[suggestions|]].
  - destruct response as [| |[[|feature features]|]]; try done.
    cbn. destruct (coordinates feature). done.
Qed.

End LocationSearchBehaviour.

Lemma at_most_one_pending_timer_witness :
  searchDebounceRef
    (fst (run (number := Z) "pk.token" (init zeros)
            [InputChange 0 "par"; InputChange 100 "pari"])) = Some 2%nat.
Proof.
  pose proof (at_most_one_pending_timer (number := Z) "pk.token" zeros
                [InputChange 0 "par"; InputChange 100 "pari"]) as H.
  cbv zeta in H. destruct H as [_ H].
  apply (H 2%nat {| due := 400; callbackQuery := "pari" |}).
  vm_compute. reflexivity.
Defined.

Lemma enter_does_not_cancel_the_timer_witness :
  snd (run (number := Z) "pk.token" (init zeros) [InputChange 0 "par"; KeyDown "Enter"])
  = [FetchSuggest "par" (sessionTokenRef (init zeros)) "pk.token" 5].
Proof.
  assert (0 + 300 <= 300) as Hdue by lia.
  pose proof (enter_does_not_cancel_the_timer (number := Z) "pk.token" zeros [] 0 300 "par"
                eq_refl eq_refl Hdue) as H.
  cbv zeta in H.
  change (fst (run "pk.token" (init zeros) [])) with (@init zeros) in H.
  destruct (run "pk.token" (init zeros) [InputChange 0 "par"; KeyDown "Enter"])
    as [st1 out1].
  exact (proj1 H).
Defined.

Example typing_then_enter_calls_twice :
  snd (run (number := Z) "pk.token" (init zeros)
         [InputChange 0 "par"; KeyDown "Enter"; TimerFire 1 300])
  = [FetchSuggest "par" "00000000-0000-4000-8000-000000000000" "pk.token" 5;
     FetchSuggest "par" "00000000-0000-4000-8000-000000000000" "pk.token" 5].
Proof. vm_compute. reflexivity. Qed.

Lemma enter_selects_the_first_suggestion_witness :
  run (number := Z) "pk.token" (setResults [cafeX; cafeY] (init zeros))
    [KeyDown "Enter"; RetrieveResponse (Ok (Some [sampleFeature])) halves]
  = run "pk.token" (setResults [cafeX; cafeY] (init zeros))
      [ResultClick cafeX; RetrieveResponse (Ok (Some [sampleFeature])) halves].
Proof.
  exact (proj1 (enter_selects_the_first_suggestion (number := Z) "pk.token"
                  (setResults [cafeX; cafeY] (init zeros)) cafeX [cafeY]
                  (Ok (Some [sampleFeature])) halves eq_refl)).
Defined.

Lemma suggestions_shown_iff_some_arrived_witness :
  results (fst (fetchSearchSuggestions_resume (number := Z) (Ok (Some [cafeX])) (init zeros)))
  = [cafeX] /\
  results (fst (fetchSearchSuggestions_resume (number := Z) NotOk
                  (setShowResults true (setResults [cafeX] (init zeros))))) = [].
Proof.
  split.
  - pose proof (suggestions_shown_iff_some_arrived (number := Z) (Ok (Some [cafeX]))
                  (init zeros)) as H.
    cbv zeta in H. destruct H as (_ & H & _). by apply H.
  - pose proof (suggestions_shown_iff_some_arrived (number := Z) NotOk
                  (setShowResults true (setResults [cafeX] (init zeros)))) as H.
    cbv zeta in H. destruct H as (_ & _ & H & _). apply H. auto.
Defined.

Lemma step_frame_witness :
  timeouts (fst (step (number := Z) "pk.token"
                   (fst (run (number := Z) "pk.token" (init zeros) [InputChange 0 "par"]))
                   (RetrieveResponse (Ok (Some [sampleFeature])) halves)))
  = timeouts (fst (run (number := Z) "pk.token" (init zeros) [InputChange 0 "par"])).
Proof.
  exact (proj1 (proj2 (step_frame (number := Z) "pk.token"
                         (fst (run (number := Z) "pk.token" (init zeros)
                                 [InputChange 0 "par"]))
                         (RetrieveResponse (Ok (Some [sampleFeature])) halves))
                  eq_refl)).
Defined.

(** ** The map view: search results and the collection of features *)

Section MapViewProperties.

Context {number : Type}.

Lemma featureIds_filter_In (p : @Panel.Feature number -> bool)
    (l : list (@Panel.Feature number)) (i : string) :
  In i (featureIds (List.filter p l)) -> In i (featureIds l).
Proof.
  unfold featureIds. rewrite !List.in_map_iff.
  intros (f & Hid & Hf). apply List.filter_In in Hf as [Hf _]. eauto.
Qed.

Lemma featureIds_filter_NoDup (p : @Panel.Feature number -> bool)
    (l : list (@Panel.Feature number)) :
  NoDup (featureIds l) -> NoDup (featureIds (List.filter p l)).
Proof.
  induction l as [|f l IH]; [done|].
  cbn [featureIds List.map List.filter]. intros Hnodup.
  apply NoDup_cons in Hnodup as [Hfresh Hnodup].
  destruct (p f); [|by apply IH].
  cbn [List.map]. apply NoDup_cons. split; [|by apply IH].
  intros Hin%list_elem_of_In. apply Hfresh, list_elem_of_In.
  by apply featureIds_filter_In in Hin.
Qed.

Lemma formatFeature_id_inj (a b : @SearchRoute.Row number) :
  Panel.prop_id (MapView.formatFeature a) = Panel.prop_id (MapView.formatFeature b) ->
  SearchRoute.id a = SearchRoute.id b.
Proof.
  cbn [MapView.formatFeature Panel.prop_id]. intros H.
  apply (inj (String.app "msg")) in H. by apply (inj pretty) in H.
Qed.

Lemma formatFeatures_NoDup (rows : list (@SearchRoute.Row number)) :
  NoDup (rowIds rows) -> NoDup (featureIds (MapView.formatFeatures rows)).
Proof.
  induction rows as [|row rows IH]; [intros _; constructor|].
  cbn [rowIds featureIds MapView.formatFeatures List.map]. intros Hnodup.
  apply NoDup_cons in Hnodup as [Hfresh Hnodup].
  apply NoDup_cons. split; [|by apply IH].
  intros Hin%list_elem_of_In. apply Hfresh, list_elem_of_In.
  rewrite List.map_map in Hin. apply List.in_map_iff in Hin as (row' & Hid & Hrow').
  apply formatFeature_id_inj in Hid. apply List.in_map_iff. eauto.
Qed.

(** Rows with distinct ids: the id determines the row. *)
Lemma rowIds_NoDup_inj (rows : list (@SearchRoute.Row number)) (a b : @SearchRoute.Row number) :
  NoDup (rowIds rows) -> In a rows -> In b rows ->
  SearchRoute.id a = SearchRoute.id b -> a = b.
Proof.
  induction rows as [|row rows IH]; [done|].
  cbn [rowIds List.map]. intros Hnodup Ha Hb Hid.
  apply NoDup_cons in Hnodup as [Hfresh Hnodup].
  destruct Ha as [<-|Ha], Hb as [<-|Hb]; [done| | |by apply IH].
  - destruct Hfresh. apply list_elem_of_In, List.in_map_iff. eauto.
  - destruct Hfresh. apply list_elem_of_In, List.in_map_iff. eauto.
Qed.

Lemma has_idsOf (l : list (@Panel.Feature number)) (f : @Panel.Feature number) :
  MapView.has (MapView.idsOf l) f = true <-> In (Panel.prop_id f) (featureIds l).
Proof.
  unfold MapView.has, MapView.idsOf, featureIds.
  rewrite bool_decide_eq_true, elem_of_list_to_set. apply list_elem_of_In.
Qed.

Lemma has_idsOf_false (l : list (@Panel.Feature number)) (f : @Panel.Feature number) :
  MapView.has (MapView.idsOf l) f = false <-> ~ In (Panel.prop_id f) (featureIds l).
Proof. rewrite <- has_idsOf. by destruct (MapView.has _ f). Qed.

(** The loop that pushes the unseen server matches is a filter. *)
Lemma pushUnseen_filter (seen : gset string)
    (allMatches serverMatches : list (@Panel.Feature number)) :
  MapView.pushUnseen seen allMatches serverMatches
  = allMatches ++ List.filter (fun f => negb (MapView.has seen f)) serverMatches.
Proof.
  unfold MapView.pushUnseen. revert allMatches.
  induction serverMatches as [|f rest IH]; intros allMatches; cbn [fold_left List.filter].
  - by rewrite app_nil_r.
  - rewrite IH. destruct (MapView.has seen f); cbn [negb]; [done|].
    by rewrite <- app_assoc.
Qed.

(** X17.  The matches of a search are the local matches followed by the
    server matches whose id no local match has.  When the features at hand
    and the rows of the server have distinct ids, no id occurs twice among
    the matches, and every row of the server is there under its id. *)
Theorem search_results_have_no_duplicates (captured : list (@Panel.Feature number))
    (receiver : string) (rows : list (@SearchRoute.Row number)) (st : MapView.State) :
  NoDup (featureIds captured) ->
  NoDup (rowIds rows) ->
  let st' := fst (MapView.handleSearch_resume captured receiver
                    (LocationSearch.Ok (Some rows)) st) in
  let localMatches := List.filter (sameReceiver receiver) captured in
  MapView.matchedFeatures st'
  = localMatches
    ++ List.filter (fun f => negb (MapView.has (MapView.idsOf localMatches) f))
         (MapView.formatFeatures rows) /\
  NoDup (featureIds (MapView.matchedFeatures st')) /\
  (forall row, In row rows ->
     In (Panel.prop_id (MapView.formatFeature row))
        (featureIds (MapView.matchedFeatures st'))) /\
  MapView.selectedFeature st' = None /\
  MapView.isLoading st' = false.
Proof.
  intros Hcaptured Hrows st' localMatches.
  assert (MapView.matchedFeatures st'
          = localMatches
            ++ List.filter (fun f => negb (MapView.has (MapView.idsOf localMatches) f))
                 (MapView.formatFeatures rows)) as Hmatched.
  { subst st'. cbn [MapView.handleSearch_resume default from_option id fst].
    cbn [MapView.matchedFeatures MapView.setIsLoading MapView.setSelectedFeature
         MapView.setMatchedFeatures].
    by rewrite pushUnseen_filter. }
  split; [exact Hmatched|]. rewrite Hmatched.
  split; [|split; [|done]].
  - unfold featureIds. rewrite List.map_app. apply NoDup_app.
    split; [by apply featureIds_filter_NoDup|].
    split; [|by apply featureIds_filter_NoDup, formatFeatures_NoDup].
    intros i Hlocal%list_elem_of_In Hserver%list_elem_of_In.
    apply List.in_map_iff in Hserver as (f & <- & Hf).
    apply List.filter_In in Hf as [_ Hf]. apply negb_true_iff in Hf.
    by apply has_idsOf_false in Hf.
  - intros row Hrow. unfold featureIds. rewrite List.map_app, List.in_app_iff.
    destruct (MapView.has (MapView.idsOf localMatches) (MapView.formatFeature row)) eqn:Hseen.
    + left. by apply has_idsOf.
    + right. apply List.in_map. apply List.filter_In. split; [|by rewrite Hseen].
      by apply List.in_map.
Qed.

(** X18.  A search that the server answers only adds to the collection of
    the map: the features held stay where they are, and the server matches
    whose id was not held are appended.  When ids were distinct they still
    are, and every match shown is in the collection. *)
Theorem search_extends_the_collection (receiver : string)
    (rows : list (@SearchRoute.Row number)) (st : MapView.State) :
  NoDup (featureIds (MapView.geojsonData st)) ->
  NoDup (rowIds rows) ->
  JS.truthy receiver = true ->
  let st' := fst (MapView.search receiver (LocationSearch.Ok (Some rows)) st) in
  MapView.geojsonData st'
  = MapView.geojsonData st
    ++ List.filter (fun f => negb (MapView.has (MapView.idsOf (MapView.geojsonData st)) f))
         (MapView.formatFeatures rows) /\
  NoDup (featureIds (MapView.geojsonData st')) /\
  (forall f, In f (MapView.matchedFeatures st') ->
             In (Panel.prop_id f) (featureIds (MapView.geojsonData st'))).
Proof.
  intros Hheld Hrows Hreceiver st'.
  assert (MapView.geojsonData st'
          = MapView.geojsonData st
            ++ List.filter
                 (fun f => negb (MapView.has (MapView.idsOf (MapView.geojsonData st)) f))
                 (MapView.formatFeatures rows)) as Hdata.
  { subst st'. unfold MapView.search, MapView.handleSearch. rewrite Hreceiver.
    cbn [negb MapView.handleSearch_resume default from_option id fst].
    destruct (0 <? length _)%nat eqn:Hlen; [reflexivity|].
    apply Nat.ltb_ge in Hlen.
    destruct (List.filter _ (MapView.formatFeatures rows)); [|simpl in Hlen; lia].
    cbn. by rewrite app_nil_r. }
  assert (MapView.matchedFeatures st'
          = List.filter (sameReceiver receiver) (MapView.geojsonData st)
            ++ List.filter
                 (fun f => negb (MapView.has
                                   (MapView.idsOf (List.filter (sameReceiver receiver)
                                                     (MapView.geojsonData st))) f))
                 (MapView.formatFeatures rows)) as Hmatched.
  { subst st'. unfold MapView.search, MapView.handleSearch. rewrite Hreceiver.
    cbn [negb MapView.handleSearch_resume default from_option id fst].
    cbn [MapView.matchedFeatures MapView.setIsLoading MapView.setSelectedFeature
         MapView.setMatchedFeatures].
    by rewrite pushUnseen_filter. }
  split; [exact Hdata|]. rewrite Hdata, Hmatched. split.
  - unfold featureIds. rewrite List.map_app. apply NoDup_app.
    split; [done|]. split; [|by apply featureIds_filter_NoDup, formatFeatures_NoDup].
    intros i Hlocal%list_elem_of_In Hserver%list_elem_of_In.
    apply List.in_map_iff in Hserver as (f & <- & Hf).
    apply List.filter_In in Hf as [_ Hf]. apply negb_true_iff in Hf.
    by apply has_idsOf_false in Hf.
  - intros f Hf. unfold featureIds. rewrite List.map_app, List.in_app_iff.
    apply List.in_app_iff in Hf as [Hf|Hf].
    + left. apply List.filter_In in Hf as [Hf _]. by apply List.in_map.
    + apply List.filter_In in Hf as [Hf _].
      destruct (MapView.has (MapView.idsOf (MapView.geojsonData st)) f) eqn:Hseen.
      * left. by apply has_idsOf.
      * right. apply List.in_map. apply List.filter_In. by rewrite Hseen.
Qed.

(** X19.  A search for the empty receiver sends no request and clears the
    matches.  A search whose request fails shows nothing new: matches,
    selection and collection are what they were before the search, not even
    the local matches of the new receiver are shown; only the query text and
    the temporary marker have changed. *)
Theorem search_without_an_answer (receiver : string)
    (response : LocationSearch.Fetched (option (list (@SearchRoute.Row number))))
    (st : MapView.State) :
  response = LocationSearch.Rejected \/ response = LocationSearch.NotOk ->
  MapView.search "" response st
  = (MapView.setMatchedFeatures []
       (MapView.setTempMarker None (MapView.setSearchQuery "" st)), []) /\
  (JS.truthy receiver = true ->
   let '(st', out) := MapView.search receiver response st in
   out = [MapView.FetchSearch receiver; MapView.ConsoleError "Search failed:"] /\
   MapView.matchedFeatures st' = MapView.matchedFeatures st /\
   MapView.selectedFeature st' = MapView.selectedFeature st /\
   MapView.geojsonData st' = MapView.geojsonData st /\
   MapView.searchQuery st' = receiver /\
   MapView.tempMarker st' = None /\
   MapView.isLoading st' = false).
Proof.
  intros Hfailed. split; [reflexivity|]. intros Hreceiver.
  unfold MapView.search, MapView.handleSearch. rewrite Hreceiver. cbn [negb].
  destruct Hfailed as [-> | ->]; cbn; auto 10.
Qed.

Lemma fetchSearch_plain (supabase : @SearchRoute.Supabase number) (s : string) :
  s <> "" -> isPlain s = true -> SearchRoute.unavailable supabase = None ->
  MapView.fetchSearch supabase s
  = LocationSearch.Ok
      (Some (List.filter (fun row => equalsIgnoreCase (SearchRoute.receiver row) s)
               (SearchRoute.messages supabase))).
Proof.
  intros Hne Hplain Havailable.
  unfold MapView.fetchSearch, SearchRoute.GET, SearchRoute.selectFilterIlike.
  destruct s as [|c s]; [done|].
  cbn [JS.truthy_opt JS.truthy negb default from_option id].
  by rewrite Havailable, whereIlike_plain.
Qed.

Lemma sameReceiver_formatFeature (s : string) (row : @SearchRoute.Row number) :
  sameReceiver s (MapView.formatFeature row) = equalsIgnoreCase (SearchRoute.receiver row) s.
Proof.
  unfold sameReceiver, equalsIgnoreCase, MemoryMap.receiverIs. cbn.
  apply String.eqb_sym.
Qed.

(** X20.  The search, end to end.  For a non-empty value without pattern
    characters, a backend that answers, a table with distinct ids and a map
    whose features all come from that table, the matches shown after the
    search are exactly the features of the rows whose receiver equals the
    value, ignoring case. *)
Theorem search_shows_the_receivers_memories (supabase : @SearchRoute.Supabase number)
    (s : string) (st : MapView.State) :
  s <> "" ->
  isPlain s = true ->
  SearchRoute.unavailable supabase = None ->
  NoDup (rowIds (SearchRoute.messages supabase)) ->
  (forall f, In f (MapView.geojsonData st) ->
             In f (MapView.formatFeatures (SearchRoute.messages supabase))) ->
  let st' := fst (MapView.search s (MapView.fetchSearch supabase s) st) in
  forall f,
    In f (MapView.matchedFeatures st') <->
    exists row,
      In row (SearchRoute.messages supabase) /\
      equalsIgnoreCase (SearchRoute.receiver row) s = true /\
      f = MapView.formatFeature row.
Proof.
  intros Hne Hplain Havailable Hids Hloaded st' f.
  assert (forall g, In g (MapView.formatFeatures
                            (List.filter
                               (fun row => equalsIgnoreCase (SearchRoute.receiver row) s)
                               (SearchRoute.messages supabase))) <->
                    exists row, In row (SearchRoute.messages supabase) /\
                                equalsIgnoreCase (SearchRoute.receiver row) s = true /\
                                g = MapView.formatFeature row) as Hserver.
  { intros g. unfold MapView.formatFeatures. rewrite List.in_map_iff. split.
    - intros (row & <- & Hrow). apply List.filter_In in Hrow as [Hrow Heq]. eauto.
    - intros (row & Hrow & Heq & ->). exists row. split; [done|].
      by apply List.filter_In. }
  assert (forall g, In g (List.filter (sameReceiver s) (MapView.geojsonData st)) ->
                    exists row, In row (SearchRoute.messages supabase) /\
                                equalsIgnoreCase (SearchRoute.receiver row) s = true /\
                                g = MapView.formatFeature row) as Hlocal.
  { intros g Hg. apply List.filter_In in Hg as [Hg Hsame].
    apply Hloaded, List.in_map_iff in Hg as (row & <- & Hrow).
    rewrite sameReceiver_formatFeature in Hsame. eauto. }
  assert (MapView.matchedFeatures st'
          = List.filter (sameReceiver s) (MapView.geojsonData st)
            ++ List.filter
                 (fun g => negb (MapView.has
                                   (MapView.idsOf (List.filter (sameReceiver s)
                                                     (MapView.geojsonData st))) g))
                 (MapView.formatFeatures
                    (List.filter (fun row => equalsIgnoreCase (SearchRoute.receiver row) s)
                       (SearchRoute.messages supabase)))) as ->.
  { subst st'. rewrite fetchSearch_plain by done.
    unfold MapView.search, MapView.handleSearch.
    destruct s as [|c s]; [done|]. cbn [JS.truthy negb].
    cbn [MapView.handleSearch_resume default from_option id fst].
    cbn [MapView.matchedFeatures MapView.setIsLoading MapView.setSelectedFeature
         MapView.setMatchedFeatures].
    by rewrite pushUnseen_filter. }
  rewrite List.in_app_iff. split.
  - intros [Hf|Hf]; [by apply Hlocal|].
    apply List.filter_In in Hf as [Hf _]. by apply Hserver.
  - intros Hrow.
    destruct (MapView.has
                (MapView.idsOf (List.filter (sameReceiver s) (MapView.geojsonData st))) f)
      eqn:Hseen.
    + left. apply has_idsOf in Hseen. apply List.in_map_iff in Hseen as (g & Hid & Hg).
      destruct (Hlocal g Hg) as (row' & Hrow' & _ & ->).
      destruct Hrow as (row & Hrow & _ & ->).
      apply formatFeature_id_inj in Hid.
      by rewrite <- (rowIds_NoDup_inj _ _ _ Hids Hrow' Hrow Hid).
    + right. apply List.filter_In. split; [by apply Hserver|by rewrite Hseen].
Qed.

End MapViewProperties.

Lemma search_results_have_no_duplicates_witness :
  MapView.matchedFeatures
    (fst (MapView.handleSearch_resume (MapView.formatFeatures [aliceSmith; alice]) "alice"
            (LocationSearch.Ok (Some [alice; bob])) loadedMap))
  = MapView.formatFeatures [alice; bob].
Proof.
  assert (NoDup (featureIds (MapView.formatFeatures [aliceSmith; alice]))) as Hcaptured.
  { apply (bool_decide_unpack _). vm_compute. exact I. }
  assert (NoDup (rowIds [alice; bob])) as Hrows.
  { apply (bool_decide_unpack _). vm_compute. exact I. }
  pose proof (search_results_have_no_duplicates
                (MapView.formatFeatures [aliceSmith; alice]) "alice" [alice; bob] loadedMap
                Hcaptured Hrows) as H.
  cbv zeta in H. destruct H as [H _]. rewrite H. vm_compute. reflexivity.
Defined.

Lemma search_extends_the_collection_witness :
  MapView.geojsonData
    (fst (MapView.search "alice" (LocationSearch.Ok (Some [alice; bob])) loadedMap))
  = MapView.formatFeatures [aliceSmith; alice; bob].
Proof.
  assert (NoDup (featureIds (MapView.geojsonData loadedMap))) as Hheld.
  { apply (bool_decide_unpack _). vm_compute. exact I. }
  assert (NoDup (rowIds [alice; bob])) as Hrows.
  { apply (bool_decide_unpack _). vm_compute. exact I. }
  pose proof (search_extends_the_collection "alice" [alice; bob] loadedMap
                Hheld Hrows eq_refl) as H.
  cbv zeta in H. destruct H as [H _]. rewrite H. vm_compute. reflexivity.
Defined.

Lemma search_without_an_answer_witness :
  MapView.matchedFeatures
    (fst (MapView.search "alice" LocationSearch.NotOk
            (MapView.setMatchedFeatures (MapView.formatFeatures [bob]) loadedMap)))
  = MapView.formatFeatures [bob].
Proof.
  pose proof (search_without_an_answer "alice" LocationSearch.NotOk
                (MapView.setMatchedFeatures (MapView.formatFeatures [bob]) loadedMap)
                (or_intror eq_refl)) as [_ H].
  specialize (H eq_refl).
  destruct (MapView.search "alice" LocationSearch.NotOk
              (MapView.setMatchedFeatures (MapView.formatFeatures [bob]) loadedMap))
    as [st' out].
  exact (proj1 (proj2 H)).
Defined.

Lemma search_shows_the_receivers_memories_witness :
  In (MapView.formatFeature alice)
     (MapView.matchedFeatures
        (fst (MapView.search "ALICE" (MapView.fetchSearch threeRows "ALICE") loadedMap))).
Proof.
  assert (NoDup (rowIds (SearchRoute.messages threeRows))) as Hids.
  { apply (bool_decide_unpack _). vm_compute. exact I. }
  assert (forall f, In f (MapView.geojsonData loadedMap) ->
                    In f (MapView.formatFeatures (SearchRoute.messages threeRows))) as Hloaded.
  { intros f [<-|[<-|[]]]; simpl; auto. }
  pose proof (search_shows_the_receivers_memories threeRows "ALICE" loadedMap) as H.
  apply H; [discriminate|reflexivity|reflexivity|exact Hids|exact Hloaded|].
  exists alice. split; [simpl; auto|]. split; reflexivity.
Defined.

Example search_end_to_end :
  MapView.matchedFeatures
    (fst (MapView.search "ALICE" (MapView.fetchSearch threeRows "ALICE") loadedMap))
  = MapView.formatFeatures [alice].
Proof. vm_compute. reflexivity. Qed.

(** ** The memory form and the page *)

Section PanelBehaviour.

Context {number : Type}.
Variable parseFloat : string -> number.

(** X21.  [handleSubmit] sends the create request exactly when the marker
    is set and neither the message nor the receiver is blank.  The request
    carries the message and the receiver as typed (not trimmed), the second
    coordinate of the marker as latitude and the first as longitude.
    Otherwise nothing is sent and an error is shown; the missing marker is
    reported before the blank fields. *)
Theorem handleSubmit_sends_iff_valid (st : @Panel.State number) :
  let '(st', out, sent) := Panel.handleSubmit st in
  (sent = true <->
   is_Some (Panel.markerLocation st) /\
   isBlank (Panel.message (Panel.formData st)) = false /\
   isBlank (Panel.receiver (Panel.formData st)) = false) /\
  (sent = true ->
   exists lng lat,
     Panel.markerLocation st = Some (lng, lat) /\
     out = [Panel.FetchSubmit (Panel.message (Panel.formData st))
              (Panel.receiver (Panel.formData st)) lat lng] /\
     Panel.isSubmitting st' = true /\ Panel.errorMessage st' = None) /\
  (sent = false ->
   out = [] /\
   Panel.isSubmitting st' = Panel.isSubmitting st /\
   Panel.errorMessage st'
   = Some (if bool_decide (is_Some (Panel.markerLocation st))
           then "Please fill in all fields."
           else "Please drag the marker to a location on the map.")).
Proof.
  unfold Panel.handleSubmit. rewrite !truthy_trim, !negb_involutive.
  destruct st as [show [msg rcv] [[lng lat]|] submitting err]; cbn.
  - destruct (isBlank msg), (isBlank rcv); cbn;
      (split; [split; [try done; eauto|by intros (_ & ? & ?)]|]);
      (split; [try done; eauto 10|done]).
  - split; [split; [done|by intros ([? ?] & _)]|]. split; done.
Qed.

(** X22.  The feature the form hands to [onNewPin] for a created record is
    the feature the map builds from the same row with [formatFeatures]: same
    [msg]-prefixed id, same properties, longitude before latitude.  A
    record whose id is 0 is refused as an invalid response. *)
Theorem new_pin_is_the_feature_of_the_row (row : @SearchRoute.Row number)
    (more : list (@Panel.Memory number)) (st : @Panel.State number) :
  snd (Panel.handleSubmit_resume (Panel.HttpOk (Some (memoryOfRow row :: more))) st)
  = if SearchRoute.id row =? 0
    then [Panel.ConsoleError (Some "Invalid response from server")]
    else [Panel.OnNewPin (MapView.formatFeature row); Panel.OnPinFormToggle false].
Proof.
  unfold Panel.handleSubmit_resume, Panel.validRecord. cbn.
  by destruct (SearchRoute.id row =? 0).
Qed.

Lemma step_formInOrder (st : @Panel.State number) (ev : @Panel.Event number) :
  formInOrder st -> formInOrder (fst (Panel.step parseFloat st ev)).
Proof.
  unfold formInOrder.
  destruct st as [show [msg rcv] marker submitting err].
  destruct ev as [name value| |response| |pinFormData]; cbn.
  - destruct show, submitting; cbn; try done.
    unfold Panel.handleFormChange. cbn.
    destruct (JS.truthy_opt err); cbn; intros [_ H]; split; done.
  - destruct show, submitting; cbn; try done.
    unfold Panel.handleSubmit. cbn.
    destruct marker as [[lng lat]|]; cbn; [|intros _; split; done].
    destruct (_ || _); cbn; intros _; split; done.
  - destruct submitting; cbn; [|done].
    intros [_ H]. destruct (H eq_refl) as [-> ->].
    destruct response as [e|statusText|data]; cbn; try (split; done).
    destruct (Panel.validRecord data) as [[m i]|]; cbn; split; done.
  - destruct submitting; cbn; [done|].
    destruct show; cbn; intros _; split; done.
  - destruct pinFormData as [[latitude longitude]|]; cbn; [|done].
    by destruct (JS.truthy latitude && JS.truthy longitude).
Qed.

(** X23.  In every state the form can reach, a closed form has empty
    fields and shows no error, so the form is always blank when it is
    opened; and as long as a request is pending the form stays open,
    without an error. *)
Theorem closed_form_is_blank (evs : list (@Panel.Event number)) :
  formInOrder (fst (Panel.run parseFloat Panel.init evs)).
Proof.
  assert (formInOrder (@Panel.init number)) as Hinit by (split; done).
  revert Hinit. generalize (@Panel.init number).
  induction evs as [|ev evs IH]; intros st Hst; [done|].
  cbn [Panel.run]. pose proof (step_formInOrder st ev Hst) as H1.
  destruct (Panel.step parseFloat st ev) as [st1 out1]; cbn [fst] in *.
  specialize (IH st1 H1).
  by destruct (Panel.run parseFloat st1 evs) as [st2 out2].
Qed.

Lemma mapStep_pinMode (m : @MapView.State number) (ev : @MapView.Event number) :
  MapView.pinMode (fst (MapView.step m ev)) = MapView.pinMode m.
Proof.
  destruct ev as [|data|hit|coordinates zoom|lngLat|query| |captured receiver response
                  |feature|lng lat|lng lat]; cbn; try done.
  - by destruct data.
  - destruct hit as [[[clusterId|] coordinates|feature]|]; cbn; try done.
    by destruct (clusterId =? 0).
  - by destruct zoom.
  - destruct (MapView.isLoading m); [done|].
    unfold MapView.handleSearch. by destruct (negb (JS.truthy (MapView.searchQuery m))).
  - destruct response as [| |serverData]; cbn; try done.
    by destruct (length _).
Qed.

Lemma pageStep_pinMode (st : @App.State number) (ev : @App.Event number) :
  MapView.pinMode (App.map st) = Panel.showForm (App.panel st) ->
  MapView.pinMode (App.map (fst (fst (App.step parseFloat st ev))))
  = Panel.showForm (App.panel (fst (fst (App.step parseFloat st ev)))).
Proof.
  destruct st as [p m]. cbn [App.map App.panel]. intros Hsync.
  destruct ev as [pev center|mev]; cbn [App.step App.map App.panel].
  2:{ pose proof (mapStep_pinMode m mev) as H.
      destruct (MapView.step m mev) as [m' mout]; cbn in *. congruence. }
  destruct p as [show [msg rcv] marker submitting err]. cbn in Hsync.
  destruct pev as [name value| |response| |pinFormData]; cbn.
  - destruct show, submitting; cbn; try done.
    unfold Panel.handleFormChange. cbn. by destruct (JS.truthy_opt err).
  - destruct show, submitting; cbn; try done.
    unfold Panel.handleSubmit. cbn.
    destruct marker as [[lng lat]|]; cbn; [|done].
    by destruct (_ || _).
  - destruct submitting; cbn; [|done].
    destruct response as [e|statusText|data]; cbn; try done.
    by destruct (Panel.validRecord data) as [[r i]|].
  - destruct submitting; cbn; [done|]. by destruct show, center.
  - destruct pinFormData as [[latitude longitude]|]; cbn; [|done].
    by destruct (JS.truthy latitude && JS.truthy longitude).
Qed.

(** X24.  On the page, the pin mode of the map and the form of the panel
    go together: in every reachable state the draggable marker is on the
    map exactly when the form is open, whatever the order of clicks,
    searches, submissions and answers. *)
Theorem pin_mode_follows_the_form (initialPin : number * number)
    (evs : list (@App.Event number)) :
  let st := App.run parseFloat (App.init initialPin) evs in
  MapView.pinMode (App.map st) = Panel.showForm (App.panel st).
Proof.
  cbv zeta.
  assert (MapView.pinMode (App.map (App.init initialPin))
          = Panel.showForm (App.panel (App.init initialPin))) as Hinit by done.
  revert Hinit. generalize (App.init initialPin).
  induction evs as [|ev evs IH]; intros st Hst; [done|].
  cbn [App.run]. apply IH. by apply pageStep_pinMode.
Qed.

(** X25.  A submission that succeeds reaches the map: the new feature is
    appended to the collection and selected, the matches, the query text and
    the temporary marker are cleared, the map eases to the new feature, and
    the pin mode ends. *)
Theorem created_pin_reaches_the_map (st : @App.State number)
    (row : @SearchRoute.Row number) (more : list (@Panel.Memory number))
    (center : option (number * number)) :
  Panel.isSubmitting (App.panel st) = true ->
  SearchRoute.id row <> 0 ->
  let '(st', pout, mout) :=
    App.step parseFloat st
      (App.PanelEvent (Panel.SubmitAnswer (Panel.HttpOk (Some (memoryOfRow row :: more))))
         center) in
  MapView.geojsonData (App.map st')
    = MapView.geojsonData (App.map st) ++ [MapView.formatFeature row] /\
  MapView.selectedFeature (App.map st') = Some (MapView.formatFeature row) /\
  MapView.matchedFeatures (App.map st') = [] /\
  MapView.searchQuery (App.map st') = "" /\
  MapView.tempMarker (App.map st') = None /\
  MapView.pinMode (App.map st') = false /\
  Panel.showForm (App.panel st') = false /\
  mout = [MapView.EaseTo (SearchRoute.longitude row, SearchRoute.latitude row) 9 500].
Proof.
  intros Hpending Hid. destruct st as [p m]. cbn [App.panel] in Hpending.
  cbn [App.step App.panel App.map Panel.step]. rewrite Hpending.
  apply Z.eqb_neq in Hid.
  unfold Panel.handleSubmit_resume, Panel.validRecord. cbn. rewrite Hid.
  cbn. auto 10.
Qed.

End PanelBehaviour.

Lemma handleSubmit_sends_iff_valid_witness :
  snd (fst (Panel.handleSubmit filledForm)) = [Panel.FetchSubmit "hi" "bob" 20 10].
Proof.
  pose proof (handleSubmit_sends_iff_valid filledForm) as H.
  destruct (Panel.handleSubmit filledForm) as [[st' out] sent].
  destruct H as (Hiff & Hsent & _).
  assert (sent = true) as Htrue.
  { apply Hiff. split; [simpl; eauto|]. split; reflexivity. }
  destruct (Hsent Htrue) as (lng & lat & Hmarker & Hout & _).
  simpl in Hmarker. injection Hmarker as <- <-. exact Hout.
Defined.

Lemma closed_form_is_blank_witness :
  Panel.formData (fst (Panel.run (fun _ => 0) Panel.init sampleFormSession))
  = {| Panel.message := ""; Panel.receiver := "" |}.
Proof.
  destruct (closed_form_is_blank (fun _ : string => 0) sampleFormSession) as [H _].
  apply H. vm_compute. reflexivity.
Defined.

Lemma pin_mode_follows_the_form_witness :
  MapView.pinMode (App.map (App.run (fun _ => 0) (App.init (0, 0)) samplePageSession))
  = false.
Proof.
  pose proof (pin_mode_follows_the_form (fun _ : string => 0) (0, 0) samplePageSession) as H.
  cbv zeta in H. rewrite H. vm_compute. reflexivity.
Defined.

Lemma created_pin_reaches_the_map_witness :
  MapView.selectedFeature
    (App.map (App.run (fun _ => 0) (App.init (0, 0)) samplePageSession))
  = Some (MapView.formatFeature bob).
Proof.
  assert (SearchRoute.id bob <> 0) as Hid by (simpl; lia).
  pose proof (created_pin_reaches_the_map (fun _ : string => 0)
                (App.run (fun _ => 0) (App.init (0, 0)) (removelast samplePageSession))
                bob [] None eq_refl Hid) as H.
  change (App.run (fun _ => 0) (App.init (0, 0)) samplePageSession)
    with (fst (fst (App.step (fun _ => 0)
                      (App.run (fun _ => 0) (App.init (0, 0)) (removelast samplePageSession))
                      (App.PanelEvent
                         (Panel.SubmitAnswer (Panel.HttpOk (Some [memoryOfRow bob]))) None)))).
  destruct (App.step _ _ _) as [[st' pout] mout].
  exact (proj1 (proj2 H)).
Defined.

Example page_session_ends :
  let st := App.run (fun _ => 0) (App.init (0, 0)) samplePageSession in
  MapView.geojsonData (App.map st) = MapView.formatFeatures [bob] /\
  MapView.tempMarker (App.map st) = None /\
  Panel.showForm (App.panel st) = false /\
  Panel.markerLocation (App.panel st) = None.
Proof. vm_compute. auto. Qed.

(** ** The form with an image, and the create endpoint *)

Lemma startsWith_app (prefix rest : string) : JS.startsWith prefix (prefix +:+ rest) = true.
Proof.
  induction prefix as [|c prefix IH]; [reflexivity|].
  change (String c prefix +:+ rest) with (String c (prefix +:+ rest)).
  cbn [JS.startsWith]. by rewrite Ascii.eqb_refl.
Qed.

Lemma includes_app (sub rest : string) : JS.includes (sub +:+ rest) sub = true.
Proof.
  assert (forall s, JS.startsWith sub s = true -> JS.includes s sub = true) as H.
  { intros s Hs. destruct s; cbn [JS.includes]; by rewrite Hs. }
  apply H, startsWith_app.
Qed.

Lemma truthy_of_nonblank (s : string) : isBlank s = false -> JS.truthy s = true.
Proof. by destruct s. Qed.

Section ImageFormAndRoute.

Context {number : Type}.
Variable toString : number -> string.
Variable parseFloat : string -> number.

(** X26.  What the form lets through, the server does not reject as
    incomplete.  Since a number never prints as the empty string, the
    request [handleSubmit] sends is never answered 400: the multipart branch
    goes on to the upload and the insert, and answers 200 or 500. *)
Theorem validated_form_passes_server_validation (st st' : @PanelWithImage.State number)
    (formPayload : PanelWithImage.FormPayload) (boundary : string)
    (env : @SubmitRoute.Env number) (bucket : gmap string SubmitRoute.Blob) :
  (forall n, toString n <> "") ->
  PanelWithImage.handleSubmit toString st
  = (st', [PanelWithImage.FetchSubmit formPayload], true) ->
  let '(response, bucket', calls) :=
    SubmitRoute.POST parseFloat env bucket (PanelWithImage.requestOf boundary formPayload) in
  (SubmitRoute.status response = 200 \/ SubmitRoute.status response = 500) /\
  calls <> [].
Proof.
  intros Hprint Hsubmit. unfold PanelWithImage.handleSubmit in Hsubmit.
  cbn [PanelWithImage.markerLocation PanelWithImage.setErrorMessage
       PanelWithImage.formData] in Hsubmit.
  destruct (PanelWithImage.markerLocation st) as [[lng lat]|]; [|discriminate].
  rewrite !truthy_trim, !negb_involutive in Hsubmit.
  destruct (isBlank (PanelWithImage.message (PanelWithImage.formData st))) eqn:Hmessage;
    [discriminate|].
  destruct (isBlank (PanelWithImage.receiver (PanelWithImage.formData st))) eqn:Hreceiver;
    [discriminate|].
  cbn [orb] in Hsubmit. injection Hsubmit as _ <-.
  unfold SubmitRoute.POST, PanelWithImage.requestOf.
  cbn [SubmitRoute.contentType SubmitRoute.payload].
  assert (JS.includes ("multipart/form-data; boundary=" +:+ boundary) "multipart/form-data"
          = true) as ->.
  { exact (includes_app "multipart/form-data" ("; boundary=" +:+ boundary)). }
  cbn [negb]. unfold SubmitRoute.POST_multipart, SubmitRoute.missing.
  cbn [SubmitRoute.form_message SubmitRoute.form_receiver SubmitRoute.form_latitude
       SubmitRoute.form_longitude SubmitRoute.form_image
       PanelWithImage.entry_message PanelWithImage.entry_receiver
       PanelWithImage.entry_latitude PanelWithImage.entry_longitude
       PanelWithImage.entry_image JS.truthy_opt].
  rewrite (truthy_of_nonblank _ Hmessage), (truthy_of_nonblank _ Hreceiver).
  assert (forall n, JS.truthy (toString n) = true) as Htruthy.
  { intros n. specialize (Hprint n). by destruct (toString n). }
  rewrite !Htruthy. cbn [negb orb].
  assert (forall b imagePath imageUrl (calls0 : list (@SubmitRoute.Call number)) form,
            let '(response, bucket', calls) :=
              SubmitRoute.POST_insert parseFloat env b form imagePath imageUrl calls0 in
            (SubmitRoute.status response = 200 \/ SubmitRoute.status response = 500) /\
            calls <> []) as Hinsert.
  { intros b imagePath imageUrl calls0 form. unfold SubmitRoute.POST_insert.
    destruct (SubmitRoute.insertResult env); [destruct imagePath|];
      cbn; (split; [auto|]); by destruct calls0. }
  destruct (PanelWithImage.image (PanelWithImage.formData st)) as [imageFile|];
    [|apply Hinsert].
  destruct (0 <? SubmitRoute.file_size imageFile); [|apply Hinsert].
  destruct (SubmitRoute.upload _ _ _ _); [apply Hinsert|].
  cbn. auto.
Qed.

(** X27.  A photo the form has compressed keeps the name of the original
    file.  So, once the form is submitted, the create endpoint uploads the
    JPEG bytes with the content type image/jpeg, yet under a path that ends
    with the extension of the original name. *)
Theorem compressed_photo_keeps_its_name (st : @PanelWithImage.State number)
    (originalFile : SubmitRoute.File) (bytes : list Byte.byte) (boundary : string)
    (env : @SubmitRoute.Env number) (bucket : gmap string SubmitRoute.Blob) :
  (forall n, toString n <> "") ->
  is_Some (PanelWithImage.markerLocation st) ->
  isBlank (PanelWithImage.message (PanelWithImage.formData st)) = false ->
  isBlank (PanelWithImage.receiver (PanelWithImage.formData st)) = false ->
  bytes <> [] ->
  exists formPayload,
    snd (fst (PanelWithImage.handleSubmit toString (attach originalFile (Some bytes) st)))
      = [PanelWithImage.FetchSubmit formPayload] /\
    exists rest,
      snd (SubmitRoute.POST parseFloat env bucket
             (PanelWithImage.requestOf boundary formPayload))
      = SubmitRoute.StorageUpload
          ("images/" +:+ SubmitRoute.uuidv4 env +:+ "." +:+
           SubmitRoute.pop (SubmitRoute.split "." (SubmitRoute.file_name originalFile)))
          {| SubmitRoute.blob_bytes := bytes;
             SubmitRoute.blob_contentType := "image/jpeg";
             SubmitRoute.blob_cacheControl := "3600" |} :: rest.
Proof.
  intros Hprint [[lng lat] Hmarker] Hmessage Hreceiver Hbytes.
  unfold attach, PanelWithImage.handleImageChange, PanelWithImage.handleImageChange_resume.
  cbn [fst]. unfold PanelWithImage.handleSubmit.
  cbn [PanelWithImage.markerLocation PanelWithImage.setErrorMessage
       PanelWithImage.setIsSubmitting PanelWithImage.setImage PanelWithImage.setFormData
       PanelWithImage.formData PanelWithImage.message PanelWithImage.receiver
       PanelWithImage.image].
  rewrite Hmarker, !truthy_trim, Hmessage, Hreceiver. cbn [negb orb fst snd].
  eexists. split; [reflexivity|].
  unfold SubmitRoute.POST, PanelWithImage.requestOf.
  cbn [SubmitRoute.contentType SubmitRoute.payload].
  assert (JS.includes ("multipart/form-data; boundary=" +:+ boundary) "multipart/form-data"
          = true) as ->.
  { exact (includes_app "multipart/form-data" ("; boundary=" +:+ boundary)). }
  cbn [negb]. unfold SubmitRoute.POST_multipart, SubmitRoute.missing.
  cbn [SubmitRoute.form_message SubmitRoute.form_receiver SubmitRoute.form_latitude
       SubmitRoute.form_longitude SubmitRoute.form_image
       PanelWithImage.entry_message PanelWithImage.entry_receiver
       PanelWithImage.entry_latitude PanelWithImage.entry_longitude
       PanelWithImage.entry_image JS.truthy_opt].
  rewrite (truthy_of_nonblank _ Hmessage), (truthy_of_nonblank _ Hreceiver).
  assert (forall n, JS.truthy (toString n) = true) as Htruthy.
  { intros n. specialize (Hprint n). by destruct (toString n). }
  rewrite !Htruthy. cbn [negb orb].
  cbn [PanelWithImage.compressedFile SubmitRoute.file_size SubmitRoute.file_name
       SubmitRoute.file_type SubmitRoute.file_bytes].
  assert ((0 <? Z.of_nat (length bytes)) = true) as ->.
  { apply Z.ltb_lt. destruct bytes; [done|]. cbn [length]. lia. }
  destruct (SubmitRoute.upload _ _ _ _) as [bucket'|]; [|eexists; reflexivity].
  unfold SubmitRoute.POST_insert.
  destruct (SubmitRoute.insertResult env); eexists; reflexivity.
Qed.

(** X28.  A photo whose compression fails is not lost.  The form falls back
    to the original file and shows an error; submitting then clears the
    error and sends the original, which the create endpoint uploads with the
    original bytes and content type. *)
Theorem failed_compression_submits_the_original (st : @PanelWithImage.State number)
    (originalFile : SubmitRoute.File) (boundary : string)
    (env : @SubmitRoute.Env number) (bucket : gmap string SubmitRoute.Blob) :
  (forall n, toString n <> "") ->
  is_Some (PanelWithImage.markerLocation st) ->
  isBlank (PanelWithImage.message (PanelWithImage.formData st)) = false ->
  isBlank (PanelWithImage.receiver (PanelWithImage.formData st)) = false ->
  0 < SubmitRoute.file_size originalFile ->
  let attached := attach originalFile None st in
  PanelWithImage.errorMessage attached = Some "Failed to process image" /\
  PanelWithImage.isSubmitting attached = false /\
  exists formPayload,
    snd (fst (PanelWithImage.handleSubmit toString attached))
      = [PanelWithImage.FetchSubmit formPayload] /\
    PanelWithImage.errorMessage (fst (fst (PanelWithImage.handleSubmit toString attached)))
      = None /\
    exists rest,
      snd (SubmitRoute.POST parseFloat env bucket
             (PanelWithImage.requestOf boundary formPayload))
      = SubmitRoute.StorageUpload
          ("images/" +:+ SubmitRoute.uuidv4 env +:+ "." +:+
           SubmitRoute.pop (SubmitRoute.split "." (SubmitRoute.file_name originalFile)))
          {| SubmitRoute.blob_bytes := SubmitRoute.file_bytes originalFile;
             SubmitRoute.blob_contentType := SubmitRoute.file_type originalFile;
             SubmitRoute.blob_cacheControl := "3600" |} :: rest.
Proof.
  intros Hprint [[lng lat] Hmarker] Hmessage Hreceiver Hsize.
  unfold attach, PanelWithImage.handleImageChange, PanelWithImage.handleImageChange_resume.
  cbn [fst]. split; [reflexivity|]. split; [reflexivity|].
  unfold PanelWithImage.handleSubmit.
  cbn [PanelWithImage.markerLocation PanelWithImage.setErrorMessage
       PanelWithImage.setIsSubmitting PanelWithImage.setImage PanelWithImage.setFormData
       PanelWithImage.formData PanelWithImage.message PanelWithImage.receiver
       PanelWithImage.image].
  rewrite Hmarker, !truthy_trim, Hmessage, Hreceiver. cbn [negb orb fst snd].
  eexists. split; [reflexivity|]. split; [reflexivity|].
  unfold SubmitRoute.POST, PanelWithImage.requestOf.
  cbn [SubmitRoute.contentType SubmitRoute.payload].
  assert (JS.includes ("multipart/form-data; boundary=" +:+ boundary) "multipart/form-data"
          = true) as ->.
  { exact (includes_app "multipart/form-data" ("; boundary=" +:+ boundary)). }
  cbn [negb]. unfold SubmitRoute.POST_multipart, SubmitRoute.missing.
  cbn [SubmitRoute.form_message SubmitRoute.form_receiver SubmitRoute.form_latitude
       SubmitRoute.form_longitude SubmitRoute.form_image
       PanelWithImage.entry_message PanelWithImage.entry_receiver
       PanelWithImage.entry_latitude PanelWithImage.entry_longitude
       PanelWithImage.entry_image JS.truthy_opt].
  rewrite (truthy_of_nonblank _ Hmessage), (truthy_of_nonblank _ Hreceiver).
  assert (forall n, JS.truthy (toString n) = true) as Htruthy.
  { intros n. specialize (Hprint n). by destruct (toString n). }
  rewrite !Htruthy. cbn [negb orb].
  assert ((0 <? SubmitRoute.file_size originalFile) = true) as -> by by apply Z.ltb_lt.
  destruct (SubmitRoute.upload _ _ _ _) as [bucket'|]; [|eexists; reflexivity].
  unfold SubmitRoute.POST_insert.
  destruct (SubmitRoute.insertResult env); eexists; reflexivity.
Qed.

End ImageFormAndRoute.

Lemma validated_form_passes_server_validation_witness :
  let '(response, bucket', calls) :=
    SubmitRoute.POST (fun _ => 0) acceptingEnv ∅
      (PanelWithImage.requestOf "x7"
         {| PanelWithImage.entry_message := "hi"; PanelWithImage.entry_receiver := "bob";
            PanelWithImage.entry_latitude := "1"; PanelWithImage.entry_longitude := "1";
            PanelWithImage.entry_image := None |}) in
  (SubmitRoute.status response = 200 \/ SubmitRoute.status response = 500) /\
  calls <> [].
Proof.
  refine (validated_form_passes_server_validation (fun _ : Z => "1") (fun _ => 0)
            filledImageForm _ _ "x7" acceptingEnv ∅ _ eq_refl).
  intros n. discriminate.
Defined.

Lemma compressed_photo_keeps_its_name_witness :
  exists formPayload,
    snd (fst (PanelWithImage.handleSubmit (fun _ : Z => "1")
                (attach pngPhoto (Some [Byte.xff; Byte.xd8]) filledImageForm)))
      = [PanelWithImage.FetchSubmit formPayload] /\
    exists rest,
      snd (SubmitRoute.POST (fun _ => 0) acceptingEnv ∅
             (PanelWithImage.requestOf "x7" formPayload))
      = SubmitRoute.StorageUpload "images/3f2a.png"
          {| SubmitRoute.blob_bytes := [Byte.xff; Byte.xd8];
             SubmitRoute.blob_contentType := "image/jpeg";
             SubmitRoute.blob_cacheControl := "3600" |} :: rest.
Proof.
  refine (compressed_photo_keeps_its_name (fun _ : Z => "1") (fun _ => 0)
            filledImageForm pngPhoto [Byte.xff; Byte.xd8] "x7" acceptingEnv ∅
            _ _ eq_refl eq_refl _).
  - intros n. discriminate.
  - by eexists.
  - discriminate.
Defined.

Lemma failed_compression_submits_the_original_witness :
  PanelWithImage.errorMessage (attach pngPhoto None filledImageForm)
  = Some "Failed to process image" /\
  exists formPayload,
    snd (fst (PanelWithImage.handleSubmit (fun _ : Z => "1")
                (attach pngPhoto None filledImageForm)))
      = [PanelWithImage.FetchSubmit formPayload] /\
    PanelWithImage.entry_image formPayload = Some pngPhoto.
Proof.
  destruct (failed_compression_submits_the_original (fun _ : Z => "1") (fun _ => 0)
              filledImageForm pngPhoto "x7" acceptingEnv ∅)
    as (Herror & _ & formPayload & Hsent & _ & _).
  - intros n. discriminate.
  - by eexists.
  - reflexivity.
  - reflexivity.
  - reflexivity.
  - split; [exact Herror|]. exists formPayload. split; [exact Hsent|].
    cbn in Hsent. by injection Hsent as <-.
Defined.
